(** * FACTURA-ACOUNT: invoicing, dashboard and service-costing logic of [App.tsx]

    A shallow embedding of the handlers of [src/App.tsx] that derive stored
    state (invoice save, invoice numbering, service costing, dashboard
    aggregation), together with the part of the JavaScript built-ins they
    call ([String.prototype.includes], [padStart], [toLowerCase],
    [Array.prototype.find/filter/map/reduce/some], and the [Date] object).

    Conventions.
    - A JavaScript [string] is a [string] of bytes (the UTF-8 encoding of its
      text); the two fixed sentences of the invoice form are written with
      their accents.
    - A JavaScript [number] that holds a price, an amount or a quantity
      typed into a form is a [JS.double]: an IEEE 754 binary64 value with the
      operations of the Standard Library's [SpecFloat] (round to nearest,
      ties to even; NaN, the infinities and the two zeros included), so
      sums and products round as they do in the browser.  A [number] that
      holds a whole value and is only counted or compared (a time value in
      milliseconds since the epoch, the length of an array, the [parseInt]
      of a quantity field) is an integer of [Z] ([JS.number]).
    - An optional field [f?: T] is an [option T]; [undefined] is [None].
    - [generateId()] is random: the identifier it returns is an argument of
      the handler that calls it.  The clock and the time zone of the browser
      are arguments too: [now] is the time value of [new Date()], [tz] the
      time zone, which gives the offset of local time from UTC at each
      instant.  A number of milliseconds written for a zone stands for the
      zone with that offset at every instant, a zone without daylight
      saving ([0] for UTC, [Sample.santoDomingo]).
    - A React state setter is the function from the state before the event
      to the state after it. *)

From Stdlib Require Import ZArith List String Ascii Bool Lia Arith.
From Stdlib Require Import Numbers.DecimalString Numbers.DecimalNat.
From Stdlib Require Import Permutation Sorted.
From Stdlib Require Import Floats.SpecFloat.
Import ListNotations.

Local Open Scope string_scope.
Local Open Scope Z_scope.

(** ** JavaScript strings *)

Module JS.

(** A number that holds a whole value: a time value, a length, the
    [parseInt] of a field. *)
Definition number := Z.

(** [s ? a : b] and [s || d] on a string: the empty string is falsy. *)
Definition truthy (s : string) : bool :=
  match s with EmptyString => false | String _ _ => true end.

(** [s.includes(t)]: [t] occurs in [s] at some position. *)
Fixpoint includes (s t : string) : bool :=
  String.prefix t s ||
  match s with
  | EmptyString => false
  | String _ s' => includes s' t
  end.

(** The line feed of the template literals [`${notes}\n\n${text}`]. *)
Definition LF : string := String (ascii_of_nat 10) EmptyString.

(** [s.toLowerCase()].  Only the letters A-Z are mapped; the one needle the
    program searches for after lowering is made of ASCII letters. *)
Definition lowerChar (c : ascii) : ascii :=
  let n := nat_of_ascii c in
  if (andb (Nat.leb 65 n) (Nat.leb n 90)) then ascii_of_nat (n + 32) else c.

Fixpoint toLowerCase (s : string) : string :=
  match s with
  | EmptyString => EmptyString
  | String c s' => String (lowerChar c) (toLowerCase s')
  end.

(** [n.toString()] for a non-negative integer. *)
Definition toString (n : nat) : string :=
  NilEmpty.string_of_uint (Nat.to_uint n).

(** The filler of [padStart]: [fill] repeated and cut to [k] characters;
    [cur] is what is left of the current copy of [fill]. *)
Fixpoint filler (fill cur : string) (k : nat) : string :=
  match k with
  | O => EmptyString
  | S k' =>
      match cur with
      | String c cur' => String c (filler fill cur' k')
      | EmptyString =>
          match fill with
          | String c cur' => String c (filler fill cur' k')
          | EmptyString => EmptyString
          end
      end
  end.

(** [s.padStart(targetLength, fill)]. *)
Definition padStart (s : string) (targetLength : nat) (fill : string) : string :=
  if Nat.leb targetLength (String.length s) then s
  else filler fill fill (targetLength - String.length s) ++ s.

(** A number that holds a price, an amount or a quantity: a binary64 value
    (53 bits of precision, exponents below 1024).  [+], [-], [*] and [/] of
    JavaScript are the IEEE 754 operations, rounded to nearest, ties to
    even. *)
Definition double := spec_float.

Definition add : double -> double -> double := SFadd 53 1024.
Definition sub : double -> double -> double := SFsub 53 1024.
Definition mul : double -> double -> double := SFmul 53 1024.
Definition div : double -> double -> double := SFdiv 53 1024.

(** The literal [0]. *)
Definition zero : double := S754_zero false.

(** The double of a whole number (a literal such as [1], the result of
    [parseInt]): the nearest one, the number itself below 2^53. *)
Definition ofZ (z : Z) : double := binary_normalize 53 1024 z 0 false.

End JS.

Declare Scope double_scope.
Delimit Scope double_scope with D.
Infix "+" := JS.add : double_scope.
Infix "-" := JS.sub : double_scope.
Infix "*" := JS.mul : double_scope.
Infix "/" := JS.div : double_scope.

(** ** The [Date] object

    Time values, day numbers and calendar fields as ECMAScript defines them
    (ECMA-262, "Time Values and Time Range" to "MakeDate").  [YearFromTime]
    is specified there as the largest year whose first instant is not after
    the time value; [YearFromDay] computes it from a first estimate that is
    off by at most one year. *)

Module JSDate.

Definition msPerDay : Z := 86400000.

Definition Day (t : Z) : Z := t / msPerDay.
Definition TimeWithinDay (t : Z) : Z := t mod msPerDay.

Definition isLeap (y : Z) : bool :=
  (y mod 4 =? 0) && (negb (y mod 100 =? 0) || (y mod 400 =? 0)).

Definition DaysInYear (y : Z) : Z := if isLeap y then 366 else 365.

Definition DayFromYear (y : Z) : Z :=
  365 * (y - 1970) + (y - 1969) / 4 - (y - 1901) / 100 + (y - 1601) / 400.

Definition YearFromDay (d : Z) : Z :=
  let y0 := 1970 + (400 * d) / 146097 in
  if DayFromYear (y0 + 1) <=? d then y0 + 1
  else if DayFromYear y0 <=? d then y0
  else y0 - 1.

Definition YearFromTime (t : Z) : Z := YearFromDay (Day t).

Definition DayWithinYear (t : Z) : Z := Day t - DayFromYear (YearFromTime t).

Definition InLeapYear (t : Z) : Z := if isLeap (YearFromTime t) then 1 else 0.

(** Day number, within its year, of the first day of month [m] (0-11);
    [l] is 1 in a leap year. *)
Definition monthStart (m l : Z) : Z :=
  match m with
  | 0 => 0
  | 1 => 31
  | 2 => 59 + l
  | 3 => 90 + l
  | 4 => 120 + l
  | 5 => 151 + l
  | 6 => 181 + l
  | 7 => 212 + l
  | 8 => 243 + l
  | 9 => 273 + l
  | 10 => 304 + l
  | _ => 334 + l
  end.

(** The month (0-11) of day [d] of a year; [l] is 1 in a leap year. *)
Definition monthOfDay (d l : Z) : Z :=
  if d <? 31 then 0
  else if d <? 59 + l then 1
  else if d <? 90 + l then 2
  else if d <? 120 + l then 3
  else if d <? 151 + l then 4
  else if d <? 181 + l then 5
  else if d <? 212 + l then 6
  else if d <? 243 + l then 7
  else if d <? 273 + l then 8
  else if d <? 304 + l then 9
  else if d <? 334 + l then 10
  else 11.

Definition MonthFromTime (t : Z) : Z :=
  monthOfDay (DayWithinYear t) (InLeapYear t).

Definition DateFromTime (t : Z) : Z :=
  DayWithinYear t - monthStart (MonthFromTime t) (InLeapYear t) + 1.

Definition MakeDay (year month date : Z) : Z :=
  let ym := year + month / 12 in
  let mn := month mod 12 in
  DayFromYear ym + monthStart mn (if isLeap ym then 1 else 0) + date - 1.

Definition MakeDate (day time : Z) : Z := day * msPerDay + time.

(** Number of days of month [m] (1-12) of year [y]. *)
Definition daysInMonth (y m : Z) : Z :=
  match m with
  | 2 => if isLeap y then 29 else 28
  | 4 | 6 | 9 | 11 => 30
  | _ => 31
  end.

(** The environment of a [Date]: the time zone, that is the offset of local
    time from UTC in milliseconds ([LocalTZA]) as a function of the instant.
    [offsetAt t] is the offset in force at the UTC time value [t];
    [offsetOf t] is the offset by which the local time value [t] is read
    (where an offset changes, the offset before the change). *)
Record zone := {
  offsetAt : Z -> Z;
  offsetOf : Z -> Z
}.

(** A zone without daylight saving: one offset at every instant, e.g.
    [-4 * 3600000] for America/Santo_Domingo. *)
Definition fixed (tza : Z) : zone :=
  {| offsetAt := fun _ => tza; offsetOf := fun _ => tza |}.

Definition LocalTime (tz : zone) (t : Z) : Z := t + offsetAt tz t.
Definition UTC (tz : zone) (t : Z) : Z := t - offsetOf tz t.

(** A [Date] object: its time value, [None] for an Invalid Date (NaN). *)
Definition Date := option Z.

Definition digit (c : ascii) : option Z :=
  let n := nat_of_ascii c in
  if (andb (Nat.leb 48 n) (Nat.leb n 57)) then Some (Z.of_nat (n - 48)) else None.

Definition isDash (c : ascii) : bool := Ascii.eqb c "-"%char.

(** The calendar fields of a date-only string [YYYY-MM-DD], the form that
    an [<input type=date>] and [toISOString().split('T')[0]] produce. *)
Definition fieldsOfString (s : string) : option (Z * Z * Z) :=
  match s with
  | String y1 (String y2 (String y3 (String y4 (String s1
    (String m1 (String m2 (String s2 (String d1 (String d2 EmptyString))))))))) =>
      match digit y1, digit y2, digit y3, digit y4,
            digit m1, digit m2, digit d1, digit d2 with
      | Some a, Some b, Some c, Some d, Some e, Some f, Some g, Some h =>
          let y := 1000 * a + 100 * b + 10 * c + d in
          let m := 10 * e + f in
          let dd := 10 * g + h in
          if isDash s1 && isDash s2 && (1 <=? m) && (m <=? 12)
             && (1 <=? dd) && (dd <=? daysInMonth y m)
          then Some (y, m, dd) else None
      | _, _, _, _, _, _, _, _ => None
      end
  | _ => None
  end.

(** [new Date(s)] for a date-only string: midnight UTC of that day.  Every
    other string is taken as an Invalid Date. *)
Definition ofString (s : string) : Date :=
  match fieldsOfString s with
  | Some (y, m, d) => Some (MakeDate (MakeDay y (m - 1) d) 0)
  | None => None
  end.

(** [d.getMonth()] and [d.getFullYear()]: fields of the local time. *)
Definition getMonth (tz : zone) (d : Date) : option Z :=
  option_map (fun t => MonthFromTime (LocalTime tz t)) d.

Definition getFullYear (tz : zone) (d : Date) : option Z :=
  option_map (fun t => YearFromTime (LocalTime tz t)) d.

(** [d.setMonth(month)]: the month of the local time is replaced, the day
    of the month and the time within the day are kept, and [MakeDay]
    carries an out-of-range month or day over. *)
Definition setMonth (tz : zone) (d : Date) (month : option Z) : Date :=
  match d, month with
  | Some tv, Some m =>
      let t := LocalTime tz tv in
      let newDate := MakeDate (MakeDay (YearFromTime t) m (DateFromTime t))
                              (TimeWithinDay t) in
      Some (UTC tz newDate)
  | _, _ => None
  end.

Definition pad (width : nat) (n : Z) : string :=
  JS.padStart (JS.toString (Z.to_nat n)) width "0".

Definition isoYear (y : Z) : string :=
  if (0 <=? y) && (y <=? 9999) then pad 4 y
  else if y <? 0 then "-" ++ pad 6 (- y)
  else "+" ++ pad 6 y.

(** [d.toISOString().split('T')[0]]: the UTC calendar date;
    [toISOString] throws a RangeError on an Invalid Date ([None]). *)
Definition toISODate (d : Date) : option string :=
  match d with
  | Some t =>
      Some (isoYear (YearFromTime t) ++ "-" ++ pad 2 (MonthFromTime t + 1)
            ++ "-" ++ pad 2 (DateFromTime t))
  | None => None
  end.

End JSDate.

(** A number of milliseconds written where a zone is expected stands for the
    zone that has this offset at every instant. *)
Coercion JSDate.fixed : Z >-> JSDate.zone.

(** ** The data model ([types.ts]) *)

Inductive ClientType := Residencial | Comercial.
Inductive InvoiceStatus := Borrador | Enviada | Pagada | Vencida.
Inductive ExpenseCategory := Materiales | Combustible | Herramientas | Marketing | Otro.

Definition ClientType_eqb (a b : ClientType) : bool :=
  match a, b with
  | Residencial, Residencial | Comercial, Comercial => true
  | _, _ => false
  end.

Definition InvoiceStatus_eqb (a b : InvoiceStatus) : bool :=
  match a, b with
  | Borrador, Borrador | Enviada, Enviada | Pagada, Pagada | Vencida, Vencida => true
  | _, _ => false
  end.

Module Client.
Record t := mk {
  id : string;
  name : string;
  address : string;
  phone : string;
  email : string;
  createdAt : string;
  type : ClientType
}.

(** [{ ...c, id, createdAt }] *)
Definition withIdCreated (c : t) (i created : string) : t :=
  mk i (name c) (address c) (phone c) (email c) created (type c).
End Client.

Module InvoiceItem.
Record t := mk {
  id : string;
  description : string;
  quantity : JS.double;
  unitPrice : JS.double;
  isMaintenance : option bool;
  isNewEquipment : option bool
}.
End InvoiceItem.

Module Invoice.
Record t := mk {
  id : string;
  clientId : string;
  invoiceNumber : string;
  issueDate : string;
  dueDate : string;
  items : list InvoiceItem.t;
  notes : option string;
  status : InvoiceStatus;
  lastMaintenanceDate : option string;
  nextMaintenanceDate : option string
}.

(** [{ ...inv, items }] *)
Definition withItems (inv : t) (its : list InvoiceItem.t) : t :=
  mk (id inv) (clientId inv) (invoiceNumber inv) (issueDate inv) (dueDate inv)
     its (notes inv) (status inv) (lastMaintenanceDate inv)
     (nextMaintenanceDate inv).

(** [{ ...inv, id, invoiceNumber }] *)
Definition withIdNumber (inv : t) (i n : string) : t :=
  mk i (clientId inv) n (issueDate inv) (dueDate inv) (items inv) (notes inv)
     (status inv) (lastMaintenanceDate inv) (nextMaintenanceDate inv).

(** [inv.nextMaintenanceDate = d; inv.notes = n] *)
Definition withDerived (inv : t) (d : option string) (n : string) : t :=
  mk (id inv) (clientId inv) (invoiceNumber inv) (issueDate inv) (dueDate inv)
     (items inv) (Some n) (status inv) (lastMaintenanceDate inv) d.
End Invoice.

Module InventoryItem.
Record t := mk {
  id : string;
  name : string;
  description : string;
  quantity : JS.double;
  unitPrice : JS.double
}.

(** [{ ...item, id }] *)
Definition withId (item : t) (i : string) : t :=
  mk i (name item) (description item) (quantity item) (unitPrice item).
End InventoryItem.

Module Expense.
Record t := mk {
  id : string;
  description : string;
  amount : JS.double;
  date : string;
  category : ExpenseCategory
}.

(** [{ ...e, id }] *)
Definition withId (e : t) (i : string) : t :=
  mk i (description e) (amount e) (date e) (category e).
End Expense.

(** [quantity] is the [parseInt] of the quantity field, or 0. *)
Module ServiceItem.
Record t := mk {
  inventoryItemId : string;
  quantity : JS.number
}.
End ServiceItem.

Module Service.
Record t := mk {
  id : string;
  name : string;
  description : string;
  items : list ServiceItem.t;
  laborCost : JS.double;
  totalPrice : JS.double
}.

(** [{ ...s, items }] *)
Definition withItems (s : t) (its : list ServiceItem.t) : t :=
  mk (id s) (name s) (description s) its (laborCost s) (totalPrice s).

(** [{ ...s, id, totalPrice }] *)
Definition withIdPrice (s : t) (i : string) (p : JS.double) : t :=
  mk i (name s) (description s) (items s) (laborCost s) p.

(** [{ ...s, id }] *)
Definition withId (s : t) (i : string) : t :=
  mk i (name s) (description s) (items s) (laborCost s) (totalPrice s).
End Service.

(** A flag [b?: boolean] used as a condition. *)
Definition flag (b : option bool) : bool :=
  match b with Some true => true | _ => false end.

(** [xs.filter((c): c is T => !!c)] on the result of a [map] with [find]. *)
Fixpoint defined {A : Type} (xs : list (option A)) : list A :=
  match xs with
  | [] => []
  | Some x :: r => x :: defined r
  | None :: r => defined r
  end.

(** [xs.filter((_, i) => p(i))]; [i] is the index of the head of [xs]. *)
Fixpoint filterIndex {A : Type} (p : nat -> bool) (i : nat) (xs : list A) : list A :=
  match xs with
  | [] => []
  | x :: r => if p i then x :: filterIndex p (S i) r else filterIndex p (S i) r
  end.

(** [items.reduce((sum, item) => sum + item.quantity * item.unitPrice, 0)],
    the expression shared by the form, the list, the preview and the
    dashboard. *)
Definition itemsTotal (its : list InvoiceItem.t) : JS.double :=
  fold_left
    (fun sum item => (sum + InvoiceItem.quantity item * InvoiceItem.unitPrice item)%D)
    its JS.zero.

(** ** DashboardPage *)

Module DashboardPage.

Definition inWindow (now : Z) (inv : Invoice.t) : bool :=
  let fifteenDaysFromNow := now + 15 * 24 * 60 * 60 * 1000 in
  match Invoice.nextMaintenanceDate inv with
  | Some s =>
      JS.truthy s &&
      match JSDate.ofString s with
      | Some t => (t <=? fifteenDaysFromNow) && (t >=? now)
      | None => false
      end
  | None => false
  end.

Definition addUnique (unique : list Client.t) (item : Client.t) : list Client.t :=
  match find (fun u => String.eqb (Client.id u) (Client.id item)) unique with
  | Some _ => unique
  | None => (unique ++ [item])%list
  end.

Definition upcomingMaintenance (now : Z) (clients : list Client.t)
    (invoices : list Invoice.t) : list Client.t :=
  fold_left addUnique
    (defined
       (map (fun inv =>
               find (fun c => String.eqb (Client.id c) (Invoice.clientId inv)) clients)
            (filter (inWindow now) invoices)))
    [].

(** [d.getMonth() === currentMonth && d.getFullYear() === currentYear] for
    [d = new Date(s)]; a comparison with NaN is false. *)
Definition sameMonth (tz : JSDate.zone) (now : Z) (s : string) : bool :=
  let currentMonth := JSDate.MonthFromTime (JSDate.LocalTime tz now) in
  let currentYear := JSDate.YearFromTime (JSDate.LocalTime tz now) in
  let d := JSDate.ofString s in
  match JSDate.getMonth tz d, JSDate.getFullYear tz d with
  | Some m, Some y => (m =? currentMonth) && (y =? currentYear)
  | _, _ => false
  end.

Definition income (tz : JSDate.zone) (now : Z) (invoices : list Invoice.t)
    : JS.double :=
  fold_left (fun sum inv => (sum + itemsTotal (Invoice.items inv))%D)
    (filter (fun inv => sameMonth tz now (Invoice.issueDate inv))
       (filter (fun inv => InvoiceStatus_eqb (Invoice.status inv) Pagada) invoices))
    JS.zero.

Definition totalExpenses (tz : JSDate.zone) (now : Z) (expenses : list Expense.t)
    : JS.double :=
  fold_left (fun sum exp => (sum + Expense.amount exp)%D)
    (filter (fun exp => sameMonth tz now (Expense.date exp)) expenses)
    JS.zero.

Definition monthlyProfit (tz : JSDate.zone) (now : Z) (invoices : list Invoice.t)
    (expenses : list Expense.t) : JS.double :=
  (income tz now invoices - totalExpenses tz now expenses)%D.

End DashboardPage.

(** ** ServiceForm (ServicesManager) *)

Module ServiceForm.

Definition handleItemQuantityChange (formData : Service.t) (itemId : string)
    (quantity : JS.number) : Service.t :=
  let sameId i := String.eqb (ServiceItem.inventoryItemId i) itemId in
  let newItems :=
    match find sameId (Service.items formData) with
    | Some _ =>
        if quantity >? 0 then
          map (fun i => if sameId i
                        then ServiceItem.mk (ServiceItem.inventoryItemId i) quantity
                        else i)
              (Service.items formData)
        else filter (fun i => negb (sameId i)) (Service.items formData)
    | None =>
        if quantity >? 0
        then (Service.items formData ++ [ServiceItem.mk itemId quantity])%list
        else Service.items formData
    end in
  Service.withItems formData newItems.

Definition materialsCost (inventory : list InventoryItem.t)
    (items : list ServiceItem.t) : JS.double :=
  fold_left
    (fun total serviceItem =>
       let inventoryItem :=
         find (fun i => String.eqb (InventoryItem.id i)
                                   (ServiceItem.inventoryItemId serviceItem))
              inventory in
       (total + match inventoryItem with
                | Some it =>
                    InventoryItem.unitPrice it * JS.ofZ (ServiceItem.quantity serviceItem)
                | None => JS.zero
                end)%D)
    items JS.zero.

(** The service handed to [onSave]. *)
Definition handleSubmit (inventory : list InventoryItem.t)
    (service : option Service.t) (formData : Service.t) : Service.t :=
  let totalPrice := (materialsCost inventory (Service.items formData)
                     + Service.laborCost formData)%D in
  Service.withIdPrice formData
    (match service with Some s => Service.id s | None => "" end) totalPrice.

(** The quantity shown for an inventory item:
    [formData.items.find(i => i.inventoryItemId === item.id)?.quantity || ''];
    [None] is the empty field. *)
Definition displayedQuantity (formData : Service.t) (itemId : string) : option JS.number :=
  match find (fun i => String.eqb (ServiceItem.inventoryItemId i) itemId)
             (Service.items formData) with
  | Some i => if ServiceItem.quantity i =? 0 then None else Some (ServiceItem.quantity i)
  | None => None
  end.

End ServiceForm.

(** ** ServicesManager *)

Module ServicesManager.

(** [services] is the stored collection; [editingService] is the service
    under edit, [None] after "Nuevo Servicio". *)
Definition handleSaveService (editingService : option Service.t)
    (services : list Service.t) (newId : string) (service : Service.t)
    : list Service.t :=
  match editingService with
  | Some _ =>
      map (fun s => if String.eqb (Service.id s) (Service.id service) then service else s)
          services
  | None => (services ++ [Service.withId service newId])%list
  end.

(** The form mounted by the manager: [<ServiceForm service={editingService}
    onSave={handleSaveService} .../>].  The result is the stored collection
    after the submit. *)
Definition submit (inventory : list InventoryItem.t)
    (editingService : option Service.t) (services : list Service.t)
    (newId : string) (formData : Service.t) : list Service.t :=
  handleSaveService editingService services newId
    (ServiceForm.handleSubmit inventory editingService formData).

(** [confirmed] is the answer to [window.confirm]. *)
Definition handleDeleteService (confirmed : bool) (services : list Service.t)
    (serviceId : string) : list Service.t :=
  if confirmed
  then filter (fun s => negb (String.eqb (Service.id s) serviceId)) services
  else services.

End ServicesManager.

(** ** InvoiceForm *)

Module InvoiceForm.

Definition warrantyText : string :=
  "Garantía de un año. La garantía solo cubre daños por naturaleza del equipo, no provocados por cortocircuitos.".

Definition maintenanceText (maintenanceMonths : nat) : string :=
  "Recomendación: Realizar el primer mantenimiento preventivo en "
  ++ JS.toString maintenanceMonths
  ++ " meses para asegurar el óptimo funcionamiento y la validez de la garantía.".

(** [notes ? `${notes}\n\n${text}` : text] *)
Definition joinNote (notes text : string) : string :=
  if JS.truthy notes then notes ++ JS.LF ++ JS.LF ++ text else text.

Definition handleAddService (newId : string) (service : Service.t)
    (formData : Invoice.t) : Invoice.t :=
  let newItem :=
    InvoiceItem.mk newId (Service.name service) (JS.ofZ 1) (Service.totalPrice service)
      (Some (JS.includes (JS.toLowerCase (Service.name service)) "mantenimiento"))
      (Some false) in
  Invoice.withItems formData (Invoice.items formData ++ [newItem])%list.

Definition handleAddItem (newId : string) (formData : Invoice.t) : Invoice.t :=
  Invoice.withItems formData
    (Invoice.items formData
     ++ [InvoiceItem.mk newId "" (JS.ofZ 1) JS.zero (Some false) (Some false)])%list.

Definition handleRemoveItem (index : nat) (formData : Invoice.t) : Invoice.t :=
  Invoice.withItems formData
    (filterIndex (fun i => negb (Nat.eqb i index)) 0 (Invoice.items formData)).

(** What a submit does: an alert and nothing else, an uncaught RangeError
    (from [toISOString] on an Invalid Date), or a call of [onSave]. *)
Inductive outcome :=
| Alert (msg : string)
| RangeError
| Saved (inv : Invoice.t).

Definition nextMaintenance (tz : JSDate.zone) (formData : Invoice.t)
    : option (option string) :=
  if existsb (fun item => flag (InvoiceItem.isMaintenance item)) (Invoice.items formData)
  then
    let issue := JSDate.ofString (Invoice.issueDate formData) in
    let issue := JSDate.setMonth tz issue
                   (option_map (fun m => m + 6) (JSDate.getMonth tz issue)) in
    match JSDate.toISODate issue with
    | Some s => Some (Some s)
    | None => None
    end
  else Some None.

Definition finalNotes (client : Client.t) (formData : Invoice.t) : string :=
  let notes := match Invoice.notes formData with Some s => s | None => "" end in
  let hasNewEquipment :=
    existsb (fun item => flag (InvoiceItem.isNewEquipment item)) (Invoice.items formData) in
  let notes :=
    if hasNewEquipment && negb (JS.includes notes warrantyText)
    then joinNote notes warrantyText else notes in
  if hasNewEquipment then
    let maintenanceMonths :=
      if ClientType_eqb (Client.type client) Comercial then 3%nat else 6%nat in
    let maintenanceText := maintenanceText maintenanceMonths in
    if negb (JS.includes notes maintenanceText)
    then joinNote notes maintenanceText else notes
  else notes.

Definition handleSubmit (tz : JSDate.zone) (clients : list Client.t)
    (invoice : option Invoice.t) (formData : Invoice.t) : outcome :=
  match find (fun c => String.eqb (Client.id c) (Invoice.clientId formData)) clients with
  | None => Alert "Por favor, seleccione un cliente."
  | Some client =>
      match nextMaintenance tz formData with
      | None => RangeError
      | Some next =>
          let finalData := Invoice.withDerived formData next (finalNotes client formData) in
          Saved (Invoice.withIdNumber finalData
                   (match invoice with Some i => Invoice.id i | None => "" end)
                   (match invoice with Some i => Invoice.invoiceNumber i | None => "" end))
      end
  end.

(** [subtotal], shown twice by the form: as Subtotal and as Total. *)
Definition subtotal (formData : Invoice.t) : JS.double :=
  fold_left
    (fun sum item => (sum + (InvoiceItem.quantity item * InvoiceItem.unitPrice item))%D)
    (Invoice.items formData) JS.zero.

Definition displayedTotal (formData : Invoice.t) : JS.double := subtotal formData.

End InvoiceForm.

(** ** InvoicePreview and InvoicesPage *)

Module InvoicePreview.
Definition total (invoice : Invoice.t) : JS.double :=
  fold_left
    (fun sum item => (sum + InvoiceItem.quantity item * InvoiceItem.unitPrice item)%D)
    (Invoice.items invoice) JS.zero.
End InvoicePreview.

Module InvoicesPage.

(** [invoices] is the stored collection; [selectedInvoice] is the invoice
    under edit, [None] after "Nueva Factura". *)
Definition handleSaveInvoice (selectedInvoice : option Invoice.t)
    (invoices : list Invoice.t) (newId : string) (invoice : Invoice.t)
    : list Invoice.t :=
  match selectedInvoice with
  | Some _ =>
      map (fun i => if String.eqb (Invoice.id i) (Invoice.id invoice) then invoice else i)
          invoices
  | None =>
      let newInvoiceNumber :=
        "INV-" ++ JS.padStart (JS.toString (List.length invoices + 1)) 4 "0" in
      (invoices ++ [Invoice.withIdNumber invoice newId newInvoiceNumber])%list
  end.

(** [confirmed] is the answer to [window.confirm]. *)
Definition handleDeleteInvoice (confirmed : bool) (invoices : list Invoice.t)
    (invoiceId : string) : list Invoice.t :=
  if confirmed
  then filter (fun inv => negb (String.eqb (Invoice.id inv) invoiceId)) invoices
  else invoices.

(** The form mounted by the page: [<InvoiceForm invoice={selectedInvoice}
    onSave={handleSaveInvoice} .../>].  The result is the stored
    collection after the submit. *)
Definition submit (tz : JSDate.zone) (clients : list Client.t)
    (selectedInvoice : option Invoice.t) (invoices : list Invoice.t)
    (newId : string) (formData : Invoice.t) : list Invoice.t :=
  match InvoiceForm.handleSubmit tz clients selectedInvoice formData with
  | InvoiceForm.Saved invoice => handleSaveInvoice selectedInvoice invoices newId invoice
  | _ => invoices
  end.

End InvoicesPage.

(** ** ClientsPage *)

Module ClientsPage.

(** [confirmed] is the answer to [window.confirm]; the invoices of the
    client are not touched. *)
Definition handleDeleteClient (confirmed : bool) (clients : list Client.t)
    (clientId : string) : list Client.t :=
  if confirmed
  then filter (fun c => negb (String.eqb (Client.id c) clientId)) clients
  else clients.

(** [createdAt] is [new Date().toISOString()] at the time of the save. *)
Definition handleSaveClient (editingClient : option Client.t)
    (clients : list Client.t) (newId createdAt : string) (client : Client.t)
    : list Client.t :=
  match editingClient with
  | Some _ =>
      map (fun c => if String.eqb (Client.id c) (Client.id client) then client else c)
          clients
  | None => (clients ++ [Client.withIdCreated client newId createdAt])%list
  end.

End ClientsPage.

(** ** InventoryItemsManager *)

Module InventoryItemsManager.

Definition handleDeleteItem (confirmed : bool) (inventory : list InventoryItem.t)
    (itemId : string) : list InventoryItem.t :=
  if confirmed
  then filter (fun item => negb (String.eqb (InventoryItem.id item) itemId)) inventory
  else inventory.

Definition handleSaveItem (editingItem : option InventoryItem.t)
    (inventory : list InventoryItem.t) (newId : string) (item : InventoryItem.t)
    : list InventoryItem.t :=
  match editingItem with
  | Some _ =>
      map (fun i => if String.eqb (InventoryItem.id i) (InventoryItem.id item)
                    then item else i)
          inventory
  | None => (inventory ++ [InventoryItem.withId item newId])%list
  end.

End InventoryItemsManager.

(** ** ExpensesPage *)

Module ExpensesPage.

Definition handleDeleteExpense (confirmed : bool) (expenses : list Expense.t)
    (expenseId : string) : list Expense.t :=
  if confirmed
  then filter (fun e => negb (String.eqb (Expense.id e) expenseId)) expenses
  else expenses.

Definition handleSaveExpense (editingExpense : option Expense.t)
    (expenses : list Expense.t) (newId : string) (expense : Expense.t)
    : list Expense.t :=
  match editingExpense with
  | Some _ =>
      map (fun e => if String.eqb (Expense.id e) (Expense.id expense) then expense else e)
          expenses
  | None => (expenses ++ [Expense.withId expense newId])%list
  end.

(** The comparator of the table,
    [(a, b) => new Date(b.date).getTime() - new Date(a.date).getTime()];
    [None] is NaN. *)
Definition compareByDate (a b : Expense.t) : option Z :=
  match JSDate.ofString (Expense.date b), JSDate.ofString (Expense.date a) with
  | Some tb, Some ta => Some (tb - ta)
  | _, _ => None
  end.

(** [a] may stay before [b]: the comparator is not positive ([sort] takes a
    NaN for +0). *)
Definition keepsOrder (a b : Expense.t) : bool :=
  match compareByDate a b with
  | Some v => v <=? 0
  | None => true
  end.

Fixpoint insert (x : Expense.t) (l : list Expense.t) : list Expense.t :=
  match l with
  | [] => [x]
  | y :: r => if keepsOrder x y then x :: y :: r else y :: insert x r
  end.

(** [expenses.sort(comparator)]: [Array.prototype.sort] is stable, so, for
    a consistent comparator, its result is the one of any stable sort; the
    sort is in place, the state holds the sorted array afterwards.  With a
    date that is no date the comparator returns NaN and is not consistent:
    the order is then left to the engine, and the properties below are
    stated for expenses whose dates are dates. *)
Fixpoint sort (expenses : list Expense.t) : list Expense.t :=
  match expenses with
  | [] => []
  | x :: r => insert x (sort r)
  end.

End ExpensesPage.

(** ** useLocalStorage

    The browser storage is a map from keys to strings.  [parse] is
    [JSON.parse] read at the type of the collection, [None] when it throws;
    [stringify] is [JSON.stringify]. *)

Module LocalStorage.

Definition storage := string -> option string.

Definition getItem (st : storage) (key : string) : option string := st key.

Definition setItem (st : storage) (key value : string) : storage :=
  fun k => if String.eqb k key then Some value else st k.

(** The initial state of the hook:
    [item ? JSON.parse(item) : initialValue], [initialValue] on an exception. *)
Definition initialState {T : Type} (parse : string -> option T) (st : storage)
    (key : string) (initialValue : T) : T :=
  match getItem st key with
  | Some item =>
      if JS.truthy item then
        match parse item with
        | Some v => v
        | None => initialValue
        end
      else initialValue
  | None => initialValue
  end.

(** The argument of the setter: a value or a function of the stored value. *)
Inductive action (T : Type) :=
| Value (v : T)
| Updater (f : T -> T).
Arguments Value {T} v.
Arguments Updater {T} f.

(** [setValue]: the state is set first, then the storage is written;
    [writeFails] tells whether [setItem] throws (the quota is exceeded), in
    which case the error is logged and the storage stays as it is. *)
Definition setValue {T : Type} (stringify : T -> string) (writeFails : bool)
    (key : string) (storedValue : T) (st : storage) (value : action T)
    : T * storage :=
  let valueToStore :=
    match value with
    | Value v => v
    | Updater f => f storedValue
    end in
  (valueToStore,
   if writeFails then st else setItem st key (stringify valueToStore)).

End LocalStorage.

(** ** InvoiceForm.handleItemChange: item objects

    [handleItemChange] copies the array of items and then assigns to a field
    of one item object, which the copy shares with the array it was copied
    from.  Item objects live in a heap and are named by their address; an
    array of items is a list of addresses. *)

Module ItemObjects.

Definition heap := list InvoiceItem.t.

(** The field assigned and its new value ([checked] for the two flags). *)
Inductive change :=
| Description (value : string)
| Quantity (value : JS.double)
| UnitPrice (value : JS.double)
| IsMaintenance (checked : bool)
| IsNewEquipment (checked : bool).

Definition assign (item : InvoiceItem.t) (c : change) : InvoiceItem.t :=
  match c with
  | Description v =>
      InvoiceItem.mk (InvoiceItem.id item) v (InvoiceItem.quantity item)
        (InvoiceItem.unitPrice item) (InvoiceItem.isMaintenance item)
        (InvoiceItem.isNewEquipment item)
  | Quantity v =>
      InvoiceItem.mk (InvoiceItem.id item) (InvoiceItem.description item) v
        (InvoiceItem.unitPrice item) (InvoiceItem.isMaintenance item)
        (InvoiceItem.isNewEquipment item)
  | UnitPrice v =>
      InvoiceItem.mk (InvoiceItem.id item) (InvoiceItem.description item)
        (InvoiceItem.quantity item) v (InvoiceItem.isMaintenance item)
        (InvoiceItem.isNewEquipment item)
  | IsMaintenance b =>
      InvoiceItem.mk (InvoiceItem.id item) (InvoiceItem.description item)
        (InvoiceItem.quantity item) (InvoiceItem.unitPrice item) (Some b)
        (InvoiceItem.isNewEquipment item)
  | IsNewEquipment b =>
      InvoiceItem.mk (InvoiceItem.id item) (InvoiceItem.description item)
        (InvoiceItem.quantity item) (InvoiceItem.unitPrice item)
        (InvoiceItem.isMaintenance item) (Some b)
  end.

(** The heap with the object at [addr] replaced. *)
Fixpoint store (h : heap) (addr : nat) (item : InvoiceItem.t) : heap :=
  match h, addr with
  | [], _ => []
  | _ :: r, O => item :: r
  | x :: r, S a => x :: store r a item
  end.

(** The items an array of addresses denotes. *)
Fixpoint read (h : heap) (items : list nat) : option (list InvoiceItem.t) :=
  match items with
  | [] => Some []
  | addr :: r =>
      match nth_error h addr, read h r with
      | Some item, Some rest => Some (item :: rest)
      | _, _ => None
      end
  end.

(** The heap and the new array of the form after the change; [None] is the
    TypeError of an index outside the array. *)
Definition handleItemChange (h : heap) (formItems : list nat) (index : nat)
    (c : change) : option (heap * list nat) :=
  let newItems := formItems in
  match nth_error newItems index with
  | Some addr =>
      match nth_error h addr with
      | Some item => Some (store h addr (assign item c), newItems)
      | None => None
      end
  | None => None
  end.

(** [useState(invoice || {...})] for an invoice under edit: the form state
    is the stored invoice object, so its array of items is the stored one. *)
Definition openForm (storedItems : list nat) : list nat := storedItems.

(** The total the invoice list shows for an invoice:
    [invoice.items.reduce(...)] over the objects of its array. *)
Definition listedTotal (h : heap) (storedItems : list nat) : option JS.double :=
  option_map itemsTotal (read h storedItems).

End ItemObjects.

(** ** InvoiceForm: the state of a new form *)

Module NewInvoice.

(** [new Date(t).toISOString().split('T')[0]] for a time value [t]. *)
Definition isoDay (t : Z) : string :=
  match JSDate.toISODate (Some t) with
  | Some s => s
  | None => ""
  end.

(** The initial state of the form when no invoice is passed; [now] is the
    clock read by [new Date()], [now'] the clock read by [Date.now()] right
    after, [newId] the identifier drawn for the first line. *)
Definition initialFormData (now now' : Z) (newId : string) : Invoice.t :=
  Invoice.mk "" "" "" (isoDay now) (isoDay (now' + 30 * 24 * 60 * 60 * 1000))
    [InvoiceItem.mk newId "" (JS.ofZ 1) JS.zero (Some false) (Some false)]
    (Some "") Borrador None None.

End NewInvoice.

(** ** Specification-side definitions *)

(** The sum of a list of amounts: the amounts added one after the other,
    from the first to the last, to a total that starts at 0.  The addition of
    doubles rounds, so the order in which a sum is taken is part of it. *)
Fixpoint sumFrom (acc : JS.double) (l : list JS.double) : JS.double :=
  match l with
  | [] => acc
  | x :: r => sumFrom (acc + x)%D r
  end.

Definition sumOf (l : list JS.double) : JS.double := sumFrom JS.zero l.

(** The amount of an invoice line. *)
Definition lineTotal (item : InvoiceItem.t) : JS.double :=
  (InvoiceItem.quantity item * InvoiceItem.unitPrice item)%D.

(** The amount typed as [n] hundredths ([cents 10] is what [parseFloat]
    makes of "0.1"): the double nearest to n / 100. *)
Definition cents (n : Z) : JS.double := (JS.ofZ n / JS.ofZ 100)%D.

(** The negative zero, the one double that adding 0 changes. *)
Definition negativeZero : JS.double := S754_zero true.

(** No line feed occurs in [s]. *)
Fixpoint noLF (s : string) : bool :=
  match s with
  | EmptyString => true
  | String c s' => negb (Ascii.eqb c (ascii_of_nat 10)) && noLF s'
  end.

(** The notes typed by the user: [finalData.notes || '']. *)
Definition userNotes (formData : Invoice.t) : string :=
  match Invoice.notes formData with Some s => s | None => "" end.

(** Some item of the draft is flagged as new equipment / as maintenance. *)
Definition hasNewEquipment (formData : Invoice.t) : bool :=
  existsb (fun item => flag (InvoiceItem.isNewEquipment item)) (Invoice.items formData).

Definition hasMaintenance (formData : Invoice.t) : bool :=
  existsb (fun item => flag (InvoiceItem.isMaintenance item)) (Invoice.items formData).

(** The interval of the recommendation, by client type. *)
Definition monthsFor (c : Client.t) : nat :=
  match Client.type c with Comercial => 3 | Residencial => 6 end.

(** The two fixed sentences as the invoice shows them: the warranty
    disclaimer, and the recommendation, whose interval is 3 months for a
    Comercial client and 6 months for a Residencial one. *)
Definition warrantySentence : string :=
  "Garantía de un año. La garantía solo cubre daños por naturaleza del equipo, no provocados por cortocircuitos.".

Definition recommendationOpening : string :=
  "Recomendación: Realizar el primer mantenimiento preventivo en ".

Definition recommendationClosing : string :=
  " para asegurar el óptimo funcionamiento y la validez de la garantía.".

Definition interval (type : ClientType) : string :=
  match type with
  | Comercial => "3 meses"
  | Residencial => "6 meses"
  end.

Definition recommendation (type : ClientType) : string :=
  recommendationOpening ++ interval type ++ recommendationClosing.

(** The client a draft refers to: [clients.find(c => c.id === clientId)]. *)
Definition clientOf (clients : list Client.t) (clientId : string) : option Client.t :=
  find (fun c => String.eqb (Client.id c) clientId) clients.

(** ** Service costing, specification side *)

(** The unit price an inventory reference resolves to, if any. *)
Definition priceOf (inventory : list InventoryItem.t) (inventoryItemId : string)
    : option JS.double :=
  option_map InventoryItem.unitPrice
    (find (fun i => String.eqb (InventoryItem.id i) inventoryItemId) inventory).

(** The cost of a bill-of-materials entry: nothing when the reference does
    not resolve. *)
Definition lineCost (inventory : list InventoryItem.t) (e : ServiceItem.t) : JS.double :=
  match priceOf inventory (ServiceItem.inventoryItemId e) with
  | Some price => (price * JS.ofZ (ServiceItem.quantity e))%D
  | None => JS.zero
  end.

Definition resolves (inventory : list InventoryItem.t) (e : ServiceItem.t) : bool :=
  match priceOf inventory (ServiceItem.inventoryItemId e) with
  | Some _ => true
  | None => false
  end.

(** A well-formed bill of materials: one line per inventory item, every
    quantity positive. *)
Definition bomOk (items : list ServiceItem.t) : Prop :=
  NoDup (map ServiceItem.inventoryItemId items) /\
  Forall (fun i => 0 < ServiceItem.quantity i) items.

(** A line for [itemId] is present. *)
Definition hasLine (items : list ServiceItem.t) (itemId : string) : Prop :=
  In itemId (map ServiceItem.inventoryItemId items).

(** A sequence of quantity edits, each a pair of an inventory item and the
    quantity typed for it. *)
Definition applyEdits (formData : Service.t) (edits : list (string * Z)) : Service.t :=
  fold_left (fun fd e => ServiceForm.handleItemQuantityChange fd (fst e) (snd e))
            edits formData.

(** The inventory items a bill of materials refers to, line by line. *)
Definition bomIds (items : list ServiceItem.t) : list string :=
  map ServiceItem.inventoryItemId items.

(** ** Upcoming maintenance, specification side *)

Definition fifteenDays : Z := 15 * JSDate.msPerDay.

(** The next maintenance of [inv] is a date whose instant (midnight UTC)
    lies between [now] and fifteen days later, both included. *)
Definition dueSoon (now : Z) (inv : Invoice.t) : Prop :=
  exists s t, Invoice.nextMaintenanceDate inv = Some s /\
              JSDate.ofString s = Some t /\
              now <= t <= now + fifteenDays.

(** The clients of the invoices due soon, one per such invoice whose client
    resolves, in the order of the invoices. *)
Definition referencedClients (now : Z) (clients : list Client.t)
    (invoices : list Invoice.t) : list Client.t :=
  flat_map (fun inv =>
              if DashboardPage.inWindow now inv then
                match clientOf clients (Invoice.clientId inv) with
                | Some c => [c]
                | None => []
                end
              else [])
           invoices.

(** A list of clients cut down to the first occurrence of each identifier. *)
Fixpoint firstOccurrences (l : list Client.t) : list Client.t :=
  match l with
  | [] => []
  | c :: r =>
      c :: filter (fun x => negb (String.eqb (Client.id x) (Client.id c)))
                  (firstOccurrences r)
  end.

(** No client of [acc] has the identifier of [x]. *)
Definition unseen (acc : list Client.t) (x : Client.t) : bool :=
  negb (existsb (fun u => String.eqb (Client.id u) (Client.id x)) acc).

(** ** Invoice numbers, specification side *)

(** The number a string of decimal digits denotes. *)
Definition decimalValue (s : string) : option nat :=
  option_map Nat.of_uint (NilEmpty.uint_of_string s).

Fixpoint zeros (k : nat) : string :=
  match k with
  | O => ""
  | S k' => String "0" (zeros k')
  end.

(** What an edit may do to a stored invoice: leave it, or replace it, when
    it has the identifier of the selected invoice [sel], by an invoice with
    that identifier and the number of [sel]. *)
Definition keptOrEdited (sel old new : Invoice.t) : Prop :=
  new = old \/
  (Invoice.id old = Invoice.id sel /\ Invoice.id new = Invoice.id sel /\
   Invoice.invoiceNumber new = Invoice.invoiceNumber sel).

(** ** Calendar months, specification side *)

(** The date-only string [s] names a day of month [month] (0-11) of year
    [year]. *)
Definition inCalendarMonth (year month : Z) (s : string) : bool :=
  match JSDate.fieldsOfString s with
  | Some (y, m, _) => (y =? year) && (m - 1 =? month)
  | None => false
  end.

(** The calendar date that is [k] months after the date-only string [s],
    the month field advanced and the overflow carried as [MakeDay] does. *)
Definition monthsLater (k : Z) (s : string) : option string :=
  match JSDate.fieldsOfString s with
  | Some (y, m, d) =>
      JSDate.toISODate (Some (JSDate.MakeDate (JSDate.MakeDay y (m - 1 + k) d) 0))
  | None => None
  end.

(** A calendar date: month 1-12 and a day of that month. *)
Definition validDate (y m d : Z) : Prop :=
  1 <= m <= 12 /\ 1 <= d <= JSDate.daysInMonth y m.

(** ** Sample data *)

Module Sample.

(** America/Santo_Domingo: UTC-4, no daylight saving. *)
Definition santoDomingo : Z := -4 * 3600000.

Definition ana : Client.t :=
  Client.mk "c1" "Ana" "Calle 1" "809-555-0101" "ana@example.com"
            "2024-01-10T12:00:00.000Z" Comercial.

Definition luis : Client.t :=
  Client.mk "c2" "Luis" "Calle 2" "809-555-0102" "luis@example.com"
            "2024-01-11T12:00:00.000Z" Residencial.

Definition split : InvoiceItem.t :=
  InvoiceItem.mk "i1" "Aire split 12000 BTU" (JS.ofZ 1) (JS.ofZ 100)
                 (Some false) (Some true).

Definition cleaning : InvoiceItem.t :=
  InvoiceItem.mk "i2" "Mantenimiento preventivo" (JS.ofZ 1) (JS.ofZ 100)
                 (Some true) (Some false).

Definition refund : InvoiceItem.t :=
  InvoiceItem.mk "i3" "Ajuste" (JS.ofZ (-2)) (JS.ofZ (-50)) None None.

Definition equipmentDraft : Invoice.t :=
  Invoice.mk "" "c1" "" "2024-03-15" "2024-04-14" [split]
             (Some "Entregar en horario de oficina.") Borrador None None.

(** First of March: one maintenance line. *)
Definition maintenanceDraft : Invoice.t :=
  Invoice.mk "" "c1" "" "2024-03-01" "2024-03-31" [cleaning]
             (Some "") Borrador None None.

Definition filterA : InventoryItem.t :=
  InventoryItem.mk "A" "Filtro" "" (JS.ofZ 7) (JS.ofZ 10).
Definition gasB : InventoryItem.t :=
  InventoryItem.mk "B" "Gas R410" "" (JS.ofZ 3) (JS.ofZ 5).

(** The kit of the costing scenario: 2 of A, 1 of B, labour 20. *)
Definition kit : Service.t :=
  Service.mk "" "Mantenimiento Preventivo" ""
    [ServiceItem.mk "A" 2; ServiceItem.mk "B" 1] (JS.ofZ 20) JS.zero.

(** A stored invoice, and the same invoice with its maintenance line
    unticked in the form. *)
Definition stored : Invoice.t :=
  Invoice.mk "k7" "c1" "INV-0007" "2024-03-15" "2024-04-14" [cleaning]
             (Some "") Enviada None (Some "2024-09-15").

Definition other : Invoice.t :=
  Invoice.mk "k8" "c2" "INV-0008" "2024-03-20" "2024-04-19" [split]
             (Some "") Pagada None None.

Definition storedEdited : Invoice.t :=
  Invoice.mk "k7" "c1" "INV-0007" "2024-03-15" "2024-04-14"
             [InvoiceItem.mk "i2" "Mantenimiento preventivo" (JS.ofZ 1) (JS.ofZ 100)
                             (Some false) (Some false)]
             (Some "") Enviada None (Some "2024-09-15").

(** 2024-03-15T16:00:00Z, noon in Santo Domingo. *)
Definition midMarch : Z := 1710518400000.

(** Paid, issued on the first of March 2024, total 100. *)
Definition paidFirstOfMarch : Invoice.t :=
  Invoice.mk "k1" "c1" "INV-0001" "2024-03-01" "2024-03-31" [cleaning]
             (Some "") Pagada None None.

(** A draft of the same month, total 50. *)
Definition draftOfMarch : Invoice.t :=
  Invoice.mk "k2" "c2" "INV-0002" "2024-03-10" "2024-04-09"
             [InvoiceItem.mk "i4" "Visita" (JS.ofZ 1) (JS.ofZ 50) None None]
             (Some "") Borrador None None.

Definition fuel : Expense.t :=
  Expense.mk "e1" "Gasolina" (JS.ofZ 130) "2024-03-05" Combustible.

(** 2024-03-16T00:00:00Z and three invoices: two of Ana, due on that very
    instant and fifteen days later, one of Luis due a day after that. *)
Definition march16 : Z := 1710547200000.

Definition dueNow : Invoice.t :=
  Invoice.mk "k3" "c1" "INV-0003" "2023-09-16" "2023-10-16" [cleaning]
             (Some "") Pagada None (Some "2024-03-16").

Definition dueLast : Invoice.t :=
  Invoice.mk "k4" "c1" "INV-0004" "2023-10-01" "2023-10-31" [cleaning]
             (Some "") Pagada None (Some "2024-03-31").

Definition dueLate : Invoice.t :=
  Invoice.mk "k5" "c2" "INV-0005" "2023-10-01" "2023-10-31" [cleaning]
             (Some "") Pagada None (Some "2024-04-01").

(** A draft whose client is not in the collection, and a draft with a
    negative quantity and a negative price. *)
Definition orphanDraft : Invoice.t :=
  Invoice.mk "" "zz" "" "2024-03-15" "2024-04-14" [split; cleaning]
             (Some "") Borrador None None.

Definition refundDraft : Invoice.t :=
  Invoice.mk "" "c1" "" "2024-03-15" "2024-04-14" [refund]
             (Some "") Borrador None None.

End Sample.

(** ** Further specification-side definitions *)

(** The invoice number given at a collection size of [k - 1]. *)
Definition numberAt (k : nat) : string :=
  "INV-" ++ JS.padStart (JS.toString k) 4 "0".

(** What the form hands to [onSave]: an invoice that carries the identifier
    and the number of the invoice under edit, both empty for a new invoice
    ([id: invoice?.id || '', invoiceNumber: invoice?.invoiceNumber || '']).
    Its other fields are whatever the form derived from the draft. *)
Definition handedOver (selectedInvoice : option Invoice.t) (invoice : Invoice.t) : Prop :=
  match selectedInvoice with
  | Some sel =>
      Invoice.id invoice = Invoice.id sel /\
      Invoice.invoiceNumber invoice = Invoice.invoiceNumber sel
  | None => Invoice.id invoice = "" /\ Invoice.invoiceNumber invoice = ""
  end.

(** The collections of invoices that creations and edits build from the
    empty collection, no invoice being deleted: [newId] is the identifier
    [generateId()] draws, fresh for a creation; an edit is of a stored
    invoice.  The invoice handed to [handleSaveInvoice] is any invoice the
    form may hand over, so the dates and notes it derived, the clients and
    the time zone of each save are left open. *)
Inductive reachable : list Invoice.t -> Prop :=
| reachable_empty : reachable []
| reachable_create (l : list Invoice.t) (newId : string) (invoice : Invoice.t) :
    reachable l ->
    ~ In newId (map Invoice.id l) ->
    reachable (InvoicesPage.handleSaveInvoice None l newId invoice)
| reachable_edit (l : list Invoice.t) (sel : Invoice.t) (newId : string)
    (invoice : Invoice.t) :
    reachable l ->
    In sel l ->
    handedOver (Some sel) invoice ->
    reachable (InvoicesPage.handleSaveInvoice (Some sel) l newId invoice).

(** ** Letter case, specification side *)

Definition capitals : string := "ABCDEFGHIJKLMNOPQRSTUVWXYZ".
Definition smalls : string := "abcdefghijklmnopqrstuvwxyz".

(** [a] is a capital letter and [b] the small letter at the same place of
    the alphabet. *)
Fixpoint paired (up low : string) (a b : ascii) : bool :=
  match up, low with
  | String u up', String l low' =>
      (Ascii.eqb a u && Ascii.eqb b l) || paired up' low' a b
  | _, _ => false
  end.

(** The same character, or one letter in its two cases. *)
Definition sameLetter (a b : ascii) : bool :=
  Ascii.eqb a b || paired capitals smalls a b || paired capitals smalls b a.

(** [w] is [t] up to the case of its letters. *)
Fixpoint sameUpToCase (w t : string) : bool :=
  match w, t with
  | EmptyString, EmptyString => true
  | String a w', String b t' => sameLetter a b && sameUpToCase w' t'
  | _, _ => false
  end.

(** [t] occurs in [s] in some letter case. *)
Definition occursIn (s t : string) : Prop :=
  exists a w b, s = a ++ w ++ b /\ sameUpToCase w t = true.

(** A small letter. *)
Fixpoint memberOf (c : ascii) (s : string) : bool :=
  match s with
  | EmptyString => false
  | String x s' => Ascii.eqb c x || memberOf c s'
  end.

Fixpoint allSmall (t : string) : bool :=
  match t with
  | EmptyString => true
  | String c t' => memberOf c smalls && allSmall t'
  end.

(** The 256 characters. *)
Definition allAscii : list ascii := map ascii_of_nat (seq 0 256).

(** ** Further sample data *)

Module Run.

(** Two invoices created one after the other from the empty collection. *)
Definition first : list Invoice.t :=
  InvoicesPage.submit 0 [Sample.ana; Sample.luis] None [] "k1" Sample.equipmentDraft.

Definition second : list Invoice.t :=
  InvoicesPage.submit 0 [Sample.ana; Sample.luis] None first "k2" Sample.maintenanceDraft.

End Run.

Module Scenario.

(** The invoice saved from [Sample.equipmentDraft] for Ana (Comercial). *)
Definition savedEquipment : Invoice.t :=
  Invoice.withIdNumber
    (Invoice.withDerived Sample.equipmentDraft None
       (InvoiceForm.finalNotes Sample.ana Sample.equipmentDraft))
    "" "".

(** The same invoice in the form with the new-equipment box unticked. *)
Definition unticked : Invoice.t :=
  Invoice.withItems savedEquipment
    [InvoiceItem.mk "i1" "Aire split 12000 BTU" (JS.ofZ 1) (JS.ofZ 100)
                    (Some false) (Some false)].

(** The same invoice in the form with Luis (Residencial) chosen as client. *)
Definition forLuis : Invoice.t :=
  Invoice.mk "" "c2" "" "2024-03-15" "2024-04-14" [Sample.split]
             (Invoice.notes savedEquipment) Borrador None None.

(** The invoice saved under UTC from [Sample.maintenanceDraft]. *)
Definition savedMaintenance : Invoice.t :=
  Invoice.withIdNumber
    (Invoice.withDerived Sample.maintenanceDraft (Some "2024-09-01")
       (InvoiceForm.finalNotes Sample.ana Sample.maintenanceDraft))
    "" "".

(** A stored service with a name in capitals. *)
Definition yearly : Service.t :=
  Service.mk "s9" "MANTENIMIENTO anual" "" [] (JS.ofZ 40) (JS.ofZ 40).

Definition travel : Expense.t :=
  Expense.mk "e2" "Peaje" (JS.ofZ 20) "2024-03-09" Otro.

Definition tools : Expense.t :=
  Expense.mk "e3" "Llaves" (JS.ofZ 75) "2024-02-27" Herramientas.

(** Europe/Madrid in 2024 and thereabouts: UTC+1, and UTC+2 from 31 March
    01:00 UTC to 27 October 01:00 UTC, that is from 03:00 to 03:00 of these
    days in local time. *)
Definition madrid : JSDate.zone :=
  {| JSDate.offsetAt := fun t =>
       if (1711846800000 <=? t) && (t <? 1729990800000) then 7200000 else 3600000;
     JSDate.offsetOf := fun t =>
       if (1711854000000 <=? t) && (t <? 1729998000000) then 7200000 else 3600000 |}.

(** A maintenance draft issued on the first of September. *)
Definition septemberDraft : Invoice.t :=
  Invoice.mk "" "c1" "" "2024-09-01" "2024-10-01" [Sample.cleaning]
             (Some "") Borrador None None.

(** Three expenses of March 2024 of 0.10, 0.20 and 0.30, in the order of
    their dates. *)
Definition smallExpenses : list Expense.t :=
  [Expense.mk "e4" "Tornillos" (cents 10) "2024-03-05" Materiales;
   Expense.mk "e5" "Cinta" (cents 20) "2024-03-06" Materiales;
   Expense.mk "e6" "Bridas" (cents 30) "2024-03-07" Materiales].

End Scenario.

(** The line of a bill of materials for an inventory item, if any. *)
Definition lineFor (items : list ServiceItem.t) (itemId : string) : option ServiceItem.t :=
  find (fun i => String.eqb (ServiceItem.inventoryItemId i) itemId) items.

(** What the save and delete handlers of a collection do to its
    identifiers: a deletion keeps them distinct and, when confirmed, leaves
    none equal to the deleted one; an edit keeps the list of identifiers; a
    creation with a fresh identifier keeps them distinct and appends it. *)
Definition keepsIdentifiers {A : Type} (id : A -> string)
    (save : option A -> list A -> string -> A -> list A)
    (delete : bool -> list A -> string -> list A) : Prop :=
  forall (l : list A) (editing : A) (newId k : string) (x : A) (confirmed : bool),
    NoDup (map id l) ->
    NoDup (map id (delete confirmed l k)) /\
    ~ In k (map id (delete true l k)) /\
    delete false l k = l /\
    map id (save (Some editing) l newId x) = map id l /\
    map id (save None l newId x) = (map id l ++ [newId])%list /\
    (~ In newId (map id l) -> NoDup (map id (save None l newId x))).

(** A storage holding one key. *)
Definition oneKey (key value : string) : LocalStorage.storage :=
  LocalStorage.setItem (fun _ => None) key value.

(** The instant of the date of an expense (0 when the date is no date), and
    the order of the expenses table: latest first. *)
Definition timeOf (e : Expense.t) : Z :=
  match JSDate.ofString (Expense.date e) with
  | Some t => t
  | None => 0
  end.

Definition latestFirst (a b : Expense.t) : Prop := timeOf b <= timeOf a.

Definition dated (e : Expense.t) : Prop := JSDate.ofString (Expense.date e) <> None.

(** [JSDate.pad] writes [n] with exactly two (four) decimal digits. *)
Definition twoDigits (n : Z) : bool :=
  match JSDate.pad 2 n with
  | String a (String b EmptyString) =>
      match JSDate.digit a, JSDate.digit b with
      | Some x, Some y => 10 * x + y =? n
      | _, _ => false
      end
  | _ => false
  end.

Definition fourDigits (n : Z) : bool :=
  match JSDate.pad 4 n with
  | String a (String b (String c (String d EmptyString))) =>
      match JSDate.digit a, JSDate.digit b, JSDate.digit c, JSDate.digit d with
      | Some x, Some y, Some z, Some w => 1000 * x + 100 * y + 10 * z + w =? n
      | _, _, _, _ => false
      end
  | _ => false
  end.

(** * Properties *)

(** ** Strings *)

Section Strings.

Lemma append_empty_r (s : string) : s ++ "" = s.
Proof. induction s as [|c s IH]; simpl; [reflexivity | now rewrite IH]. Qed.

Lemma append_assoc (a b c : string) : (a ++ b) ++ c = a ++ b ++ c.
Proof. induction a as [|x a IH]; simpl; [reflexivity | now rewrite IH]. Qed.

Lemma prefix_iff (t s : string) :
  String.prefix t s = true <-> exists b, s = t ++ b.
Proof.
  revert s; induction t as [|c t IH]; intros s.
  - split; [intros _; now exists s | intros _; now destruct s].
  - destruct s as [|x s]; simpl.
    + split; [discriminate | intros [b Hb]; discriminate].
    + destruct (ascii_dec c x) as [->|Hne].
      * rewrite IH. split; intros [b Hb]; exists b; [now rewrite Hb | now inversion Hb].
      * split; [discriminate | intros [b Hb]; congruence].
Qed.

Lemma includes_iff (s t : string) :
  JS.includes s t = true <-> exists a b, s = a ++ t ++ b.
Proof.
  induction s as [|x s IH].
  - cbn [JS.includes]. rewrite orb_false_r, prefix_iff. split.
    + intros [b Hb]. now exists "", b.
    + intros [a [b Hab]]. destruct a; simpl in Hab.
      * now exists b.
      * discriminate.
  - cbn [JS.includes]. rewrite orb_true_iff, prefix_iff, IH. split.
    + intros [[b Hb] | [a [b Hab]]].
      * now exists "", b.
      * exists (String x a), b. simpl. now rewrite Hab.
    + intros [a [b Hab]]. destruct a as [|y a]; simpl in Hab.
      * left. now exists b.
      * right. inversion Hab. now exists a, b.
Qed.

Lemma includes_suffix (a t : string) : JS.includes (a ++ t) t = true.
Proof. apply includes_iff. exists a, "". now rewrite append_empty_r. Qed.

Lemma includes_self (t : string) : JS.includes t t = true.
Proof. apply includes_iff. exists "", "". simpl. now rewrite append_empty_r. Qed.

Lemma includes_append_l (a b t : string) :
  JS.includes a t = true -> JS.includes (a ++ b) t = true.
Proof.
  rewrite !includes_iff. intros [x [y ->]]. exists x, (y ++ b).
  now rewrite !append_assoc.
Qed.

(** A text without line feed cannot straddle a line feed. *)
Lemma prefix_across_LF (t a b : string) :
  noLF t = true ->
  String.prefix t (a ++ JS.LF ++ b) = String.prefix t a.
Proof.
  revert t; induction a as [|x a IH]; intros t Ht.
  - destruct t as [|c t]; [reflexivity|].
    simpl in Ht. apply andb_true_iff in Ht as [Hc _].
    simpl. destruct (ascii_dec c (ascii_of_nat 10)) as [->|Hne].
    + rewrite Ascii.eqb_refl in Hc. discriminate.
    + reflexivity.
  - destruct t as [|c t]; [reflexivity|].
    simpl in Ht. apply andb_true_iff in Ht as [_ Ht].
    simpl. destruct (ascii_dec c x); [now apply IH | reflexivity].
Qed.

Lemma includes_across_LF (t a b : string) :
  noLF t = true ->
  JS.includes (a ++ JS.LF ++ b) t = JS.includes a t || JS.includes b t.
Proof.
  intros Ht. induction a as [|x a IH].
  - change ("" ++ JS.LF ++ b) with (String (ascii_of_nat 10) b).
    cbn [JS.includes].
    change (String (ascii_of_nat 10) b) with ("" ++ JS.LF ++ b).
    rewrite (prefix_across_LF t "" b Ht). now rewrite orb_false_r.
  - change (String x a ++ JS.LF ++ b) with (String x (a ++ JS.LF ++ b)).
    cbn [JS.includes]. rewrite IH.
    change (String x (a ++ JS.LF ++ b)) with (String x a ++ JS.LF ++ b).
    rewrite (prefix_across_LF t (String x a) b Ht). now rewrite orb_assoc.
Qed.

End Strings.

(** ** C2: warranty and maintenance notes *)

Section Notes.

Import InvoiceForm.

Lemma fixed_texts_facts :
  noLF warrantyText = true /\
  noLF (maintenanceText 3) = true /\
  noLF (maintenanceText 6) = true /\
  JS.includes warrantyText (maintenanceText 3) = false /\
  JS.includes warrantyText (maintenanceText 6) = false /\
  JS.includes "" warrantyText = false /\
  JS.includes "" (maintenanceText 3) = false /\
  JS.includes "" (maintenanceText 6) = false.
Proof. vm_compute. repeat split. Qed.

Lemma truthy_false (s : string) : JS.truthy s = false -> s = "".
Proof. destruct s; [reflexivity | discriminate]. Qed.

Lemma joinNote_truthy (n t : string) :
  JS.truthy n = true -> joinNote n t = n ++ JS.LF ++ JS.LF ++ t.
Proof. intros H. unfold joinNote. now rewrite H. Qed.

Lemma joinNote_includes (n t : string) : JS.includes (joinNote n t) t = true.
Proof.
  unfold joinNote. destruct (JS.truthy n).
  - rewrite <- !append_assoc. apply includes_suffix.
  - apply includes_self.
Qed.

Lemma includes_in_empty (t u : string) :
  JS.includes "" u = true -> JS.includes t u = true.
Proof.
  rewrite !includes_iff. intros [a [b H]].
  destruct a; [|discriminate]. destruct u; [|discriminate].
  now exists "", t.
Qed.

Lemma joinNote_keeps (n t u : string) :
  JS.includes n u = true -> JS.includes (joinNote n t) u = true.
Proof.
  intros H. unfold joinNote. destruct (JS.truthy n) eqn:E.
  - now apply includes_append_l.
  - apply truthy_false in E. subst n. now apply includes_in_empty.
Qed.

Lemma monthsFor_cases (c : Client.t) :
  (if ClientType_eqb (Client.type c) Comercial then 3%nat else 6%nat) = monthsFor c
  /\ (monthsFor c = 3%nat \/ monthsFor c = 6%nat).
Proof. unfold monthsFor. destruct (Client.type c); simpl; auto. Qed.

Lemma maintenance_facts (c : Client.t) :
  noLF (maintenanceText (monthsFor c)) = true /\
  JS.includes warrantyText (maintenanceText (monthsFor c)) = false /\
  JS.includes "" (maintenanceText (monthsFor c)) = false.
Proof.
  destruct (monthsFor_cases c) as [_ [-> | ->]];
    repeat split; apply fixed_texts_facts.
Qed.

(** The notes written by a save with a new-equipment item, as a function of
    the notes typed by the user. *)
Lemma finalNotes_explicit (client : Client.t) (formData : Invoice.t) :
  hasNewEquipment formData = true ->
  let notes0 := userNotes formData in
  let M := maintenanceText (monthsFor client) in
  finalNotes client formData =
    notes0
    ++ (if JS.includes notes0 warrantyText then ""
        else (if JS.truthy notes0 then JS.LF ++ JS.LF else "") ++ warrantyText)
    ++ (if JS.includes notes0 M then "" else JS.LF ++ JS.LF ++ M).
Proof.
  intros HNE notes0 M.
  destruct (maintenance_facts client) as [MLF [MW ME]].
  destruct fixed_texts_facts as [_ [_ [_ [_ [_ [WE _]]]]]].
  unfold finalNotes. fold (userNotes formData). fold notes0.
  unfold hasNewEquipment in HNE. rewrite HNE.
  rewrite (proj1 (monthsFor_cases client)). fold M. cbn [andb].
  destruct (JS.includes notes0 warrantyText) eqn:EW; cbn [negb].
  - (* the warranty sentence is already there *)
    destruct (JS.includes notes0 M) eqn:EM; cbn [negb].
    + now rewrite !append_empty_r.
    + unfold joinNote. destruct (JS.truthy notes0) eqn:ET.
      * reflexivity.
      * apply truthy_false in ET. rewrite ET in EW. congruence.
  - (* the warranty sentence is appended *)
    destruct (JS.truthy notes0) eqn:ET.
    + rewrite (joinNote_truthy notes0 warrantyText ET).
      assert (HM : JS.includes (notes0 ++ JS.LF ++ JS.LF ++ warrantyText) M
                   = JS.includes notes0 M).
      { rewrite (includes_across_LF M notes0 _ MLF).
        change (JS.LF ++ warrantyText) with ("" ++ JS.LF ++ warrantyText).
        rewrite (includes_across_LF M "" _ MLF).
        fold M in MW, ME. rewrite MW, ME. now rewrite !orb_false_r. }
      rewrite HM. destruct (JS.includes notes0 M); cbn [negb].
      * now rewrite !append_empty_r, !append_assoc.
      * rewrite joinNote_truthy
          by (destruct notes0; [discriminate | reflexivity]).
        now rewrite !append_assoc.
    + apply truthy_false in ET. rewrite ET. fold M in MW, ME.
      change (joinNote "" warrantyText) with warrantyText.
      rewrite MW, ME. cbn [negb]. reflexivity.
Qed.

Lemma finalNotes_includes (client : Client.t) (formData : Invoice.t) :
  hasNewEquipment formData = true ->
  JS.includes (finalNotes client formData) warrantyText = true /\
  JS.includes (finalNotes client formData)
              (maintenanceText (monthsFor client)) = true.
Proof.
  intros HNE. unfold finalNotes. fold (userNotes formData).
  unfold hasNewEquipment in HNE. rewrite HNE.
  rewrite (proj1 (monthsFor_cases client)). cbn [andb].
  set (notes1 := if negb (JS.includes (userNotes formData) warrantyText)
                 then joinNote (userNotes formData) warrantyText
                 else userNotes formData).
  assert (H1 : JS.includes notes1 warrantyText = true).
  { unfold notes1. destruct (JS.includes (userNotes formData) warrantyText) eqn:E;
      cbn [negb]; [exact E | apply joinNote_includes]. }
  destruct (JS.includes notes1 (maintenanceText (monthsFor client))) eqn:E2;
    cbn [negb].
  - now split.
  - split; [now apply joinNote_keeps | apply joinNote_includes].
Qed.

(** Saved notes are a fixed point of the note derivation. *)
Lemma finalNotes_idempotent (client : Client.t) (formData : Invoice.t)
    (d : option string) :
  finalNotes client (Invoice.withDerived formData d (finalNotes client formData))
  = finalNotes client formData.
Proof.
  destruct (hasNewEquipment formData) eqn:HNE.
  - destruct (finalNotes_includes client formData HNE) as [HW HM].
    unfold finalNotes at 1. cbn [Invoice.withDerived Invoice.notes Invoice.items].
    unfold hasNewEquipment in HNE. rewrite HNE.
    rewrite (proj1 (monthsFor_cases client)).
    rewrite HW. cbn [andb negb]. now rewrite HM.
  - unfold hasNewEquipment in HNE. unfold finalNotes.
    cbn [Invoice.withDerived Invoice.notes Invoice.items].
    now rewrite HNE.
Qed.

End Notes.

(** Saving the invoice that a save produced changes nothing. *)
Section Resave.

Import InvoiceForm.

Lemma finalNotes_ext (client : Client.t) (a b : Invoice.t) :
  Invoice.notes a = Invoice.notes b -> Invoice.items a = Invoice.items b ->
  finalNotes client a = finalNotes client b.
Proof. intros Hn Hi. unfold finalNotes. now rewrite Hn, Hi. Qed.

Lemma nextMaintenance_ext (tz : JSDate.zone) (a b : Invoice.t) :
  Invoice.issueDate a = Invoice.issueDate b -> Invoice.items a = Invoice.items b ->
  nextMaintenance tz a = nextMaintenance tz b.
Proof. intros Hd Hi. unfold nextMaintenance. now rewrite Hd, Hi. Qed.

Lemma handleSubmit_resave (tz : JSDate.zone) (clients : list Client.t)
    (invoice : option Invoice.t) (formData inv : Invoice.t) :
  handleSubmit tz clients invoice formData = Saved inv ->
  handleSubmit tz clients (Some inv) inv = Saved inv.
Proof.
  unfold handleSubmit.
  destruct (find _ clients) as [client|] eqn:EC; [|discriminate].
  destruct (nextMaintenance tz formData) as [next|] eqn:EN; [|discriminate].
  intros H. injection H as <-.
  cbn [Invoice.withIdNumber Invoice.withDerived Invoice.clientId].
  rewrite EC.
  match goal with |- context [nextMaintenance tz ?x] =>
    rewrite (nextMaintenance_ext tz x formData eq_refl eq_refl) end.
  rewrite EN.
  match goal with |- context [finalNotes client ?x] =>
    rewrite (finalNotes_ext client x
               (Invoice.withDerived formData next (finalNotes client formData))
               eq_refl eq_refl) end.
  rewrite finalNotes_idempotent. reflexivity.
Qed.

End Resave.

(** The sentences the form appends are the two fixed sentences, the
    recommendation with the interval of the client's type. *)
Lemma fixed_sentences (client : Client.t) :
  InvoiceForm.warrantyText = warrantySentence /\
  InvoiceForm.maintenanceText (monthsFor client) = recommendation (Client.type client).
Proof.
  split; [reflexivity|]. unfold monthsFor. now destruct (Client.type client).
Qed.

(** C2. A save with a resolvable client and a new-equipment item keeps the
    user's notes as a prefix, appends the warranty sentence unless the notes
    contain it, then the recommendation (the sentence with "3 meses" for a
    Comercial client, with "6 meses" for a Residencial one) unless the notes
    contain it, each after a blank line when text precedes it; saving the
    saved invoice again leaves it, and so its notes, as they are. *)
Theorem C2_notes_injected_once :
  forall (tz : JSDate.zone) (clients : list Client.t) (invoice : option Invoice.t)
         (formData inv : Invoice.t) (client : Client.t),
    clientOf clients (Invoice.clientId formData) = Some client ->
    InvoiceForm.handleSubmit tz clients invoice formData = InvoiceForm.Saved inv ->
    hasNewEquipment formData = true ->
    let notes0 := userNotes formData in
    let W := warrantySentence in
    let M := recommendation (Client.type client) in
    Invoice.notes inv =
      Some (notes0
            ++ (if JS.includes notes0 W then ""
                else (if JS.truthy notes0 then JS.LF ++ JS.LF else "") ++ W)
            ++ (if JS.includes notes0 M then "" else JS.LF ++ JS.LF ++ M))
    /\ InvoiceForm.handleSubmit tz clients (Some inv) inv = InvoiceForm.Saved inv.
Proof.
  intros tz clients invoice formData inv client HC HS HNE notes0 W M.
  destruct (fixed_sentences client) as [EW EM].
  split.
  - unfold InvoiceForm.handleSubmit in HS. unfold clientOf in HC. rewrite HC in HS.
    destruct (InvoiceForm.nextMaintenance tz formData); [|discriminate].
    injection HS as <-. cbn [Invoice.withIdNumber Invoice.withDerived Invoice.notes].
    f_equal. unfold W, M. rewrite <- EW, <- EM. now apply finalNotes_explicit.
  - now apply handleSubmit_resave with (invoice := invoice) (formData := formData).
Qed.

Lemma C2_notes_injected_once_witness :
  exists inv,
    InvoiceForm.handleSubmit 0 [Sample.luis; Sample.ana] None Sample.equipmentDraft
      = InvoiceForm.Saved inv /\
    Invoice.notes inv =
      Some ("Entregar en horario de oficina."
            ++ (JS.LF ++ JS.LF ++ warrantySentence)
            ++ JS.LF ++ JS.LF ++ recommendation Comercial) /\
    InvoiceForm.handleSubmit 0 [Sample.luis; Sample.ana] (Some inv) inv
      = InvoiceForm.Saved inv.
Proof.
  eexists. split; [reflexivity|].
  apply (C2_notes_injected_once 0 [Sample.luis; Sample.ana] None
           Sample.equipmentDraft _ Sample.ana);
    reflexivity.
Defined.

(** ** C3: totals *)

Section Sums.

Lemma fold_left_sumFrom {A : Type} (f : A -> JS.double) (l : list A) (acc : JS.double) :
  fold_left (fun sum x => (sum + f x)%D) l acc = sumFrom acc (map f l).
Proof.
  revert acc; induction l as [|x l IH]; intros acc; [reflexivity|].
  cbn [fold_left map sumFrom]. apply IH.
Qed.

Lemma sumFrom_app (acc : JS.double) (a b : list JS.double) :
  sumFrom acc (a ++ b) = sumFrom (sumFrom acc a) b.
Proof.
  revert acc; induction a as [|x a IH]; intros acc; [reflexivity|].
  cbn [app sumFrom]. apply IH.
Qed.

(** The sum with one more amount is the sum so far plus that amount. *)
Lemma sumOf_snoc (l : list JS.double) (x : JS.double) :
  sumOf (l ++ [x]) = (sumOf l + x)%D.
Proof. unfold sumOf. now rewrite sumFrom_app. Qed.

Lemma itemsTotal_sum (its : list InvoiceItem.t) :
  itemsTotal its = sumOf (map lineTotal its).
Proof. exact (fold_left_sumFrom lineTotal its JS.zero). Qed.

(** Adding 0 leaves every double but the negative zero as it is. *)
Lemma add_zero (x : JS.double) : x <> negativeZero -> (x + JS.zero)%D = x.
Proof.
  unfold negativeZero. destruct x as [[|]|s| |s m e]; intros H;
    try reflexivity; congruence.
Qed.

End Sums.

(** Sums round as they do in the browser: 0.1 + 0.2 + 0.3 is
    0.6000000000000001, the double next above the one of 0.6, where
    0.3 + 0.2 + 0.1 is the double of 0.6; and 0.1 x 3 is
    0.30000000000000004, the double next above the one of 0.3. *)
Example sums_round :
  sumOf [cents 10; cents 20; cents 30] = SFsucc 53 1024 (cents 60) /\
  sumOf [cents 30; cents 20; cents 10] = cents 60 /\
  (cents 10 * JS.ofZ 3)%D = SFsucc 53 1024 (cents 30).
Proof. vm_compute. repeat split. Qed.

(** C3. The subtotal of the form is the sum over the items of quantity times
    unit price, taken in the order of the items (the sum of no amount is 0,
    and the sum with one more amount is the sum so far plus that amount); the
    total shown by the form is that subtotal, and the total of the preview is
    the same sum. *)
Theorem C3_total_is_sum_of_lines :
  forall inv : Invoice.t,
    InvoiceForm.subtotal inv = sumOf (map lineTotal (Invoice.items inv)) /\
    InvoiceForm.displayedTotal inv = InvoiceForm.subtotal inv /\
    InvoicePreview.total inv = sumOf (map lineTotal (Invoice.items inv)) /\
    sumOf [] = JS.zero /\
    (forall (amounts : list JS.double) (amount : JS.double),
        sumOf (amounts ++ [amount]) = (sumOf amounts + amount)%D) /\
    (forall item : InvoiceItem.t,
        lineTotal item = (InvoiceItem.quantity item * InvoiceItem.unitPrice item)%D).
Proof.
  intros inv. split; [|split; [|split; [|split; [|split]]]].
  - exact (fold_left_sumFrom lineTotal (Invoice.items inv) JS.zero).
  - reflexivity.
  - exact (fold_left_sumFrom lineTotal (Invoice.items inv) JS.zero).
  - reflexivity.
  - exact sumOf_snoc.
  - reflexivity.
Qed.

(** ** C6: service costing *)

Lemma fold_left_pointwise {A B : Type} (f g : A -> B -> A) (l : list B) (a : A) :
  (forall a x, f a x = g a x) -> fold_left f l a = fold_left g l a.
Proof.
  intros H. revert a; induction l as [|x l IH]; intros a; simpl; [reflexivity|].
  now rewrite H, IH.
Qed.

Lemma materialsCost_sum (inventory : list InventoryItem.t) (items : list ServiceItem.t) :
  ServiceForm.materialsCost inventory items = sumOf (map (lineCost inventory) items).
Proof.
  unfold sumOf. rewrite <- fold_left_sumFrom. unfold ServiceForm.materialsCost.
  apply fold_left_pointwise. intros total e. f_equal.
  unfold lineCost, priceOf.
  now destruct (find _ inventory).
Qed.

(** C6. The service handed to the store carries the price materials plus
    labour, its bill of materials and labour cost being those of the form;
    the cost of the materials is the sum, in the order of the bill, of
    resolved unit price times quantity, an entry whose reference does not
    resolve adding 0 (which leaves the running total as it is).  A new
    service is appended to the collection with that price; an edit puts the
    service with that price in the place of the stored services that have
    the identifier of the edited one, and leaves the others. *)
Theorem C6_service_total_price :
  forall (inventory : list InventoryItem.t) (service : option Service.t)
         (services : list Service.t) (newId : string) (formData : Service.t),
    let saved := ServiceForm.handleSubmit inventory service formData in
    let materialsCost := ServiceForm.materialsCost inventory (Service.items formData) in
    materialsCost = sumOf (map (lineCost inventory) (Service.items formData)) /\
    (forall e, priceOf inventory (ServiceItem.inventoryItemId e) = None ->
               lineCost inventory e = JS.zero) /\
    (forall e price, priceOf inventory (ServiceItem.inventoryItemId e) = Some price ->
               lineCost inventory e = (price * JS.ofZ (ServiceItem.quantity e))%D) /\
    (forall total : JS.double, total <> negativeZero -> (total + JS.zero)%D = total) /\
    Service.totalPrice saved = (materialsCost + Service.laborCost formData)%D /\
    Service.items saved = Service.items formData /\
    Service.laborCost saved = Service.laborCost formData /\
    (service = None ->
       ServicesManager.submit inventory service services newId formData
       = (services
          ++ [Service.withIdPrice formData newId
                (materialsCost + Service.laborCost formData)%D])%list) /\
    (forall editing, service = Some editing ->
       ServicesManager.submit inventory service services newId formData
       = map (fun s => if String.eqb (Service.id s) (Service.id editing)
                       then Service.withIdPrice formData (Service.id editing)
                              (materialsCost + Service.laborCost formData)%D
                       else s)
             services).
Proof.
  intros inventory service services newId formData saved materialsCost.
  split; [apply materialsCost_sum|].
  split; [intros e He; unfold lineCost; now rewrite He|].
  split; [intros e price He; unfold lineCost; now rewrite He|].
  split; [exact add_zero|].
  do 3 (split; [reflexivity|]).
  split.
  - intros ->. reflexivity.
  - intros editing ->. reflexivity.
Qed.

(** The costing scenario of the specification, a new service and an edit of
    a stored one: 2 x 10 + 1 x 5 + 20 = 45. *)
Lemma C6_service_total_price_witness :
  ServicesManager.submit [Sample.filterA; Sample.gasB] None [] "s1" Sample.kit
    = [Service.withIdPrice Sample.kit "s1" (JS.ofZ 45)] /\
  ServicesManager.submit [Sample.filterA; Sample.gasB] (Some Scenario.yearly)
    [Scenario.yearly] "s1" Sample.kit
    = [Service.withIdPrice Sample.kit "s9" (JS.ofZ 45)].
Proof.
  split.
  - rewrite (proj1 (proj2 (proj2 (proj2 (proj2 (proj2 (proj2 (proj2
               (C6_service_total_price [Sample.filterA; Sample.gasB] None [] "s1"
                  Sample.kit)))))))) eq_refl).
    vm_compute. reflexivity.
  - rewrite (proj2 (proj2 (proj2 (proj2 (proj2 (proj2 (proj2 (proj2
               (C6_service_total_price [Sample.filterA; Sample.gasB]
                  (Some Scenario.yearly) [Scenario.yearly] "s1" Sample.kit))))))))
               Scenario.yearly eq_refl).
    vm_compute. reflexivity.
Defined.

(** ** C7: editing a bill of materials *)

Section BillOfMaterials.

Import ServiceForm.

Lemma find_line_none (items : list ServiceItem.t) (itemId : string) :
  find (fun i => String.eqb (ServiceItem.inventoryItemId i) itemId) items = None
  <-> ~ hasLine items itemId.
Proof.
  unfold hasLine. induction items as [|i items IH]; simpl.
  - tauto.
  - destruct (String.eqb_spec (ServiceItem.inventoryItemId i) itemId) as [E|E].
    + split; [discriminate | intros H; exfalso; apply H; now left].
    + rewrite IH. tauto.
Qed.

Lemma ids_set_quantity (items : list ServiceItem.t) (itemId : string) (q : Z) :
  bomIds (map (fun i => if String.eqb (ServiceItem.inventoryItemId i) itemId
                     then ServiceItem.mk (ServiceItem.inventoryItemId i) q
                     else i) items)
  = bomIds items.
Proof.
  unfold bomIds. rewrite map_map. apply map_ext. intros i.
  now destruct (String.eqb (ServiceItem.inventoryItemId i) itemId).
Qed.

Lemma ids_filter_sub (keep : ServiceItem.t -> bool) (items : list ServiceItem.t)
    (x : string) :
  In x (bomIds (filter keep items)) -> In x (bomIds items).
Proof.
  unfold bomIds. rewrite !in_map_iff. intros [i [Hi Hin]].
  apply filter_In in Hin as [Hin _]. now exists i.
Qed.

Lemma NoDup_ids_filter (keep : ServiceItem.t -> bool) (items : list ServiceItem.t) :
  NoDup (bomIds items) -> NoDup (bomIds (filter keep items)).
Proof.
  induction items as [|i items IH]; simpl; intros H; [constructor|].
  inversion H as [|? ? Hnotin Hrest]; subst.
  destruct (keep i); simpl; [constructor|]; auto.
  intros Hin. apply Hnotin. now apply ids_filter_sub in Hin.
Qed.

Lemma removed_line_absent (items : list ServiceItem.t) (itemId : string) :
  ~ hasLine
      (filter (fun i => negb (String.eqb (ServiceItem.inventoryItemId i) itemId)) items)
      itemId.
Proof.
  unfold hasLine. rewrite in_map_iff. intros [i [Hi Hin]].
  apply filter_In in Hin as [_ Hk]. rewrite Hi, String.eqb_refl in Hk. discriminate.
Qed.

(** One edit keeps a bill of materials well formed. *)
Lemma handleItemQuantityChange_ok (formData : Service.t) (itemId : string) (q : Z) :
  bomOk (Service.items formData) ->
  bomOk (Service.items (handleItemQuantityChange formData itemId q)).
Proof.
  intros [Hnd Hpos]. unfold handleItemQuantityChange.
  cbn [Service.withItems Service.items].
  destruct (find _ (Service.items formData)) eqn:EF.
  - destruct (q >? 0) eqn:EQ.
    + split.
      * fold (bomIds (Service.items formData)) in Hnd.
        unfold bomOk. change (NoDup (bomIds (map (fun i =>
          if String.eqb (ServiceItem.inventoryItemId i) itemId
          then ServiceItem.mk (ServiceItem.inventoryItemId i) q else i)
          (Service.items formData)))).
        now rewrite ids_set_quantity.
      * apply Forall_map. apply Forall_impl with (2 := Hpos). intros i Hi.
        destruct (String.eqb (ServiceItem.inventoryItemId i) itemId); simpl; lia.
    + split.
      * now apply NoDup_ids_filter.
      * apply Forall_forall. intros i Hi. apply filter_In in Hi as [Hi _].
        rewrite Forall_forall in Hpos. now apply Hpos.
  - apply find_line_none in EF. destruct (q >? 0) eqn:EQ.
    + split.
      * rewrite map_app. simpl. apply NoDup_app; [assumption | | ].
        -- constructor; [intros [] | constructor].
        -- intros x Hx [<- | []]. now apply EF.
      * apply Forall_app. split; [assumption|].
        constructor; [simpl; lia | constructor].
    + now split.
Qed.

Lemma applyEdits_ok (edits : list (string * Z)) (formData : Service.t) :
  bomOk (Service.items formData) ->
  bomOk (Service.items (applyEdits formData edits)).
Proof.
  unfold applyEdits. revert formData.
  induction edits as [|[itemId q] edits IH]; intros formData H; simpl.
  - exact H.
  - apply IH. now apply handleItemQuantityChange_ok.
Qed.

End BillOfMaterials.

(** C7. Typing 0 for a line that exists removes that line and nothing else;
    typing a quantity for an item without a line appends a line exactly when
    the quantity is positive; so every sequence of edits keeps a bill of
    materials free of repeated items and of quantities that are not
    positive, in particular when it starts from the empty bill of a new
    service. *)
Theorem C7_bom_edit_contract :
  (forall (formData : Service.t) (itemId : string),
      hasLine (Service.items formData) itemId ->
      Service.items (ServiceForm.handleItemQuantityChange formData itemId 0)
        = filter (fun i => negb (String.eqb (ServiceItem.inventoryItemId i) itemId))
                 (Service.items formData)
      /\ ~ hasLine (Service.items (ServiceForm.handleItemQuantityChange formData itemId 0))
                   itemId) /\
  (forall (formData : Service.t) (itemId : string) (q : Z),
      ~ hasLine (Service.items formData) itemId ->
      Service.items (ServiceForm.handleItemQuantityChange formData itemId q)
        = if 0 <? q
          then (Service.items formData ++ [ServiceItem.mk itemId q])%list
          else Service.items formData) /\
  (forall (formData : Service.t) (edits : list (string * Z)),
      bomOk (Service.items formData) ->
      bomOk (Service.items (applyEdits formData edits))) /\
  (forall (formData : Service.t) (edits : list (string * Z)),
      Service.items formData = [] ->
      bomOk (Service.items (applyEdits formData edits))).
Proof.
  repeat split.
  - revert H. unfold ServiceForm.handleItemQuantityChange.
    cbn [Service.withItems Service.items]. intros H.
    destruct (find _ (Service.items formData)) eqn:EF; [reflexivity|].
    apply find_line_none in EF. contradiction.
  - unfold ServiceForm.handleItemQuantityChange.
    cbn [Service.withItems Service.items].
    destruct (find _ (Service.items formData)) eqn:EF.
    + apply removed_line_absent.
    + apply find_line_none in EF. contradiction.
  - intros formData itemId q H. apply find_line_none in H.
    unfold ServiceForm.handleItemQuantityChange.
    cbn [Service.withItems Service.items]. rewrite H.
    rewrite Z.gtb_ltb. reflexivity.
  - now apply applyEdits_ok.
  - now apply applyEdits_ok.
  - apply applyEdits_ok. rewrite H. split; constructor.
  - apply applyEdits_ok. rewrite H. split; constructor.
Qed.

Lemma C7_bom_edit_contract_witness :
  bomOk (Service.items (applyEdits Sample.kit [("A", 0); ("C", 3); ("B", 4); ("D", 0)])).
Proof.
  apply (proj1 (proj2 (proj2 C7_bom_edit_contract))).
  split.
  - repeat constructor; simpl; intuition discriminate.
  - repeat constructor; simpl; lia.
Defined.

(** ** C5: upcoming maintenance *)

Section UpcomingMaintenance.

Import DashboardPage.

Lemma NoDup_map_filter {A B : Type} (f : A -> B) (keep : A -> bool) (l : list A) :
  NoDup (map f l) -> NoDup (map f (filter keep l)).
Proof.
  induction l as [|x l IH]; simpl; intros H; [constructor|].
  inversion H as [|? ? Hnotin Hrest]; subst.
  destruct (keep x); simpl; [constructor|]; auto.
  rewrite in_map_iff. intros [y [Hy Hin]]. apply Hnotin.
  apply filter_In in Hin as [Hin _]. rewrite in_map_iff. now exists y.
Qed.

Lemma ofString_nonempty (s : string) (t : Z) :
  JSDate.ofString s = Some t -> JS.truthy s = true.
Proof. destruct s; [discriminate | reflexivity]. Qed.

(** The window test of the dashboard is the inclusive window on instants. *)
Lemma inWindow_iff (now : Z) (inv : Invoice.t) :
  inWindow now inv = true <-> dueSoon now inv.
Proof.
  unfold inWindow, dueSoon, fifteenDays, JSDate.msPerDay.
  destruct (Invoice.nextMaintenanceDate inv) as [s|].
  - destruct (JSDate.ofString s) as [t|] eqn:E.
    + rewrite (ofString_nonempty s t E). cbn [andb].
      rewrite andb_true_iff, Z.leb_le, Z.geb_le. split.
      * intros H. exists s, t. repeat split; try reflexivity; try assumption; lia.
      * intros [s' [t' [Hs [Ht Hw]]]]. injection Hs as <-.
        rewrite E in Ht. injection Ht as <-. lia.
    + rewrite andb_false_r. split; [discriminate|].
      intros [s' [t' [Hs [Ht _]]]]. injection Hs as <-. congruence.
  - split; [discriminate|]. intros [s [t [Hs _]]]. discriminate.
Qed.

(** The pipeline [filter], [map], [filter] of the dashboard lists the
    referenced clients. *)
Lemma pipeline_referenced (now : Z) (clients : list Client.t)
    (invoices : list Invoice.t) :
  defined
    (map (fun inv =>
            find (fun c => String.eqb (Client.id c) (Invoice.clientId inv)) clients)
         (filter (inWindow now) invoices))
  = referencedClients now clients invoices.
Proof.
  unfold referencedClients, clientOf.
  induction invoices as [|inv invoices IH]; simpl; [reflexivity|].
  destruct (inWindow now inv); simpl; [|exact IH].
  destruct (find _ clients); simpl; now rewrite IH.
Qed.

Lemma referenced_iff (now : Z) (clients : list Client.t)
    (invoices : list Invoice.t) (c : Client.t) :
  In c (referencedClients now clients invoices) <->
  exists inv, In inv invoices /\ dueSoon now inv /\
              clientOf clients (Invoice.clientId inv) = Some c.
Proof.
  unfold referencedClients. rewrite in_flat_map. split.
  - intros [inv [Hin Hc]]. exists inv. split; [assumption|].
    destruct (inWindow now inv) eqn:EW; [|destruct Hc].
    apply inWindow_iff in EW. split; [assumption|].
    destruct (clientOf clients (Invoice.clientId inv)); [|destruct Hc].
    destruct Hc as [<- | []]. reflexivity.
  - intros [inv [Hin [Hdue Hc]]]. exists inv. split; [assumption|].
    apply inWindow_iff in Hdue. rewrite Hdue, Hc. now left.
Qed.

Lemma clientOf_id (clients : list Client.t) (k : string) (c : Client.t) :
  clientOf clients k = Some c -> Client.id c = k.
Proof.
  unfold clientOf. intros H. apply find_some in H as [_ H].
  now apply String.eqb_eq.
Qed.

(** Among referenced clients the identifier determines the client. *)
Lemma referenced_by_id (now : Z) (clients : list Client.t)
    (invoices : list Invoice.t) (a b : Client.t) :
  In a (referencedClients now clients invoices) ->
  In b (referencedClients now clients invoices) ->
  Client.id a = Client.id b -> a = b.
Proof.
  rewrite !referenced_iff.
  intros [ia [_ [_ Ha]]] [ib [_ [_ Hb]]] Hid.
  pose proof (clientOf_id _ _ _ Ha) as Ea.
  pose proof (clientOf_id _ _ _ Hb) as Eb.
  assert (E : Invoice.clientId ia = Invoice.clientId ib) by congruence.
  rewrite E in Ha. congruence.
Qed.

Lemma find_existsb {A : Type} (p : A -> bool) (l : list A) :
  existsb p l = match find p l with Some _ => true | None => false end.
Proof.
  induction l as [|x l IH]; simpl; [reflexivity|].
  destruct (p x); [reflexivity | exact IH].
Qed.

Lemma addUnique_unseen (acc : list Client.t) (c : Client.t) :
  addUnique acc c = if unseen acc c then (acc ++ [c])%list else acc.
Proof.
  unfold addUnique, unseen. rewrite find_existsb.
  now destruct (find _ acc).
Qed.

Lemma filter_twice {A : Type} (p q : A -> bool) (l : list A) :
  filter p (filter q l) = filter (fun x => q x && p x) l.
Proof.
  induction l as [|x l IH]; simpl; [reflexivity|].
  destruct (q x); simpl; [destruct (p x)|]; now rewrite IH.
Qed.

Lemma unseen_snoc (acc : list Client.t) (c x : Client.t) :
  unseen (acc ++ [c]) x
  = negb (String.eqb (Client.id x) (Client.id c)) && unseen acc x.
Proof.
  unfold unseen. rewrite existsb_app. simpl.
  rewrite orb_false_r, negb_orb, (String.eqb_sym (Client.id c)).
  apply andb_comm.
Qed.

Lemma unseen_same_id (acc : list Client.t) (c x : Client.t) :
  Client.id x = Client.id c -> unseen acc x = unseen acc c.
Proof. intros H. unfold unseen. now rewrite H. Qed.

(** The reduction appends to the accumulator the first occurrences that
    the accumulator does not hold yet. *)
Lemma fold_addUnique (l acc : list Client.t) :
  fold_left addUnique l acc = (acc ++ filter (unseen acc) (firstOccurrences l))%list.
Proof.
  revert acc; induction l as [|c l IH]; intros acc.
  - simpl. now rewrite app_nil_r.
  - cbn [fold_left firstOccurrences filter]. rewrite IH, addUnique_unseen.
    destruct (unseen acc c) eqn:EU.
    + rewrite <- app_assoc. cbn [app]. do 2 f_equal.
      rewrite filter_twice. apply filter_ext. intros x. apply unseen_snoc.
    + f_equal. rewrite filter_twice. apply filter_ext. intros x.
      destruct (String.eqb_spec (Client.id x) (Client.id c)) as [E|E];
        cbn [negb andb]; [|reflexivity].
      now rewrite (unseen_same_id acc c x E).
Qed.

Lemma firstOccurrences_sub (l : list Client.t) (c : Client.t) :
  In c (firstOccurrences l) -> In c l.
Proof.
  induction l as [|x l IH]; simpl; [tauto|].
  intros [H | H]; [now left | right].
  apply filter_In in H as [H _]. now apply IH.
Qed.

Lemma firstOccurrences_id (l : list Client.t) (c : Client.t) :
  In c l -> exists c', In c' (firstOccurrences l) /\ Client.id c' = Client.id c.
Proof.
  induction l as [|x l IH]; simpl; [tauto|].
  intros [-> | H].
  - exists c. split; [now left | reflexivity].
  - destruct (IH H) as [c' [Hin Hid]].
    destruct (String.eqb_spec (Client.id c') (Client.id x)) as [E|E].
    + exists x. split; [now left | congruence].
    + exists c'. split; [|assumption]. right. apply filter_In.
      split; [assumption|]. now apply negb_true_iff, String.eqb_neq.
Qed.

Lemma firstOccurrences_NoDup (l : list Client.t) :
  NoDup (map Client.id (firstOccurrences l)).
Proof.
  induction l as [|x l IH]; simpl; constructor.
  - rewrite in_map_iff. intros [y [Hy Hin]].
    apply filter_In in Hin as [_ Hk]. rewrite Hy, String.eqb_refl in Hk.
    discriminate.
  - now apply NoDup_map_filter.
Qed.

Lemma upcomingMaintenance_firstOccurrences (now : Z) (clients : list Client.t)
    (invoices : list Invoice.t) :
  upcomingMaintenance now clients invoices
  = firstOccurrences (referencedClients now clients invoices).
Proof.
  unfold upcomingMaintenance. rewrite pipeline_referenced, fold_addUnique.
  cbn [app]. rewrite <- (filter_ext (fun _ => true)) by reflexivity.
  induction (firstOccurrences _) as [|x l IH]; simpl; now rewrite ?IH.
Qed.

End UpcomingMaintenance.

(** Two invoices of one client, due at the two ends of the window, give one
    entry; an invoice due a day later gives none. *)
Example upcoming_maintenance_once :
  DashboardPage.upcomingMaintenance Sample.march16 [Sample.ana; Sample.luis]
    [Sample.dueNow; Sample.dueLate; Sample.dueLast] = [Sample.ana].
Proof. reflexivity. Qed.

(** C5. The upcoming-maintenance list holds exactly the clients referenced by
    an invoice whose next maintenance lies between now and fifteen days
    later, both bounds included; no identifier occurs twice in it, however
    many due invoices refer to a client; and it lists the clients in the
    order in which the scan of the invoices first meets them. *)
Theorem C5_upcoming_maintenance :
  forall (now : Z) (clients : list Client.t) (invoices : list Invoice.t),
    let out := DashboardPage.upcomingMaintenance now clients invoices in
    NoDup (map Client.id out) /\
    (forall c, In c out <->
               exists inv, In inv invoices /\ dueSoon now inv /\
                           clientOf clients (Invoice.clientId inv) = Some c) /\
    out = firstOccurrences (referencedClients now clients invoices).
Proof.
  intros now clients invoices out.
  assert (E : out = firstOccurrences (referencedClients now clients invoices))
    by apply upcomingMaintenance_firstOccurrences.
  split; [|split]; [| |exact E].
  - rewrite E. apply firstOccurrences_NoDup.
  - intros c. rewrite <- referenced_iff, E. split.
    + apply firstOccurrences_sub.
    + intros H. destruct (firstOccurrences_id _ _ H) as [c' [Hin Hid]].
      assert (c' = c) as <-; [|assumption].
      apply (referenced_by_id now clients invoices); try assumption.
      now apply firstOccurrences_sub.
Qed.

(** ** C8: a draft without a resolvable client *)

Lemma nextMaintenance_defined (tz : JSDate.zone) (formData : Invoice.t) :
  hasMaintenance formData = false \/ JSDate.ofString (Invoice.issueDate formData) <> None ->
  exists next, InvoiceForm.nextMaintenance tz formData = Some next.
Proof.
  unfold InvoiceForm.nextMaintenance, hasMaintenance.
  intros [-> | H]; [now exists None|].
  destruct (existsb _ _); [|now exists None].
  destruct (JSDate.ofString (Invoice.issueDate formData)) as [t|]; [|congruence].
  cbn. eexists. reflexivity.
Qed.

(** C8. When the client of a draft does not resolve, the submit shows the
    alert and stops: nothing is handed to the page and the stored invoices
    stay as they are.  When it resolves (and the issue date is a date, or no
    maintenance date is asked for) the draft is saved with its items
    untouched, whatever their quantities and prices. *)
Theorem C8_unresolved_client_aborts :
  forall (tz : JSDate.zone) (clients : list Client.t) (selectedInvoice : option Invoice.t)
         (invoices : list Invoice.t) (newId : string) (formData : Invoice.t),
    (clientOf clients (Invoice.clientId formData) = None ->
       InvoiceForm.handleSubmit tz clients selectedInvoice formData
         = InvoiceForm.Alert "Por favor, seleccione un cliente."
       /\ InvoicesPage.submit tz clients selectedInvoice invoices newId formData
          = invoices) /\
    (forall client,
       clientOf clients (Invoice.clientId formData) = Some client ->
       hasMaintenance formData = false
         \/ JSDate.ofString (Invoice.issueDate formData) <> None ->
       exists inv,
         InvoiceForm.handleSubmit tz clients selectedInvoice formData
           = InvoiceForm.Saved inv
         /\ Invoice.items inv = Invoice.items formData).
Proof.
  intros tz clients selectedInvoice invoices newId formData. split.
  - intros HC. unfold InvoicesPage.submit, InvoiceForm.handleSubmit.
    unfold clientOf in HC. rewrite HC. now split.
  - intros client HC HD. unfold InvoiceForm.handleSubmit.
    unfold clientOf in HC. rewrite HC.
    destruct (nextMaintenance_defined tz formData HD) as [next ->].
    eexists. split; reflexivity.
Qed.

Lemma C8_unresolved_client_aborts_witness :
  (InvoiceForm.handleSubmit 0 [Sample.ana; Sample.luis] None Sample.orphanDraft
     = InvoiceForm.Alert "Por favor, seleccione un cliente."
   /\ InvoicesPage.submit 0 [Sample.ana; Sample.luis] None [Sample.stored] "n1"
        Sample.orphanDraft = [Sample.stored]) /\
  (exists inv,
     InvoiceForm.handleSubmit 0 [Sample.ana; Sample.luis] None Sample.refundDraft
       = InvoiceForm.Saved inv
     /\ Invoice.items inv = [Sample.refund]).
Proof.
  split.
  - apply (proj1 (C8_unresolved_client_aborts 0 [Sample.ana; Sample.luis] None
                    [Sample.stored] "n1" Sample.orphanDraft)).
    reflexivity.
  - apply (proj2 (C8_unresolved_client_aborts 0 [Sample.ana; Sample.luis] None
                    [Sample.stored] "n1" Sample.refundDraft) Sample.ana).
    + reflexivity.
    + left. reflexivity.
Defined.

(** ** C10: a service added to an invoice *)

Section AddService.

Lemma toLowerCase_app (a b : string) :
  JS.toLowerCase (a ++ b) = JS.toLowerCase a ++ JS.toLowerCase b.
Proof. induction a as [|c a IH]; simpl; [reflexivity | now rewrite IH]. Qed.

Lemma toLowerCase_split (s x y : string) :
  JS.toLowerCase s = x ++ y ->
  exists s1 s2, s = s1 ++ s2 /\ JS.toLowerCase s1 = x /\ JS.toLowerCase s2 = y.
Proof.
  revert s; induction x as [|c x IH]; intros s H.
  - exists "", s. now repeat split.
  - destruct s as [|d s]; [discriminate|]. simpl in H.
    injection H as Hc Hs. destruct (IH s Hs) as [s1 [s2 [-> [H1 H2]]]].
    exists (String d s1), s2. simpl. now rewrite Hc, H1.
Qed.

(** Searching the lowered name is searching the name up to letter case. *)
Lemma includes_lowered (s t : string) :
  JS.includes (JS.toLowerCase s) t = true <->
  exists a w b, s = a ++ w ++ b /\ JS.toLowerCase w = t.
Proof.
  rewrite includes_iff. split.
  - intros [x [y H]].
    destruct (toLowerCase_split s x (t ++ y) H) as [a [r [-> [_ Hr]]]].
    destruct (toLowerCase_split r t y Hr) as [w [b [-> [Hw _]]]].
    now exists a, w, b.
  - intros [a [w [b [-> <-]]]].
    exists (JS.toLowerCase a), (JS.toLowerCase b).
    now rewrite !toLowerCase_app.
Qed.

Lemma allAscii_complete (c : ascii) : In c allAscii.
Proof.
  unfold allAscii. apply in_map_iff. exists (nat_of_ascii c).
  split; [apply ascii_nat_embedding|].
  apply in_seq. pose proof (nat_ascii_bounded c). lia.
Qed.

(** Character by character: lowering gives the small letter [l] exactly for
    [l] itself and for its capital. *)
Lemma letters_checked :
  forallb (fun c =>
    forallb (fun l => implb (memberOf l smalls)
                            (Bool.eqb (Ascii.eqb (JS.lowerChar c) l) (sameLetter c l)))
            allAscii)
    allAscii = true.
Proof. vm_compute. reflexivity. Qed.

Lemma lowerChar_sameLetter (c l : ascii) :
  memberOf l smalls = true ->
  (JS.lowerChar c = l <-> sameLetter c l = true).
Proof.
  intros Hl. pose proof letters_checked as H.
  rewrite forallb_forall in H. specialize (H c (allAscii_complete c)).
  rewrite forallb_forall in H. specialize (H l (allAscii_complete l)).
  rewrite Hl in H. cbn [implb] in H. apply Bool.eqb_prop in H.
  rewrite <- H. apply iff_sym, Ascii.eqb_eq.
Qed.

Lemma toLowerCase_sameUpToCase (w t : string) :
  allSmall t = true ->
  (JS.toLowerCase w = t <-> sameUpToCase w t = true).
Proof.
  revert t; induction w as [|c w IH]; intros t Ht.
  - destruct t; simpl; split; congruence.
  - destruct t as [|l t]; [simpl; split; congruence|].
    cbn [allSmall] in Ht. apply andb_true_iff in Ht as [Hl Ht].
    cbn [JS.toLowerCase sameUpToCase]. rewrite andb_true_iff.
    rewrite <- (lowerChar_sameLetter c l Hl), <- (IH t Ht).
    split; [intros H; now inversion H | intros [-> ->]; reflexivity].
Qed.

(** Searching the lowered name for a word in small letters is searching the
    name for the word in any letter case. *)
Lemma includes_lowered_occurs (s t : string) :
  allSmall t = true ->
  (JS.includes (JS.toLowerCase s) t = true <-> occursIn s t).
Proof.
  intros Ht. rewrite includes_lowered. unfold occursIn.
  split; intros [a [w [b [E H]]]]; exists a, w, b; (split; [exact E|]);
    now apply (toLowerCase_sameUpToCase w t Ht).
Qed.

End AddService.

(** A name in capitals, a name in mixed case, and a name without the word. *)
Example maintenance_names :
  JS.includes (JS.toLowerCase "MANTENIMIENTO ANUAL") "mantenimiento" = true /\
  JS.includes (JS.toLowerCase "Servicio de ManTenimiento") "mantenimiento" = true /\
  JS.includes (JS.toLowerCase "Instalación de split") "mantenimiento" = false.
Proof. vm_compute. repeat split. Qed.

(** C10. Picking a stored service appends one item to the draft: quantity 1,
    the service's stored total price as unit price, not new equipment, and
    flagged as maintenance exactly when the word "mantenimiento" occurs in
    the service's name, each of its letters in either case. *)
Theorem C10_service_line_item :
  forall (newId : string) (service : Service.t) (formData : Invoice.t),
    exists isMaint : bool,
      Invoice.items (InvoiceForm.handleAddService newId service formData)
        = (Invoice.items formData
           ++ [InvoiceItem.mk newId (Service.name service) (JS.ofZ 1)
                 (Service.totalPrice service) (Some isMaint) (Some false)])%list
      /\ (isMaint = true <-> occursIn (Service.name service) "mantenimiento").
Proof.
  intros newId service formData.
  exists (JS.includes (JS.toLowerCase (Service.name service)) "mantenimiento").
  split; [reflexivity | now apply includes_lowered_occurs].
Qed.

(** ** C9: invoice numbers *)

Section InvoiceNumbers.

Lemma length_append (a b : string) :
  String.length (a ++ b) = (String.length a + String.length b)%nat.
Proof. induction a as [|c a IH]; simpl; [reflexivity | now rewrite IH]. Qed.

Lemma filler_zeros (k : nat) (cur : string) :
  cur = "" \/ cur = "0" -> JS.filler "0" cur k = zeros k.
Proof.
  revert cur; induction k as [|k IH]; intros cur H; [reflexivity|].
  destruct H as [-> | ->]; simpl; f_equal; apply IH; now left.
Qed.

Lemma padStart_zeros (s : string) (n : nat) :
  JS.padStart s n "0" = zeros (n - String.length s) ++ s.
Proof.
  unfold JS.padStart. destruct (Nat.leb_spec n (String.length s)) as [H|H].
  - replace (n - String.length s)%nat with 0%nat by lia. reflexivity.
  - rewrite filler_zeros by now right. reflexivity.
Qed.

Lemma length_zeros (k : nat) : String.length (zeros k) = k.
Proof. induction k as [|k IH]; simpl; [reflexivity | now rewrite IH]. Qed.

Lemma decimalValue_zeros (k : nat) (s : string) :
  decimalValue (zeros k ++ s) = decimalValue s.
Proof.
  induction k as [|k IH]; [reflexivity|].
  rewrite <- IH. unfold decimalValue. simpl.
  now destruct (NilEmpty.uint_of_string (zeros k ++ s)).
Qed.

Lemma decimalValue_toString (n : nat) : decimalValue (JS.toString n) = Some n.
Proof.
  unfold decimalValue, JS.toString. rewrite NilEmpty.usu. simpl.
  now rewrite Unsigned.of_to.
Qed.

(** The digits of an invoice number: at least four, denoting [n]. *)
Lemma padded_number (n : nat) :
  let digits := JS.padStart (JS.toString n) 4 "0" in
  decimalValue digits = Some n /\
  String.length digits = Nat.max 4 (String.length (JS.toString n)).
Proof.
  cbv zeta. rewrite padStart_zeros. split.
  - now rewrite decimalValue_zeros, decimalValue_toString.
  - rewrite length_append, length_zeros. lia.
Qed.

Lemma NoDup_map_inj {A B : Type} (f : A -> B) (l : list A) (a b : A) :
  NoDup (map f l) -> In a l -> In b l -> f a = f b -> a = b.
Proof.
  induction l as [|x l IH]; simpl; [tauto|].
  intros H Ha Hb E. inversion H as [|? ? Hnotin Hrest]; subst.
  destruct Ha as [-> | Ha], Hb as [-> | Hb]; auto.
  - exfalso. apply Hnotin. rewrite E. now apply in_map.
  - exfalso. apply Hnotin. rewrite <- E. now apply in_map.
Qed.

Lemma replace_keptOrEdited (sel inv : Invoice.t) (invoices : list Invoice.t) :
  Invoice.id inv = Invoice.id sel ->
  Invoice.invoiceNumber inv = Invoice.invoiceNumber sel ->
  Forall2 (keptOrEdited sel) invoices
    (map (fun i => if String.eqb (Invoice.id i) (Invoice.id inv) then inv else i)
         invoices).
Proof.
  intros Hid Hn. induction invoices as [|i invoices IH]; simpl; constructor;
    [|exact IH].
  destruct (String.eqb_spec (Invoice.id i) (Invoice.id inv)) as [E|E].
  - right. repeat split; congruence.
  - now left.
Qed.

Lemma keptOrEdited_refl (sel : Invoice.t) (invoices : list Invoice.t) :
  Forall2 (keptOrEdited sel) invoices invoices.
Proof. induction invoices; constructor; [now left | assumption]. Qed.

Lemma saved_keeps_identity (tz : JSDate.zone) (clients : list Client.t)
    (sel formData inv : Invoice.t) :
  InvoiceForm.handleSubmit tz clients (Some sel) formData = InvoiceForm.Saved inv ->
  Invoice.id inv = Invoice.id sel /\
  Invoice.invoiceNumber inv = Invoice.invoiceNumber sel.
Proof.
  unfold InvoiceForm.handleSubmit.
  destruct (find _ clients); [|discriminate].
  destruct (InvoiceForm.nextMaintenance tz formData); [|discriminate].
  intros H. injection H as <-. now split.
Qed.

Lemma edit_keptOrEdited (tz : JSDate.zone) (clients : list Client.t) (sel : Invoice.t)
    (invoices : list Invoice.t) (newId : string) (formData : Invoice.t) :
  Forall2 (keptOrEdited sel) invoices
    (InvoicesPage.submit tz clients (Some sel) invoices newId formData).
Proof.
  unfold InvoicesPage.submit.
  destruct (InvoiceForm.handleSubmit tz clients (Some sel) formData) as [msg| |inv] eqn:E;
    try apply keptOrEdited_refl.
  apply saved_keeps_identity in E as [Hid Hn].
  now apply replace_keptOrEdited.
Qed.

Lemma keptOrEdited_numbers (sel : Invoice.t) (l l' : list Invoice.t) :
  (forall old, In old l -> Invoice.id old = Invoice.id sel ->
               Invoice.invoiceNumber old = Invoice.invoiceNumber sel) ->
  Forall2 (keptOrEdited sel) l l' ->
  map Invoice.invoiceNumber l' = map Invoice.invoiceNumber l.
Proof.
  intros H F. induction F as [|old new l l' K F IH]; [reflexivity|].
  simpl. f_equal.
  - destruct K as [-> | [Hid [_ Hn]]]; [reflexivity|].
    rewrite Hn. symmetry. apply H; [now left | assumption].
  - apply IH. intros o Ho. apply H. now right.
Qed.

End InvoiceNumbers.

(** C9. A created invoice is appended with the number "INV-" followed by the
    collection size plus one written in decimal and padded with zeros to at
    least four digits, "INV-0001" for the first one; an edit touches only
    stored invoices that have the identifier of the edited one and gives
    them its number, so, identifiers being distinct, every stored number is
    what it was. *)
Theorem C9_invoice_number :
  (forall (invoices : list Invoice.t) (newId : string) (invoice : Invoice.t),
      exists digits,
        InvoicesPage.handleSaveInvoice None invoices newId invoice
          = (invoices ++ [Invoice.withIdNumber invoice newId ("INV-" ++ digits)])%list
        /\ decimalValue digits = Some (List.length invoices + 1)%nat
        /\ String.length digits
           = Nat.max 4 (String.length (JS.toString (List.length invoices + 1)))) /\
  (forall (newId : string) (invoice : Invoice.t),
      InvoicesPage.handleSaveInvoice None [] newId invoice
        = [Invoice.withIdNumber invoice newId "INV-0001"]) /\
  (forall (tz : JSDate.zone) (clients : list Client.t) (sel : Invoice.t)
          (invoices : list Invoice.t) (newId : string) (formData : Invoice.t),
      Forall2 (keptOrEdited sel) invoices
        (InvoicesPage.submit tz clients (Some sel) invoices newId formData)) /\
  (forall (tz : JSDate.zone) (clients : list Client.t) (sel : Invoice.t)
          (invoices : list Invoice.t) (newId : string) (formData : Invoice.t),
      In sel invoices -> NoDup (map Invoice.id invoices) ->
      map Invoice.invoiceNumber
          (InvoicesPage.submit tz clients (Some sel) invoices newId formData)
        = map Invoice.invoiceNumber invoices).
Proof.
  split; [|split; [|split]].
  - intros invoices newId invoice.
    exists (JS.padStart (JS.toString (List.length invoices + 1)) 4 "0").
    split; [reflexivity | apply padded_number].
  - reflexivity.
  - intros tz clients sel invoices newId formData. apply edit_keptOrEdited.
  - intros tz clients sel invoices newId formData Hin Hnd.
    apply (keptOrEdited_numbers sel); [|apply edit_keptOrEdited].
    intros old Ho Hid.
    now rewrite (NoDup_map_inj Invoice.id invoices old sel Hnd Ho Hin Hid).
Qed.

Lemma C9_invoice_number_witness :
  map Invoice.invoiceNumber
      (InvoicesPage.submit 0 [Sample.ana; Sample.luis] (Some Sample.stored)
         [Sample.stored; Sample.other] "unused" Sample.storedEdited)
  = ["INV-0007"; "INV-0008"].
Proof.
  apply (proj2 (proj2 (proj2 C9_invoice_number)) 0 [Sample.ana; Sample.luis]
           Sample.stored [Sample.stored; Sample.other] "unused" Sample.storedEdited).
  - now left.
  - repeat constructor; simpl; intuition discriminate.
Defined.

(** ** The calendar *)

Section Calendar.

Import JSDate.

Lemma DayFromYear_succ (y : Z) :
  DayFromYear (y + 1) = DayFromYear y + DaysInYear y.
Proof.
  unfold DayFromYear, DaysInYear, isLeap.
  destruct (y mod 4 =? 0) eqn:E4; destruct (y mod 100 =? 0) eqn:E100;
    destruct (y mod 400 =? 0) eqn:E400; cbn [andb orb negb];
    rewrite ?Z.eqb_eq, ?Z.eqb_neq in *;
    Z.to_euclidean_division_equations; lia.
Qed.

Lemma DayFromYear_mono (y y' : Z) : y <= y' -> DayFromYear y <= DayFromYear y'.
Proof.
  unfold DayFromYear. intros H. Z.to_euclidean_division_equations; lia.
Qed.

(** [YearFromDay d] is the year whose days include [d]. *)
Lemma YearFromDay_spec (d : Z) :
  DayFromYear (YearFromDay d) <= d < DayFromYear (YearFromDay d + 1).
Proof.
  unfold YearFromDay. cbv zeta.
  set (y0 := 1970 + 400 * d / 146097).
  assert (H0 : DayFromYear (y0 - 1) <= d < DayFromYear (y0 + 2)).
  { unfold DayFromYear, y0. Z.to_euclidean_division_equations; lia. }
  destruct (Z.leb_spec (DayFromYear (y0 + 1)) d).
  - replace (y0 + 1 + 1) with (y0 + 2) by lia. lia.
  - destruct (Z.leb_spec (DayFromYear y0) d).
    + lia.
    + replace (y0 - 1 + 1) with y0 by lia. lia.
Qed.

Lemma YearFromDay_unique (y d : Z) :
  DayFromYear y <= d < DayFromYear (y + 1) -> YearFromDay d = y.
Proof.
  intros H. pose proof (YearFromDay_spec d) as S.
  destruct (Z.lt_trichotomy (YearFromDay d) y) as [L | [E | G]]; [|exact E|].
  - pose proof (DayFromYear_mono (YearFromDay d + 1) y ltac:(lia)). lia.
  - pose proof (DayFromYear_mono (y + 1) (YearFromDay d) ltac:(lia)). lia.
Qed.

Lemma Day_MakeDate (day tw : Z) :
  0 <= tw < msPerDay ->
  Day (MakeDate day tw) = day /\ TimeWithinDay (MakeDate day tw) = tw.
Proof.
  unfold Day, TimeWithinDay, MakeDate, msPerDay. intros H.
  Z.to_euclidean_division_equations; lia.
Qed.

Lemma month_cases (m : Z) :
  0 <= m <= 11 ->
  m = 0 \/ m = 1 \/ m = 2 \/ m = 3 \/ m = 4 \/ m = 5 \/ m = 6 \/ m = 7 \/
  m = 8 \/ m = 9 \/ m = 10 \/ m = 11.
Proof. lia. Qed.

(** Within a year, the day number of a calendar date and back. *)
Lemma day_in_year (y m d : Z) :
  validDate y (m + 1) d ->
  let l := if isLeap y then 1 else 0 in
  let n := monthStart m l + d - 1 in
  0 <= n < DaysInYear y /\ monthOfDay n l = m /\
  n - monthStart m l + 1 = d.
Proof.
  intros [Hm Hd] l n. unfold DaysInYear.
  assert (Hm' : 0 <= m <= 11) by lia.
  unfold n, l; clear n l.
  destruct (month_cases m Hm') as
    [-> | [-> | [-> | [-> | [-> | [-> | [-> | [-> | [-> | [-> | [-> | ->]]]]]]]]]]];
    cbn [Z.add Pos.add Pos.succ daysInMonth] in Hd;
    destruct (isLeap y); unfold monthOfDay; cbn [monthStart];
    repeat match goal with
           | |- context [?a <? ?b] => destruct (Z.ltb_spec a b); try lia
           end.
Qed.

(** The calendar fields of an instant within a calendar day. *)
Lemma fields_of_date (y m d tw : Z) :
  validDate y (m + 1) d -> 0 <= tw < msPerDay ->
  let t := MakeDate (MakeDay y m d) tw in
  YearFromTime t = y /\ MonthFromTime t = m /\ DateFromTime t = d /\
  TimeWithinDay t = tw.
Proof.
  intros V Htw t.
  pose proof (day_in_year y m d V) as [Hn [Hmo Hd]]. cbv zeta in Hn, Hmo, Hd.
  assert (Hm : 0 <= m <= 11) by (destruct V; lia).
  assert (Hday : MakeDay y m d
                 = DayFromYear y + (monthStart m (if isLeap y then 1 else 0) + d - 1)).
  { unfold MakeDay. cbv zeta.
    rewrite (Z.div_small m 12), (Z.mod_small m 12), Z.add_0_r by lia. lia. }
  destruct (Day_MakeDate (MakeDay y m d) tw Htw) as [HD HT]. fold t in HD, HT.
  assert (HY : YearFromTime t = y).
  { unfold YearFromTime. rewrite HD, Hday. apply YearFromDay_unique.
    rewrite DayFromYear_succ. lia. }
  assert (HW : DayWithinYear t = monthStart m (if isLeap y then 1 else 0) + d - 1).
  { unfold DayWithinYear. rewrite HY, HD, Hday. lia. }
  assert (HL : InLeapYear t = if isLeap y then 1 else 0).
  { unfold InLeapYear. now rewrite HY. }
  repeat split.
  - exact HY.
  - unfold MonthFromTime. now rewrite HW, HL.
  - unfold DateFromTime, MonthFromTime. rewrite HW, HL, Hmo. exact Hd.
  - exact HT.
Qed.

End Calendar.

Section DateStrings.

Import JSDate.

Lemma fieldsOfString_valid (s : string) (y m d : Z) :
  fieldsOfString s = Some (y, m, d) -> validDate y m d.
Proof.
  unfold fieldsOfString. intros H.
  repeat match type of H with
         | context [match ?x with _ => _ end] =>
             destruct x eqn:?; try discriminate H
         end.
  match goal with
  | E : _ && _ = true |- _ =>
      repeat (apply andb_true_iff in E; destruct E as [E ?])
  end.
  assert (Hy : 1000 * z + 100 * z0 + 10 * z1 + z2 = y) by congruence.
  assert (Hm : 10 * z3 + z4 = m) by congruence.
  assert (Hd : 10 * z5 + z6 = d) by congruence.
  rewrite Hy, Hm, Hd in *.
  unfold validDate. rewrite !Z.leb_le in *. lia.
Qed.

Lemma ofString_fields (s : string) (y m d : Z) :
  fieldsOfString s = Some (y, m, d) ->
  ofString s = Some (MakeDate (MakeDay y (m - 1) d) 0).
Proof. intros H. unfold ofString. now rewrite H. Qed.

Lemma ofString_invalid (s : string) :
  fieldsOfString s = None -> ofString s = None.
Proof. intros H. unfold ofString. now rewrite H. Qed.

(** Where the offset at the instant of [new Date(s)] is not negative (the
    zone is at or east of Greenwich at that instant), the local calendar
    fields of [new Date(s)] are those written in [s]. *)
Lemma local_fields_east (tz : zone) (s : string) (y m d : Z) :
  fieldsOfString s = Some (y, m, d) ->
  let tv := MakeDate (MakeDay y (m - 1) d) 0 in
  0 <= offsetAt tz tv < msPerDay ->
  ofString s = Some tv /\
  YearFromTime (LocalTime tz tv) = y /\
  MonthFromTime (LocalTime tz tv) = m - 1 /\
  DateFromTime (LocalTime tz tv) = d /\
  TimeWithinDay (LocalTime tz tv) = offsetAt tz tv.
Proof.
  intros Hf tv Htz.
  split; [now apply ofString_fields|].
  assert (V : validDate y (m - 1 + 1) d).
  { replace (m - 1 + 1) with m by lia. now apply fieldsOfString_valid with s. }
  replace (LocalTime tz tv) with (MakeDate (MakeDay y (m - 1) d) (offsetAt tz tv))
    by (unfold LocalTime, tv, MakeDate; lia).
  apply (fields_of_date y (m - 1) d (offsetAt tz tv) V Htz).
Qed.

(** The calendar fields of an instant are those of its day. *)
Lemma fields_by_day (t t' : Z) :
  Day t = Day t' ->
  YearFromTime t = YearFromTime t' /\ MonthFromTime t = MonthFromTime t' /\
  DateFromTime t = DateFromTime t'.
Proof.
  intros H.
  assert (HY : YearFromTime t = YearFromTime t') by (unfold YearFromTime; now rewrite H).
  assert (HW : DayWithinYear t = DayWithinYear t')
    by (unfold DayWithinYear; now rewrite H, HY).
  assert (HL : InLeapYear t = InLeapYear t') by (unfold InLeapYear; now rewrite HY).
  unfold DateFromTime, MonthFromTime. now rewrite HW, HL.
Qed.

(** Where the offset at the instant of [new Date(s)] is negative (the zone
    is west of Greenwich at that instant), the local time of [new Date(s)]
    is in the evening of the day before the one written in [s]. *)
Lemma local_eve_west (tz : zone) (s : string) (tv : Z) :
  ofString s = Some tv ->
  - msPerDay <= offsetAt tz tv < 0 ->
  Day (LocalTime tz tv) = Day (tv - msPerDay) /\
  TimeWithinDay (LocalTime tz tv) = msPerDay + offsetAt tz tv.
Proof.
  unfold ofString.
  destruct (fieldsOfString s) as [[[y m] d]|]; [|discriminate].
  intros H. injection H as <-. intros Htz.
  unfold Day, TimeWithinDay, LocalTime, MakeDate, msPerDay in *.
  Z.to_euclidean_division_equations; lia.
Qed.

(** The ISO date of an instant is the one of its day. *)
Lemma toISODate_by_day (t t' : Z) :
  Day t = Day t' -> toISODate (Some t) = toISODate (Some t').
Proof.
  intros H. destruct (fields_by_day t t' H) as [HY [HM HD]].
  unfold toISODate. now rewrite HY, HM, HD.
Qed.

End DateStrings.

(** ** C1: the next maintenance date *)

Section NextMaintenance.

Import JSDate.

Lemma nextMaintenance_cleared (tz : JSDate.zone) (formData : Invoice.t) :
  hasMaintenance formData = false ->
  InvoiceForm.nextMaintenance tz formData = Some None.
Proof.
  unfold hasMaintenance, InvoiceForm.nextMaintenance. now intros ->.
Qed.

(** The date is the issue date with six added to its month where the zone
    is at or east of Greenwich at the issue date and its offset six months
    later is not larger: in particular in a zone of constant offset at or
    east of Greenwich.  ([later] is the local time that [setMonth] makes.) *)
Lemma nextMaintenance_east (tz : zone) (formData : Invoice.t) (y m d : Z) :
  hasMaintenance formData = true ->
  fieldsOfString (Invoice.issueDate formData) = Some (y, m, d) ->
  let tv := MakeDate (MakeDay y (m - 1) d) 0 in
  let later := MakeDate (MakeDay y (m - 1 + 6) d) (offsetAt tz tv) in
  0 <= offsetAt tz tv < msPerDay ->
  0 <= offsetAt tz tv - offsetOf tz later < msPerDay ->
  InvoiceForm.nextMaintenance tz formData
  = Some (monthsLater 6 (Invoice.issueDate formData)).
Proof.
  intros HM Hf tv later Htz Hlater.
  destruct (local_fields_east tz _ y m d Hf Htz) as [Hof [HY [HMo [HD HT]]]].
  fold tv in Hof, HY, HMo, HD, HT.
  unfold InvoiceForm.nextMaintenance. unfold hasMaintenance in HM.
  rewrite HM, Hof. cbn [getMonth option_map setMonth].
  rewrite HY, HMo, HD, HT. fold later.
  unfold monthsLater. rewrite Hf.
  rewrite (toISODate_by_day (UTC tz later) (MakeDate (MakeDay y (m - 1 + 6) d) 0));
    [reflexivity|].
  replace (UTC tz later)
    with (MakeDate (MakeDay y (m - 1 + 6) d) (offsetAt tz tv - offsetOf tz later))
    by (unfold UTC, later, MakeDate; lia).
  rewrite (proj1 (Day_MakeDate _ _ Hlater)).
  now rewrite (proj1 (Day_MakeDate _ 0 ltac:(unfold msPerDay; lia))).
Qed.

(** A save in such a zone: the maintenance date is scheduled six calendar
    months after the issue date, or cleared. *)
Lemma handleSubmit_maintenance_east (tz : zone) (clients : list Client.t)
    (invoice : option Invoice.t) (formData inv : Invoice.t) (y m d : Z) :
  fieldsOfString (Invoice.issueDate formData) = Some (y, m, d) ->
  let tv := MakeDate (MakeDay y (m - 1) d) 0 in
  let later := MakeDate (MakeDay y (m - 1 + 6) d) (offsetAt tz tv) in
  0 <= offsetAt tz tv < msPerDay ->
  0 <= offsetAt tz tv - offsetOf tz later < msPerDay ->
  InvoiceForm.handleSubmit tz clients invoice formData = InvoiceForm.Saved inv ->
  Invoice.nextMaintenanceDate inv =
    if hasMaintenance formData then monthsLater 6 (Invoice.issueDate formData)
    else None.
Proof.
  intros Hf tv later Htz Hlater. unfold InvoiceForm.handleSubmit.
  destruct (find _ clients); [|discriminate].
  destruct (hasMaintenance formData) eqn:HM.
  - rewrite (nextMaintenance_east tz formData y m d HM Hf Htz Hlater).
    intros H. injection H as <-. reflexivity.
  - rewrite (nextMaintenance_cleared tz formData HM).
    intros H. injection H as <-. reflexivity.
Qed.

(** In particular in a zone of constant offset at or east of Greenwich. *)
Lemma handleSubmit_maintenance_fixed_east (tza : Z) (clients : list Client.t)
    (invoice : option Invoice.t) (formData inv : Invoice.t) (y m d : Z) :
  0 <= tza < msPerDay ->
  fieldsOfString (Invoice.issueDate formData) = Some (y, m, d) ->
  InvoiceForm.handleSubmit tza clients invoice formData = InvoiceForm.Saved inv ->
  Invoice.nextMaintenanceDate inv =
    if hasMaintenance formData then monthsLater 6 (Invoice.issueDate formData)
    else None.
Proof.
  intros Htz Hf.
  apply (handleSubmit_maintenance_east (fixed tza) clients invoice formData inv y m d Hf);
    cbn [offsetAt offsetOf fixed]; unfold msPerDay in *; lia.
Qed.

(** In every zone, a save without a maintenance line clears the date. *)
Lemma handleSubmit_clears (tz : JSDate.zone) (clients : list Client.t)
    (invoice : option Invoice.t) (formData inv : Invoice.t) :
  hasMaintenance formData = false ->
  InvoiceForm.handleSubmit tz clients invoice formData = InvoiceForm.Saved inv ->
  Invoice.nextMaintenanceDate inv = None.
Proof.
  intros HM. unfold InvoiceForm.handleSubmit.
  destruct (find _ clients); [|discriminate].
  rewrite (nextMaintenance_cleared tz formData HM).
  intros H. injection H as <-. reflexivity.
Qed.

(** Where the zone is west of Greenwich at the issue date and its offset six
    months later is not larger (in particular in a zone of constant offset
    west of Greenwich), the six months are added to the eve of the issue date
    and the day after the result is stored.  ([later] is the local time that
    [setMonth] makes.) *)
Lemma nextMaintenance_west (tz : zone) (formData : Invoice.t) (tv : Z) :
  hasMaintenance formData = true ->
  ofString (Invoice.issueDate formData) = Some tv ->
  let eve := tv - msPerDay in
  let evening := MakeDay (YearFromTime eve) (MonthFromTime eve + 6) (DateFromTime eve) in
  let later := MakeDate evening (msPerDay + offsetAt tz tv) in
  - msPerDay <= offsetAt tz tv < 0 ->
  0 <= offsetAt tz tv - offsetOf tz later < msPerDay ->
  InvoiceForm.nextMaintenance tz formData
  = Some (toISODate (Some (MakeDate (evening + 1) 0))).
Proof.
  intros HM Hof eve evening later Htz Hlater.
  destruct (local_eve_west tz _ tv Hof Htz) as [HD HT].
  destruct (fields_by_day _ _ HD) as [HY [HMo HDa]]. fold eve in HY, HMo, HDa.
  unfold InvoiceForm.nextMaintenance. unfold hasMaintenance in HM.
  rewrite HM, Hof. cbn [getMonth option_map setMonth].
  rewrite HY, HMo, HDa, HT. fold evening. fold later.
  rewrite (toISODate_by_day (UTC tz later) (MakeDate (evening + 1) 0));
    [reflexivity|].
  replace (UTC tz later)
    with (MakeDate (evening + 1) (offsetAt tz tv - offsetOf tz later))
    by (unfold UTC, later, MakeDate, msPerDay; lia).
  rewrite (proj1 (Day_MakeDate _ _ Hlater)).
  now rewrite (proj1 (Day_MakeDate _ 0 ltac:(unfold msPerDay; lia))).
Qed.

End NextMaintenance.

(** Unticking the maintenance line of a stored invoice and saving it clears
    the date that was scheduled. *)
Example maintenance_date_undone :
  exists inv,
    InvoiceForm.handleSubmit Sample.santoDomingo [Sample.ana] (Some Sample.stored)
      Sample.storedEdited = InvoiceForm.Saved inv
    /\ Invoice.nextMaintenanceDate Sample.stored = Some "2024-09-15"
    /\ Invoice.nextMaintenanceDate inv = None.
Proof. eexists. repeat split. Qed.

(** With daylight saving the offset grows between March and September: in
    Madrid the six months are added to 01:00 of the first of March, and
    01:00 of the first of September, summer time, is still the eve in UTC.
    From September to March the offset shrinks and the date is the one six
    months later. *)
Example daylight_saving_madrid :
  InvoiceForm.nextMaintenance Scenario.madrid Sample.maintenanceDraft
    = Some (Some "2024-08-31") /\
  InvoiceForm.nextMaintenance Scenario.madrid Scenario.septemberDraft
    = Some (Some "2025-03-01").
Proof. vm_compute. split; reflexivity. Qed.

(** C1. In a zone west of Greenwich (here UTC-4) a maintenance invoice issued
    on 2024-03-01 is saved with the next maintenance on 2024-08-30, where six
    calendar months after the issue date is 2024-09-01: the issue date is
    read as midnight UTC, which is still the eve in local time, and the six
    months are added to the month of that local date. *)
Theorem C1_six_months_from_the_eve_west_of_UTC :
  monthsLater 6 (Invoice.issueDate Sample.maintenanceDraft) = Some "2024-09-01" /\
  hasMaintenance Sample.maintenanceDraft = true /\
  exists inv,
    InvoiceForm.handleSubmit Sample.santoDomingo [Sample.ana] None
      Sample.maintenanceDraft = InvoiceForm.Saved inv
    /\ Invoice.nextMaintenanceDate inv = Some "2024-08-30".
Proof.
  split; [reflexivity|]. split; [reflexivity|].
  eexists. split; reflexivity.
Qed.

(** ** C4: the figures of the month *)

Section MonthlyData.

Import JSDate DashboardPage.

(** In a zone that is at or east of Greenwich at every instant (daylight
    saving or not) the month test reads the month written in the date
    string. *)
Lemma sameMonth_east (tz : zone) (now : Z) (s : string) :
  (forall t, 0 <= offsetAt tz t < msPerDay) ->
  sameMonth tz now s
  = inCalendarMonth (YearFromTime (LocalTime tz now))
                    (MonthFromTime (LocalTime tz now)) s.
Proof.
  intros Htz. unfold sameMonth, inCalendarMonth.
  destruct (fieldsOfString s) as [[[y m] d]|] eqn:Hf.
  - destruct (local_fields_east tz s y m d Hf (Htz _)) as [Hof [HY [HMo _]]].
    rewrite Hof. cbn [getMonth getFullYear option_map].
    rewrite HY, HMo. apply andb_comm.
  - now rewrite (ofString_invalid s Hf).
Qed.

Lemma income_east (tz : zone) (now : Z) (invoices : list Invoice.t) :
  (forall t, 0 <= offsetAt tz t < msPerDay) ->
  income tz now invoices
  = sumOf (map (fun inv => sumOf (map lineTotal (Invoice.items inv)))
              (filter (fun inv =>
                         InvoiceStatus_eqb (Invoice.status inv) Pagada
                         && inCalendarMonth (YearFromTime (LocalTime tz now))
                                            (MonthFromTime (LocalTime tz now))
                                            (Invoice.issueDate inv))
                      invoices)).
Proof.
  intros Htz. unfold income, sumOf at 1.
  rewrite (fold_left_sumFrom (fun inv => itemsTotal (Invoice.items inv))).
  rewrite filter_twice.
  rewrite (filter_ext _ (fun inv =>
             InvoiceStatus_eqb (Invoice.status inv) Pagada
             && inCalendarMonth (YearFromTime (LocalTime tz now))
                                (MonthFromTime (LocalTime tz now))
                                (Invoice.issueDate inv)))
    by (intros inv; now rewrite sameMonth_east).
  f_equal. apply map_ext. intros inv. apply itemsTotal_sum.
Qed.

Lemma totalExpenses_east (tz : zone) (now : Z) (expenses : list Expense.t) :
  (forall t, 0 <= offsetAt tz t < msPerDay) ->
  totalExpenses tz now expenses
  = sumOf (map Expense.amount
              (filter (fun exp =>
                         inCalendarMonth (YearFromTime (LocalTime tz now))
                                         (MonthFromTime (LocalTime tz now))
                                         (Expense.date exp))
                      expenses)).
Proof.
  intros Htz. unfold totalExpenses, sumOf.
  rewrite (fold_left_sumFrom Expense.amount).
  f_equal. f_equal. apply filter_ext. intros exp. now apply sameMonth_east.
Qed.

(** Where the zone is west of Greenwich at the instant of the date, the
    month test reads the month of the eve of the date written in the
    string. *)
Lemma sameMonth_west (tz : zone) (now : Z) (s : string) (tv : Z) :
  ofString s = Some tv ->
  - msPerDay <= offsetAt tz tv < 0 ->
  sameMonth tz now s
  = (MonthFromTime (tv - msPerDay) =? MonthFromTime (LocalTime tz now))
    && (YearFromTime (tv - msPerDay) =? YearFromTime (LocalTime tz now)).
Proof.
  intros Hof Htz.
  destruct (local_eve_west tz s tv Hof Htz) as [HD _].
  destruct (fields_by_day _ _ HD) as [HY [HMo _]].
  unfold sameMonth. rewrite Hof. cbn [getMonth getFullYear option_map].
  now rewrite HY, HMo.
Qed.

End MonthlyData.

(** The dashboard scenario of the specification, under UTC: a paid invoice of
    100 and a draft of 50 in the month give an income of 100; with an expense
    of 130 the profit is negative. *)
Example dashboard_scenario_UTC :
  DashboardPage.income 0 Sample.midMarch [Sample.paidFirstOfMarch; Sample.draftOfMarch]
    = JS.ofZ 100
  /\ DashboardPage.totalExpenses 0 Sample.midMarch [Sample.fuel] = JS.ofZ 130
  /\ DashboardPage.monthlyProfit 0 Sample.midMarch
       [Sample.paidFirstOfMarch; Sample.draftOfMarch] [Sample.fuel] = JS.ofZ (-30).
Proof. vm_compute. repeat split. Qed.

(** C4. In a zone west of Greenwich (here UTC-4), in the middle of March
    2024, a paid invoice of 100 issued on 2024-03-01 adds nothing to the
    income of the month: its issue date is read as midnight UTC, which is the
    last evening of February in local time. *)
Theorem C4_first_of_month_left_out_west_of_UTC :
  JSDate.YearFromTime (JSDate.LocalTime Sample.santoDomingo Sample.midMarch) = 2024 /\
  JSDate.MonthFromTime (JSDate.LocalTime Sample.santoDomingo Sample.midMarch) = 2 /\
  Invoice.status Sample.paidFirstOfMarch = Pagada /\
  inCalendarMonth 2024 2 (Invoice.issueDate Sample.paidFirstOfMarch) = true /\
  sumOf (map lineTotal (Invoice.items Sample.paidFirstOfMarch)) = JS.ofZ 100 /\
  DashboardPage.income Sample.santoDomingo Sample.midMarch [Sample.paidFirstOfMarch]
    = JS.zero.
Proof. vm_compute. repeat split. Qed.

(** * Further properties *)

(** ** Invoice numbers over the life of the collection *)

Section NumberingHistory.

Lemma numberAt_inj (a b : nat) : numberAt a = numberAt b -> a = b.
Proof.
  unfold numberAt. intros H. injection H as H.
  pose proof (proj1 (padded_number a)) as Ha.
  pose proof (proj1 (padded_number b)) as Hb.
  cbv zeta in Ha, Hb. rewrite H in Ha. congruence.
Qed.

Lemma NoDup_map_injective {A B : Type} (f : A -> B) (l : list A) :
  (forall a b, f a = f b -> a = b) -> NoDup l -> NoDup (map f l).
Proof.
  intros Hf H. induction H as [|x l Hx Hl IH]; simpl; constructor; [|exact IH].
  rewrite in_map_iff. intros [y [Hy Hin]]. apply Hf in Hy. now subst y.
Qed.

Lemma save_keeps_ids (sel : Invoice.t) (l : list Invoice.t) (newId : string)
    (invoice : Invoice.t) :
  map Invoice.id (InvoicesPage.handleSaveInvoice (Some sel) l newId invoice)
  = map Invoice.id l.
Proof.
  cbn [InvoicesPage.handleSaveInvoice]. rewrite map_map. apply map_ext.
  intros i. destruct (String.eqb_spec (Invoice.id i) (Invoice.id invoice)); congruence.
Qed.

Lemma save_keeps_numbers (sel : Invoice.t) (l : list Invoice.t) (newId : string)
    (invoice : Invoice.t) :
  In sel l -> NoDup (map Invoice.id l) -> handedOver (Some sel) invoice ->
  map Invoice.invoiceNumber (InvoicesPage.handleSaveInvoice (Some sel) l newId invoice)
  = map Invoice.invoiceNumber l.
Proof.
  intros Hin Hnd [Hid Hn].
  apply (keptOrEdited_numbers sel).
  - intros old Ho E.
    now rewrite (NoDup_map_inj Invoice.id l old sel Hnd Ho Hin E).
  - now apply replace_keptOrEdited.
Qed.

Lemma seq_snoc (a n : nat) : seq a (S n) = (seq a n ++ [(a + n)%nat])%list.
Proof.
  revert a; induction n as [|n IH]; intros a.
  - simpl. now rewrite Nat.add_0_r.
  - change (seq a (S (S n))) with (a :: seq (S a) (S n)).
    rewrite IH. simpl. now rewrite Nat.add_succ_r.
Qed.

(** Identifiers stay distinct and the numbers are 1, 2, 3, ... in the order
    of the collection. *)
Lemma reachable_invariant (l : list Invoice.t) :
  reachable l ->
  NoDup (map Invoice.id l) /\
  map Invoice.invoiceNumber l = map numberAt (seq 1 (List.length l)).
Proof.
  induction 1 as [|l newId invoice R [IHid IHn] Hfresh
                  |l sel newId invoice R [IHid IHn] Hin Hover].
  - split; [constructor | reflexivity].
  - cbn [InvoicesPage.handleSaveInvoice]. fold (numberAt (List.length l + 1)).
    rewrite !map_app, length_app. cbn [map List.length Invoice.withIdNumber
                                       Invoice.id Invoice.invoiceNumber].
    split.
    + apply NoDup_app; [assumption | | ].
      * constructor; [intros [] | constructor].
      * intros x Hx [<- | []]. now apply Hfresh.
    + rewrite Nat.add_1_r, seq_snoc, map_app, IHn. reflexivity.
  - assert (E : List.length (InvoicesPage.handleSaveInvoice (Some sel) l newId invoice)
                = List.length l).
    { rewrite <- (length_map Invoice.id), save_keeps_ids. apply length_map. }
    rewrite save_keeps_ids, E, save_keeps_numbers by assumption.
    now split.
Qed.

(** Every submit of the form is such a step, in any zone and with any
    clients. *)
Lemma submit_reachable (tz : JSDate.zone) (clients : list Client.t)
    (sel : option Invoice.t) (l : list Invoice.t) (newId : string)
    (formData : Invoice.t) :
  reachable l ->
  match sel with
  | Some s => In s l
  | None => ~ In newId (map Invoice.id l)
  end ->
  reachable (InvoicesPage.submit tz clients sel l newId formData).
Proof.
  intros R H. unfold InvoicesPage.submit.
  destruct (InvoiceForm.handleSubmit tz clients sel formData) as [msg| |inv] eqn:E;
    try exact R.
  destruct sel as [s|].
  - apply reachable_edit; [exact R | exact H|].
    exact (saved_keeps_identity tz clients s formData inv E).
  - now apply reachable_create.
Qed.

Lemma filter_all {A : Type} (p : A -> bool) (l : list A) :
  (forall x, In x l -> p x = true) -> filter p l = l.
Proof.
  induction l as [|x l IH]; simpl; intros H; [reflexivity|].
  rewrite (H x) by now left. f_equal. apply IH. intros y Hy. apply H. now right.
Qed.

(** With distinct identifiers a deletion removes one entry. *)
Lemma delete_one {A : Type} (f : A -> string) (l : list A) (v : A) :
  NoDup (map f l) -> In v l ->
  S (List.length (filter (fun x => negb (String.eqb (f x) (f v))) l))
  = List.length l.
Proof.
  induction l as [|x l IH]; simpl; [tauto|].
  intros H Hin. inversion H as [|? ? Hnotin Hrest]; subst.
  destruct Hin as [-> | Hin].
  - rewrite String.eqb_refl. cbn [negb]. f_equal. f_equal.
    apply filter_all. intros y Hy.
    apply negb_true_iff, String.eqb_neq. intros E. apply Hnotin.
    rewrite <- E. now apply in_map.
  - destruct (String.eqb_spec (f x) (f v)) as [E|E]; cbn [negb].
    + exfalso. apply Hnotin. rewrite E. now apply in_map.
    + simpl. f_equal. now apply IH.
Qed.

End NumberingHistory.

Lemma nth_error_seq_value (a n k x : nat) :
  nth_error (seq a n) k = Some x -> x = (a + k)%nat.
Proof.
  revert a k; induction n as [|n IH]; intros a k H.
  - destruct k; discriminate.
  - destruct k as [|k]; simpl in H.
    + injection H as <-. now rewrite Nat.add_0_r.
    + apply IH in H. rewrite H. now rewrite Nat.add_succ_r.
Qed.

Lemma reachable_run : reachable Run.second.
Proof.
  unfold Run.second. apply submit_reachable.
  - unfold Run.first. apply submit_reachable; [constructor | intros []].
  - vm_compute. intros [H | []]. discriminate.
Qed.

(** X1. As long as no invoice is deleted, the invoices carry the numbers
    INV-0001, INV-0002, ... in the order of the collection, and no number
    occurs twice, whatever the drafts, the clients and the time zone of the
    saves. *)
Theorem invoice_numbers_distinct_without_deletion :
  forall l : list Invoice.t,
    reachable l ->
    NoDup (map Invoice.invoiceNumber l) /\
    (forall k inv, nth_error l k = Some inv ->
                   Invoice.invoiceNumber inv = numberAt (k + 1)).
Proof.
  intros l R.
  destruct (reachable_invariant l R) as [_ Hn]. split.
  - rewrite Hn. apply NoDup_map_injective; [exact numberAt_inj | apply seq_NoDup].
  - intros k inv Hk.
    apply (map_nth_error Invoice.invoiceNumber) in Hk. rewrite Hn in Hk.
    rewrite nth_error_map in Hk.
    destruct (nth_error (seq 1 (List.length l)) k) as [j|] eqn:Hj; [|discriminate].
    injection Hk as <-. apply nth_error_seq_value in Hj. rewrite Hj. f_equal. lia.
Qed.

Lemma invoice_numbers_distinct_without_deletion_witness :
  map Invoice.invoiceNumber Run.second = ["INV-0001"; "INV-0002"] /\
  NoDup (map Invoice.invoiceNumber Run.second).
Proof.
  split; [reflexivity|].
  apply (invoice_numbers_distinct_without_deletion Run.second reachable_run).
Defined.

(** X2. After a deletion the next number is taken again: when an invoice
    other than the last one is deleted and an invoice is created, the new
    invoice gets the number of the last stored invoice, which is still in
    the collection. *)
Theorem invoice_number_reused_after_deletion :
  forall (l0 : list Invoice.t) (lastInv victim : Invoice.t) (newId : string)
         (invoice : Invoice.t),
    reachable (l0 ++ [lastInv]) ->
    In victim l0 ->
    InvoicesPage.handleSaveInvoice None
      (InvoicesPage.handleDeleteInvoice true (l0 ++ [lastInv]) (Invoice.id victim))
      newId invoice
    = (filter (fun inv => negb (String.eqb (Invoice.id inv) (Invoice.id victim))) l0
       ++ [lastInv;
           Invoice.withIdNumber invoice newId (Invoice.invoiceNumber lastInv)])%list.
Proof.
  intros l0 lastInv victim newId invoice R Hin.
  destruct (reachable_invariant _ R) as [Hid Hn].
  assert (Hne : String.eqb (Invoice.id lastInv) (Invoice.id victim) = false).
  { apply String.eqb_neq. intros E. rewrite map_app in Hid.
    apply NoDup_remove_2 with (l' := []) in Hid. apply Hid.
    rewrite app_nil_r, E. now apply in_map. }
  assert (Hlen : S (List.length
                      (filter (fun inv => negb (String.eqb (Invoice.id inv)
                                                           (Invoice.id victim)))
                              (l0 ++ [lastInv])))
                 = List.length (l0 ++ [lastInv])).
  { apply (delete_one Invoice.id); [assumption | apply in_or_app; now left]. }
  assert (Hlast : Invoice.invoiceNumber lastInv = numberAt (List.length (l0 ++ [lastInv]))).
  { rewrite length_app in Hn |- *. cbn [List.length] in Hn |- *.
    rewrite Nat.add_1_r in Hn |- *.
    rewrite seq_snoc, !map_app in Hn. cbn [map] in Hn.
    apply app_inj_tail in Hn as [_ Hn]. exact Hn. }
  cbn [InvoicesPage.handleSaveInvoice InvoicesPage.handleDeleteInvoice].
  fold (numberAt (List.length
                    (filter (fun inv => negb (String.eqb (Invoice.id inv)
                                                         (Invoice.id victim)))
                            (l0 ++ [lastInv])) + 1)).
  rewrite Nat.add_1_r, Hlen, <- Hlast.
  rewrite filter_app. cbn [filter]. rewrite Hne. cbn [negb].
  rewrite <- app_assoc. reflexivity.
Qed.

Lemma invoice_number_reused_after_deletion_witness :
  map Invoice.invoiceNumber
      (InvoicesPage.handleSaveInvoice None
         (InvoicesPage.handleDeleteInvoice true Run.second "k1") "k3"
         Sample.refundDraft)
  = ["INV-0002"; "INV-0002"].
Proof.
  assert (E : Run.second
              = ([Invoice.withIdNumber
                    (Invoice.withDerived Sample.equipmentDraft None
                       (InvoiceForm.finalNotes Sample.ana Sample.equipmentDraft))
                    "k1" "INV-0001"]
                 ++ [Invoice.withIdNumber
                       (Invoice.withDerived Sample.maintenanceDraft (Some "2024-09-01")
                          (InvoiceForm.finalNotes Sample.ana Sample.maintenanceDraft))
                       "k2" "INV-0002"])%list) by reflexivity.
  pose proof reachable_run as R. rewrite E in R.
  pose proof (invoice_number_reused_after_deletion _ _ _
                "k3" Sample.refundDraft R (or_introl eq_refl)) as H.
  rewrite <- E in H.
  apply (f_equal (map Invoice.invoiceNumber)) in H. exact H.
Defined.

(** ** Deleting a client *)

Section DeletedClient.

Lemma find_filter {A : Type} (p q : A -> bool) (l : list A) :
  find p (filter q l) = find (fun x => q x && p x) l.
Proof.
  induction l as [|x l IH]; simpl; [reflexivity|].
  destruct (q x); simpl; [destruct (p x)|]; auto.
Qed.

Lemma find_pointwise {A : Type} (p q : A -> bool) (l : list A) :
  (forall x, p x = q x) -> find p l = find q l.
Proof.
  intros H. induction l as [|x l IH]; simpl; [reflexivity|].
  rewrite H, IH. reflexivity.
Qed.

Lemma find_never {A : Type} (p : A -> bool) (l : list A) :
  (forall x, p x = false) -> find p l = None.
Proof.
  intros H. induction l as [|x l IH]; simpl; [reflexivity|]. now rewrite H.
Qed.

Lemma clientOf_deleted (clients : list Client.t) (cid : string) :
  clientOf (ClientsPage.handleDeleteClient true clients cid) cid = None.
Proof.
  unfold clientOf, ClientsPage.handleDeleteClient. rewrite find_filter.
  apply find_never. intros c.
  now destruct (String.eqb (Client.id c) cid).
Qed.

Lemma clientOf_not_deleted (clients : list Client.t) (cid k : string) :
  k <> cid ->
  clientOf (ClientsPage.handleDeleteClient true clients cid) k = clientOf clients k.
Proof.
  intros Hk. unfold clientOf, ClientsPage.handleDeleteClient. rewrite find_filter.
  apply find_pointwise. intros c.
  destruct (String.eqb_spec (Client.id c) k) as [E|E]; [|apply andb_false_r].
  rewrite andb_true_r. apply negb_true_iff, String.eqb_neq. congruence.
Qed.

Lemma referenced_after_delete (now : Z) (clients : list Client.t) (cid : string)
    (invoices : list Invoice.t) :
  referencedClients now (ClientsPage.handleDeleteClient true clients cid) invoices
  = filter (fun c => negb (String.eqb (Client.id c) cid))
           (referencedClients now clients invoices).
Proof.
  unfold referencedClients.
  induction invoices as [|inv invoices IH]; [reflexivity|].
  cbn [flat_map]. rewrite filter_app, IH. f_equal.
  destruct (DashboardPage.inWindow now inv); [|reflexivity].
  destruct (String.eqb_spec (Invoice.clientId inv) cid) as [E|E].
  - rewrite E, clientOf_deleted.
    destruct (clientOf clients cid) as [c|] eqn:Hc; [|reflexivity].
    apply clientOf_id in Hc. cbn [filter]. now rewrite Hc, String.eqb_refl.
  - rewrite (clientOf_not_deleted clients cid _ E).
    destruct (clientOf clients (Invoice.clientId inv)) as [c|] eqn:Hc; [|reflexivity].
    apply clientOf_id in Hc. cbn [filter].
    rewrite Hc. apply String.eqb_neq in E. now rewrite E.
Qed.

Lemma firstOccurrences_filter_id (cid : string) (l : list Client.t) :
  firstOccurrences (filter (fun c => negb (String.eqb (Client.id c) cid)) l)
  = filter (fun c => negb (String.eqb (Client.id c) cid)) (firstOccurrences l).
Proof.
  induction l as [|c l IH]; [reflexivity|].
  cbn [filter firstOccurrences].
  destruct (String.eqb_spec (Client.id c) cid) as [E|E]; cbn [negb].
  - rewrite IH, filter_twice. apply filter_ext. intros x.
    rewrite E. now destruct (String.eqb (Client.id x) cid).
  - cbn [firstOccurrences]. f_equal. rewrite IH, !filter_twice.
    apply filter_ext. intros x. apply andb_comm.
Qed.

End DeletedClient.

(** X3. Deleting a client takes that client, and nothing else, off the
    upcoming-maintenance list: the list after the deletion is the list
    before it without the clients of the deleted identifier, in the same
    order. *)
Theorem upcoming_maintenance_after_client_deletion :
  forall (now : Z) (clients : list Client.t) (cid : string)
         (invoices : list Invoice.t),
    DashboardPage.upcomingMaintenance now
      (ClientsPage.handleDeleteClient true clients cid) invoices
    = filter (fun c => negb (String.eqb (Client.id c) cid))
             (DashboardPage.upcomingMaintenance now clients invoices).
Proof.
  intros now clients cid invoices.
  rewrite !upcomingMaintenance_firstOccurrences, referenced_after_delete.
  apply firstOccurrences_filter_id.
Qed.

(** X4. Deleting a client does not touch the invoices, which keep referring
    to the deleted identifier: that identifier resolves to no client any
    more, every other identifier resolves as before, and a submit of a form
    whose client is the deleted one shows the alert and stores nothing. *)
Theorem deleted_client_leaves_dangling_invoices :
  forall (tz : JSDate.zone) (clients : list Client.t) (cid : string)
         (selectedInvoice : option Invoice.t) (invoices : list Invoice.t)
         (newId : string) (formData : Invoice.t),
    let clients' := ClientsPage.handleDeleteClient true clients cid in
    clientOf clients' cid = None /\
    (forall k, k <> cid -> clientOf clients' k = clientOf clients k) /\
    (Invoice.clientId formData = cid ->
       InvoiceForm.handleSubmit tz clients' selectedInvoice formData
         = InvoiceForm.Alert "Por favor, seleccione un cliente."
       /\ InvoicesPage.submit tz clients' selectedInvoice invoices newId formData
          = invoices).
Proof.
  intros tz clients cid selectedInvoice invoices newId formData clients'.
  split; [apply clientOf_deleted|].
  split; [intros k Hk; now apply clientOf_not_deleted|].
  intros E. pose proof (clientOf_deleted clients cid) as H.
  fold clients' in H. rewrite <- E in H. unfold clientOf in H.
  unfold InvoicesPage.submit, InvoiceForm.handleSubmit. rewrite H. now split.
Qed.

Lemma deleted_client_leaves_dangling_invoices_witness :
  InvoicesPage.submit 0 (ClientsPage.handleDeleteClient true [Sample.ana; Sample.luis] "c1")
    (Some Sample.stored) [Sample.stored; Sample.other] "n1" Sample.storedEdited
  = [Sample.stored; Sample.other].
Proof.
  apply (proj2 (proj2 (deleted_client_leaves_dangling_invoices 0
           [Sample.ana; Sample.luis] "c1" (Some Sample.stored)
           [Sample.stored; Sample.other] "n1" Sample.storedEdited))).
  reflexivity.
Defined.

(** X5. Every client on the upcoming-maintenance list is a stored client,
    and the list is never longer than the client collection. *)
Theorem upcoming_maintenance_within_clients :
  forall (now : Z) (clients : list Client.t) (invoices : list Invoice.t),
    (forall c, In c (DashboardPage.upcomingMaintenance now clients invoices) ->
               In c clients) /\
    (List.length (DashboardPage.upcomingMaintenance now clients invoices)
     <= List.length clients)%nat.
Proof.
  intros now clients invoices.
  assert (Hin : forall c,
             In c (DashboardPage.upcomingMaintenance now clients invoices) ->
             In c clients).
  { intros c Hc. rewrite upcomingMaintenance_firstOccurrences in Hc.
    apply firstOccurrences_sub, referenced_iff in Hc as [inv [_ [_ Hc]]].
    unfold clientOf in Hc. now apply find_some in Hc as [Hc _]. }
  split; [exact Hin|].
  rewrite <- (length_map Client.id), <- (length_map Client.id clients).
  apply NoDup_incl_length.
  - rewrite upcomingMaintenance_firstOccurrences. apply firstOccurrences_NoDup.
  - intros k Hk. apply in_map_iff in Hk as [c [<- Hc]].
    apply in_map. now apply Hin.
Qed.

(** ** The items of the invoice form *)

Section FormItems.

Lemma filterIndex_ext {A : Type} (p q : nat -> bool) (i : nat) (l : list A) :
  (forall j, (i <= j)%nat -> p j = q j) -> filterIndex p i l = filterIndex q i l.
Proof.
  revert i; induction l as [|x l IH]; intros i H; [reflexivity|].
  cbn [filterIndex]. rewrite (H i) by lia.
  rewrite (IH (S i)) by (intros j Hj; apply H; lia). reflexivity.
Qed.

Lemma filterIndex_all {A : Type} (p : nat -> bool) (i : nat) (l : list A) :
  (forall j, (i <= j)%nat -> p j = true) -> filterIndex p i l = l.
Proof.
  revert i; induction l as [|x l IH]; intros i H; [reflexivity|].
  cbn [filterIndex]. rewrite (H i) by lia. f_equal. apply IH.
  intros j Hj. apply H. lia.
Qed.

(** Filtering one index out is cutting the list around it. *)
Lemma filterIndex_remove {A : Type} (l : list A) (k index : nat) :
  filterIndex (fun i => negb (Nat.eqb i (k + index))) k l
  = (firstn index l ++ skipn (S index) l)%list.
Proof.
  revert k index; induction l as [|x l IH]; intros k index.
  - now destruct index.
  - cbn [filterIndex]. destruct index as [|n].
    + rewrite Nat.add_0_r, Nat.eqb_refl. cbn [negb firstn skipn app].
      apply filterIndex_all. intros j Hj.
      apply negb_true_iff, Nat.eqb_neq. lia.
    + replace (Nat.eqb k (k + S n)) with false
        by (symmetry; apply Nat.eqb_neq; lia).
      cbn [negb]. change (skipn (S (S n)) (x :: l)) with (skipn (S n) l).
      cbn [firstn app]. f_equal.
      rewrite <- (IH (S k) n). apply filterIndex_ext. intros j _.
      now rewrite Nat.add_succ_r.
Qed.

Lemma split_at {A : Type} (l : list A) (index : nat) (x : A) :
  nth_error l index = Some x ->
  l = (firstn index l ++ x :: skipn (S index) l)%list.
Proof.
  revert index; induction l as [|y l IH]; intros index H.
  - destruct index; discriminate.
  - destruct index as [|n]; simpl in H.
    + injection H as ->. reflexivity.
    + cbn [firstn skipn app]. f_equal. now apply IH.
Qed.

Lemma subtotal_sum (formData : Invoice.t) :
  InvoiceForm.subtotal formData = sumOf (map lineTotal (Invoice.items formData)).
Proof. exact (fold_left_sumFrom lineTotal (Invoice.items formData) JS.zero). Qed.

End FormItems.

(** X6. The items and the total of the form follow the edits of the item
    list.  A blank item is appended with quantity 1 and price 0 and adds 0 to
    the total, which leaves it as it is (unless it is the negative zero); a
    service is appended as one line and adds once its stored price; removing
    at an index cuts the list around that index, the total then being the
    running total of the lines before it followed by the lines after it; and
    removing at an index outside the list changes no item. *)
Theorem form_total_follows_item_edits :
  forall (newId : string) (service : Service.t) (formData : Invoice.t) (index : nat),
    let items := Invoice.items formData in
    InvoiceForm.subtotal (InvoiceForm.handleAddItem newId formData)
      = (InvoiceForm.subtotal formData + JS.zero)%D /\
    (InvoiceForm.subtotal formData <> negativeZero ->
     InvoiceForm.subtotal (InvoiceForm.handleAddItem newId formData)
       = InvoiceForm.subtotal formData) /\
    InvoiceForm.subtotal (InvoiceForm.handleAddService newId service formData)
      = (InvoiceForm.subtotal formData + JS.ofZ 1 * Service.totalPrice service)%D /\
    Invoice.items (InvoiceForm.handleRemoveItem index formData)
      = (firstn index items ++ skipn (S index) items)%list /\
    InvoiceForm.subtotal (InvoiceForm.handleRemoveItem index formData)
      = sumFrom (sumOf (map lineTotal (firstn index items)))
                (map lineTotal (skipn (S index) items)) /\
    (nth_error items index = None ->
       Invoice.items (InvoiceForm.handleRemoveItem index formData) = items).
Proof.
  intros newId service formData index items.
  assert (HR : Invoice.items (InvoiceForm.handleRemoveItem index formData)
               = (firstn index items ++ skipn (S index) items)%list).
  { unfold InvoiceForm.handleRemoveItem. cbn [Invoice.withItems Invoice.items].
    exact (filterIndex_remove (Invoice.items formData) 0 index). }
  assert (HA : InvoiceForm.subtotal (InvoiceForm.handleAddItem newId formData)
               = (InvoiceForm.subtotal formData + JS.zero)%D).
  { rewrite !subtotal_sum. unfold InvoiceForm.handleAddItem.
    cbn [Invoice.withItems Invoice.items]. rewrite map_app. apply sumOf_snoc. }
  split; [exact HA|].
  split; [intros H; rewrite HA; now apply add_zero|].
  split; [|split; [exact HR|split]].
  - rewrite !subtotal_sum. unfold InvoiceForm.handleAddService.
    cbn [Invoice.withItems Invoice.items]. rewrite map_app. apply sumOf_snoc.
  - rewrite subtotal_sum, HR, map_app. unfold sumOf. apply sumFrom_app.
  - intros Hn. rewrite HR. apply nth_error_None in Hn. unfold items in *.
    rewrite firstn_all2 by lia. rewrite skipn_all2 by lia. apply app_nil_r.
Qed.

Lemma form_total_follows_item_edits_witness :
  InvoiceForm.subtotal (InvoiceForm.handleAddItem "n" Sample.orphanDraft) = JS.ofZ 200 /\
  Invoice.items (InvoiceForm.handleRemoveItem 2 Sample.orphanDraft)
    = [Sample.split; Sample.cleaning].
Proof.
  pose proof (form_total_follows_item_edits "n" Sample.kit Sample.orphanDraft 2) as H.
  cbv zeta in H. split.
  - rewrite (proj1 (proj2 H)); [vm_compute; reflexivity|].
    vm_compute. discriminate.
  - apply (proj2 (proj2 (proj2 (proj2 (proj2 H))))). reflexivity.
Defined.

(** ** Notes over several saves *)

Section NotesHistory.

Import InvoiceForm.

Lemma saved_notes (tz : JSDate.zone) (clients : list Client.t)
    (invoice : option Invoice.t)
    (formData inv : Invoice.t) (client : Client.t) :
  clientOf clients (Invoice.clientId formData) = Some client ->
  handleSubmit tz clients invoice formData = Saved inv ->
  Invoice.notes inv = Some (finalNotes client formData).
Proof.
  unfold clientOf, handleSubmit. intros ->.
  destruct (nextMaintenance tz formData); [|discriminate].
  intros H. injection H as <-. reflexivity.
Qed.

Lemma saved_resolves (tz : JSDate.zone) (clients : list Client.t)
    (invoice : option Invoice.t)
    (formData inv : Invoice.t) :
  handleSubmit tz clients invoice formData = Saved inv ->
  exists client, clientOf clients (Invoice.clientId formData) = Some client.
Proof.
  unfold clientOf, handleSubmit.
  destruct (find _ clients) as [client|]; [|discriminate]. now exists client.
Qed.

Lemma finalNotes_no_equipment (client : Client.t) (formData : Invoice.t) :
  hasNewEquipment formData = false -> finalNotes client formData = userNotes formData.
Proof.
  unfold hasNewEquipment, finalNotes, userNotes. now intros ->.
Qed.

(** A text without line feed occurs in two paragraphs only if it occurs in
    one of them. *)
Lemma includes_paragraphs (t a b : string) :
  noLF t = true -> JS.includes "" t = false ->
  JS.includes (a ++ JS.LF ++ JS.LF ++ b) t = JS.includes a t || JS.includes b t.
Proof.
  intros Ht He. rewrite (includes_across_LF t a _ Ht).
  change (JS.LF ++ b) with ("" ++ JS.LF ++ b).
  now rewrite (includes_across_LF t "" b Ht), He.
Qed.

Lemma other_recommendation (c1 c2 : Client.t) :
  Client.type c1 <> Client.type c2 ->
  JS.includes (maintenanceText (monthsFor c1)) (maintenanceText (monthsFor c2)) = false.
Proof.
  unfold monthsFor. destruct (Client.type c1), (Client.type c2); intros H;
    try congruence; reflexivity.
Qed.

(** The recommendation of another client type is in the saved notes only if
    the user typed it. *)
Lemma finalNotes_other_recommendation (c1 c2 : Client.t) (formData : Invoice.t) :
  hasNewEquipment formData = true ->
  Client.type c1 <> Client.type c2 ->
  JS.includes (finalNotes c1 formData) (maintenanceText (monthsFor c2))
  = JS.includes (userNotes formData) (maintenanceText (monthsFor c2)).
Proof.
  intros HNE Hty.
  destruct (maintenance_facts c2) as [MLF [MW ME]].
  pose proof (other_recommendation c1 c2 Hty) as MM.
  rewrite (finalNotes_explicit c1 formData HNE). cbv zeta.
  set (n := userNotes formData). set (M2 := maintenanceText (monthsFor c2)) in *.
  destruct (JS.includes n warrantyText);
    destruct (JS.includes n (maintenanceText (monthsFor c1)));
    destruct (JS.truthy n) eqn:ET;
    try (apply truthy_false in ET; rewrite ET);
    cbn [append]; rewrite ?append_empty_r, ?append_assoc;
    try match goal with
        | |- JS.includes (JS.LF ++ JS.LF ++ ?x) _ = _ =>
            change (JS.LF ++ JS.LF ++ x) with ("" ++ JS.LF ++ JS.LF ++ x)
        end;
    rewrite ?(includes_paragraphs M2 _ _ MLF ME), ?MW, ?MM, ?ME, ?orb_false_r;
    reflexivity.
Qed.

End NotesHistory.

(** X7. The fixed sentences are never taken back: when an invoice saved with
    a new-equipment item is saved again with every new-equipment box
    unticked, its notes stay as the first save wrote them, warranty sentence
    and recommendation included. *)
Theorem notes_kept_when_equipment_unticked :
  forall (tz : JSDate.zone) (clients : list Client.t) (invoice invoice2 : option Invoice.t)
         (formData inv1 formData2 inv2 : Invoice.t) (client : Client.t),
    clientOf clients (Invoice.clientId formData) = Some client ->
    InvoiceForm.handleSubmit tz clients invoice formData = InvoiceForm.Saved inv1 ->
    hasNewEquipment formData = true ->
    Invoice.notes formData2 = Invoice.notes inv1 ->
    hasNewEquipment formData2 = false ->
    InvoiceForm.handleSubmit tz clients invoice2 formData2 = InvoiceForm.Saved inv2 ->
    Invoice.notes inv2 = Invoice.notes inv1 /\
    exists n, Invoice.notes inv2 = Some n /\
              JS.includes n InvoiceForm.warrantyText = true /\
              JS.includes n (InvoiceForm.maintenanceText (monthsFor client)) = true.
Proof.
  intros tz clients invoice invoice2 formData inv1 formData2 inv2 client
         HC HS1 HNE Hn HNE2 HS2.
  pose proof (saved_notes _ _ _ _ _ _ HC HS1) as N1.
  destruct (saved_resolves _ _ _ _ _ HS2) as [client2 HC2].
  pose proof (saved_notes _ _ _ _ _ _ HC2 HS2) as N2.
  rewrite (finalNotes_no_equipment client2 formData2 HNE2) in N2.
  unfold userNotes in N2. rewrite Hn, N1 in N2.
  split; [congruence|].
  exists (InvoiceForm.finalNotes client formData). split; [exact N2|].
  now apply finalNotes_includes.
Qed.

Lemma notes_kept_when_equipment_unticked_witness :
  exists inv2,
    InvoiceForm.handleSubmit 0 [Sample.ana; Sample.luis] None Scenario.unticked
      = InvoiceForm.Saved inv2
    /\ Invoice.notes inv2 = Invoice.notes Scenario.savedEquipment.
Proof.
  eexists. split; [reflexivity|].
  apply (notes_kept_when_equipment_unticked 0 [Sample.ana; Sample.luis] None None
           Sample.equipmentDraft Scenario.savedEquipment Scenario.unticked _
           Sample.ana); reflexivity.
Defined.

(** X8. The recommendation follows the client of each save and adds up: when
    an invoice saved with a new-equipment item is saved again for a client
    of the other type, the recommendation of that type is appended after a
    blank line to the notes of the first save (unless the user had typed it),
    so the notes then hold both the 3-month and the 6-month sentence. *)
Theorem recommendation_added_for_other_client_type :
  forall (tz : JSDate.zone) (clients : list Client.t) (invoice invoice2 : option Invoice.t)
         (formData inv1 formData2 inv2 : Invoice.t) (c1 c2 : Client.t) (n1 : string),
    clientOf clients (Invoice.clientId formData) = Some c1 ->
    InvoiceForm.handleSubmit tz clients invoice formData = InvoiceForm.Saved inv1 ->
    hasNewEquipment formData = true ->
    Invoice.notes inv1 = Some n1 ->
    Invoice.notes formData2 = Some n1 ->
    hasNewEquipment formData2 = true ->
    clientOf clients (Invoice.clientId formData2) = Some c2 ->
    Client.type c1 <> Client.type c2 ->
    JS.includes (userNotes formData) (InvoiceForm.maintenanceText (monthsFor c2)) = false ->
    InvoiceForm.handleSubmit tz clients invoice2 formData2 = InvoiceForm.Saved inv2 ->
    Invoice.notes inv2
      = Some (n1 ++ JS.LF ++ JS.LF ++ InvoiceForm.maintenanceText (monthsFor c2)) /\
    JS.includes n1 (InvoiceForm.maintenanceText (monthsFor c1)) = true.
Proof.
  intros tz clients invoice invoice2 formData inv1 formData2 inv2 c1 c2 n1
         HC1 HS1 HNE1 Hn1 Hn2 HNE2 HC2 Hty Huser HS2.
  pose proof (saved_notes _ _ _ _ _ _ HC1 HS1) as N1.
  rewrite Hn1 in N1. injection N1 as N1.
  destruct (finalNotes_includes c1 formData HNE1) as [HW HM1].
  rewrite <- N1 in HW, HM1.
  split; [|exact HM1].
  rewrite (saved_notes _ _ _ _ _ _ HC2 HS2). f_equal.
  rewrite (finalNotes_explicit c2 formData2 HNE2). cbv zeta.
  unfold userNotes. rewrite Hn2, HW.
  assert (HM2 : JS.includes n1 (InvoiceForm.maintenanceText (monthsFor c2)) = false).
  { rewrite N1, (finalNotes_other_recommendation c1 c2 formData HNE1 Hty).
    exact Huser. }
  rewrite HM2. reflexivity.
Qed.

Lemma recommendation_added_for_other_client_type_witness :
  exists inv2 n2,
    InvoiceForm.handleSubmit 0 [Sample.ana; Sample.luis] None Scenario.forLuis
      = InvoiceForm.Saved inv2
    /\ Invoice.notes inv2 = Some n2
    /\ JS.includes n2 (InvoiceForm.maintenanceText 3) = true
    /\ JS.includes n2 (InvoiceForm.maintenanceText 6) = true.
Proof.
  destruct (recommendation_added_for_other_client_type 0 [Sample.ana; Sample.luis]
              None None Sample.equipmentDraft Scenario.savedEquipment
              Scenario.forLuis
              (Invoice.withIdNumber
                 (Invoice.withDerived Scenario.forLuis None
                    (InvoiceForm.finalNotes Sample.luis Scenario.forLuis)) "" "")
              Sample.ana Sample.luis
              (InvoiceForm.finalNotes Sample.ana Sample.equipmentDraft))
    as [H2 H1]; try reflexivity; try discriminate.
  eexists. eexists. split; [reflexivity|]. split; [exact H2|].
  split.
  - apply includes_append_l. exact H1.
  - rewrite <- !append_assoc. apply includes_suffix.
Defined.

(** X9. A service in whose name the word "mantenimiento" occurs, in any
    letter case, once picked into an invoice whose client resolves and whose
    issue date is a date, makes the save schedule a next maintenance date, in
    every time zone. *)
Theorem maintenance_service_schedules_a_date :
  forall (tz : JSDate.zone) (clients : list Client.t) (invoice : option Invoice.t)
         (formData : Invoice.t) (newId : string) (service : Service.t)
         (client : Client.t) (t : Z),
    occursIn (Service.name service) "mantenimiento" ->
    clientOf clients (Invoice.clientId formData) = Some client ->
    JSDate.ofString (Invoice.issueDate formData) = Some t ->
    exists inv d,
      InvoiceForm.handleSubmit tz clients invoice
        (InvoiceForm.handleAddService newId service formData)
        = InvoiceForm.Saved inv
      /\ Invoice.nextMaintenanceDate inv = Some d.
Proof.
  intros tz clients invoice formData newId service client t Hname HC Hd.
  apply includes_lowered_occurs in Hname; [|reflexivity].
  set (fd := InvoiceForm.handleAddService newId service formData).
  assert (HM : hasMaintenance fd = true).
  { unfold hasMaintenance, fd, InvoiceForm.handleAddService.
    cbn [Invoice.withItems Invoice.items]. rewrite existsb_app.
    cbn [existsb InvoiceItem.isMaintenance flag]. rewrite Hname.
    apply orb_true_r. }
  assert (HN : InvoiceForm.nextMaintenance tz fd
               = Some (JSDate.toISODate
                         (JSDate.setMonth tz (Some t)
                            (option_map (fun m => m + 6) (JSDate.getMonth tz (Some t)))))).
  { unfold InvoiceForm.nextMaintenance. unfold hasMaintenance in HM. rewrite HM.
    change (Invoice.issueDate fd) with (Invoice.issueDate formData).
    rewrite Hd. reflexivity. }
  cbn [JSDate.getMonth option_map JSDate.setMonth JSDate.toISODate] in HN.
  unfold InvoiceForm.handleSubmit.
  change (Invoice.clientId fd) with (Invoice.clientId formData).
  unfold clientOf in HC. rewrite HC, HN.
  eexists. eexists. split; reflexivity.
Qed.

Lemma maintenance_service_schedules_a_date_witness :
  exists inv d,
    InvoiceForm.handleSubmit Scenario.madrid [Sample.ana; Sample.luis] None
      (InvoiceForm.handleAddService "n7" Scenario.yearly Sample.equipmentDraft)
      = InvoiceForm.Saved inv
    /\ Invoice.nextMaintenanceDate inv = Some d.
Proof.
  apply (maintenance_service_schedules_a_date Scenario.madrid
           [Sample.ana; Sample.luis] None Sample.equipmentDraft "n7" Scenario.yearly
           Sample.ana 1710460800000).
  - exists "", "MANTENIMIENTO", " anual". split; reflexivity.
  - reflexivity.
  - reflexivity.
Defined.

(** ** The bill of materials in the service form *)

Section BomLookup.

Import ServiceForm.

Lemma find_app_none {A : Type} (p : A -> bool) (l r : list A) :
  find p l = None -> find p (l ++ r) = find p r.
Proof.
  induction l as [|x l IH]; simpl; [reflexivity|].
  destruct (p x); [discriminate | exact IH].
Qed.

Lemma find_app_some {A : Type} (p : A -> bool) (l r : list A) (x : A) :
  find p l = Some x -> find p (l ++ r) = Some x.
Proof.
  induction l as [|y l IH]; simpl; [discriminate|].
  destruct (p y); [trivial | exact IH].
Qed.

Lemma find_set_quantity_same (items : list ServiceItem.t) (itemId : string) (q : Z)
    (line : ServiceItem.t) :
  lineFor items itemId = Some line ->
  lineFor (map (fun i => if String.eqb (ServiceItem.inventoryItemId i) itemId
                         then ServiceItem.mk (ServiceItem.inventoryItemId i) q
                         else i) items) itemId
  = Some (ServiceItem.mk itemId q).
Proof.
  unfold lineFor. induction items as [|x items IH]; simpl; [discriminate|].
  destruct (String.eqb_spec (ServiceItem.inventoryItemId x) itemId) as [E|E].
  - intros _. cbn [ServiceItem.inventoryItemId]. rewrite E, String.eqb_refl.
    reflexivity.
  - intros H. apply String.eqb_neq in E. rewrite E. now apply IH.
Qed.

Lemma find_set_quantity_other (items : list ServiceItem.t) (itemId other : string)
    (q : Z) :
  other <> itemId ->
  lineFor (map (fun i => if String.eqb (ServiceItem.inventoryItemId i) itemId
                         then ServiceItem.mk (ServiceItem.inventoryItemId i) q
                         else i) items) other
  = lineFor items other.
Proof.
  intros Hne. unfold lineFor. induction items as [|x items IH]; simpl; [reflexivity|].
  destruct (String.eqb_spec (ServiceItem.inventoryItemId x) itemId) as [E|E].
  - cbn [ServiceItem.inventoryItemId]. rewrite E.
    apply String.eqb_neq in Hne. rewrite String.eqb_sym in Hne. rewrite Hne.
    exact IH.
  - destruct (String.eqb (ServiceItem.inventoryItemId x) other); [reflexivity | exact IH].
Qed.

Lemma find_removed_other (items : list ServiceItem.t) (itemId other : string) :
  other <> itemId ->
  lineFor (filter (fun i => negb (String.eqb (ServiceItem.inventoryItemId i) itemId))
                  items) other
  = lineFor items other.
Proof.
  intros Hne. unfold lineFor. rewrite find_filter. apply find_pointwise. intros x.
  destruct (String.eqb_spec (ServiceItem.inventoryItemId x) other) as [E|E];
    [|apply andb_false_r].
  rewrite andb_true_r. apply negb_true_iff, String.eqb_neq. congruence.
Qed.

Lemma find_removed_same (items : list ServiceItem.t) (itemId : string) :
  lineFor (filter (fun i => negb (String.eqb (ServiceItem.inventoryItemId i) itemId))
                  items) itemId
  = None.
Proof.
  unfold lineFor. rewrite find_filter. apply find_never. intros x.
  now destruct (String.eqb (ServiceItem.inventoryItemId x) itemId).
Qed.

(** The line for [itemId] after an edit of its quantity. *)
Lemma lineFor_after_edit (formData : Service.t) (itemId : string) (q : Z) :
  lineFor (Service.items (handleItemQuantityChange formData itemId q)) itemId
  = if q >? 0 then Some (ServiceItem.mk itemId q) else None.
Proof.
  unfold handleItemQuantityChange. cbn [Service.withItems Service.items].
  fold (lineFor (Service.items formData) itemId).
  destruct (lineFor (Service.items formData) itemId) as [line|] eqn:EF;
    destruct (q >? 0).
  - now apply find_set_quantity_same with line.
  - apply find_removed_same.
  - unfold lineFor. rewrite (find_app_none _ _ _ EF). simpl.
    now rewrite String.eqb_refl.
  - exact EF.
Qed.

Lemma lineFor_other_after_edit (formData : Service.t) (itemId other : string) (q : Z) :
  other <> itemId ->
  lineFor (Service.items (handleItemQuantityChange formData itemId q)) other
  = lineFor (Service.items formData) other.
Proof.
  intros Hne. unfold handleItemQuantityChange. cbn [Service.withItems Service.items].
  destruct (find _ (Service.items formData)) as [line|] eqn:EF;
    destruct (q >? 0).
  - now apply find_set_quantity_other.
  - now apply find_removed_other.
  - unfold lineFor.
    destruct (find (fun i => String.eqb (ServiceItem.inventoryItemId i) other)
                   (Service.items formData)) as [x|] eqn:EO.
    + now apply find_app_some.
    + rewrite (find_app_none _ _ _ EO). simpl.
      apply String.eqb_neq in Hne. rewrite String.eqb_sym in Hne. now rewrite Hne.
  - reflexivity.
Qed.

End BomLookup.

(** X10. The quantity field of an inventory item reads back what was typed:
    after a quantity edit the field of the edited item shows the quantity if
    it is positive and is empty otherwise, and the field of every other item
    shows what it showed before. *)
Theorem bom_quantity_reads_back :
  forall (formData : Service.t) (itemId other : string) (q : Z),
    ServiceForm.displayedQuantity
      (ServiceForm.handleItemQuantityChange formData itemId q) itemId
      = (if q >? 0 then Some q else None) /\
    (other <> itemId ->
     ServiceForm.displayedQuantity
       (ServiceForm.handleItemQuantityChange formData itemId q) other
       = ServiceForm.displayedQuantity formData other).
Proof.
  intros formData itemId other q. split.
  - unfold ServiceForm.displayedQuantity.
    fold (lineFor (Service.items
                     (ServiceForm.handleItemQuantityChange formData itemId q)) itemId).
    rewrite lineFor_after_edit. destruct (Z.gtb_spec q 0) as [H|H]; [|reflexivity].
    cbn [ServiceItem.quantity].
    destruct (Z.eqb_spec q 0); [lia | reflexivity].
  - intros Hne. unfold ServiceForm.displayedQuantity.
    fold (lineFor (Service.items
                     (ServiceForm.handleItemQuantityChange formData itemId q)) other).
    fold (lineFor (Service.items formData) other).
    now rewrite lineFor_other_after_edit.
Qed.

Lemma bom_quantity_reads_back_witness :
  ServiceForm.displayedQuantity
    (ServiceForm.handleItemQuantityChange Sample.kit "A" 0) "B" = Some 1.
Proof.
  rewrite (proj2 (bom_quantity_reads_back Sample.kit "A" "B" 0)).
  - reflexivity.
  - discriminate.
Defined.

(** ** Identifiers in the five collections *)

Section Identifiers.

Variables (A : Type) (id : A -> string).

Lemma replace_keeps_ids (x : A) (l : list A) :
  map id (map (fun y => if String.eqb (id y) (id x) then x else y) l) = map id l.
Proof.
  rewrite map_map. apply map_ext. intros y.
  destruct (String.eqb_spec (id y) (id x)); congruence.
Qed.

Lemma delete_removes_id (k : string) (l : list A) :
  ~ In k (map id (filter (fun y => negb (String.eqb (id y) k)) l)).
Proof.
  rewrite in_map_iff. intros [y [Hy Hin]]. apply filter_In in Hin as [_ H].
  rewrite Hy, String.eqb_refl in H. discriminate.
Qed.

Lemma snoc_fresh (ids : list string) (k : string) :
  NoDup ids -> ~ In k ids -> NoDup (ids ++ [k]).
Proof.
  intros Hnd Hk. apply NoDup_app; [assumption | | ].
  - constructor; [intros [] | constructor].
  - intros y Hy [<- | []]. now apply Hk.
Qed.

(** Handlers of the shape shared by the five pages keep identifiers. *)
Lemma handlers_keep_identifiers
    (save : option A -> list A -> string -> A -> list A)
    (delete : bool -> list A -> string -> list A) :
  (forall e l n x,
      save (Some e) l n x
      = map (fun y => if String.eqb (id y) (id x) then x else y) l) ->
  (forall l n x, exists y, save None l n x = (l ++ [y])%list /\ id y = n) ->
  (forall c l k,
      delete c l k
      = if c then filter (fun y => negb (String.eqb (id y) k)) l else l) ->
  keepsIdentifiers id save delete.
Proof.
  intros Hedit Hnew Hdel l editing newId k x confirmed Hnd.
  destruct (Hnew l newId x) as [y [Hy Hid]].
  rewrite !Hdel, Hedit, Hy, map_app, replace_keeps_ids. cbn [map].
  rewrite Hid. repeat split.
  - destruct confirmed; [now apply NoDup_map_filter | assumption].
  - apply delete_removes_id.
  - now apply snoc_fresh.
Qed.

End Identifiers.

(** X12. In each of the five collections (clients, inventory, expenses,
    services, invoices) the handlers keep identifiers distinct: a deletion
    keeps them distinct and, once confirmed, leaves no entity with the
    deleted identifier, a declined deletion changes nothing, an edit keeps
    the list of identifiers (so neither the number nor the order of the
    entities), and a creation appends the generated identifier, which keeps
    them distinct when it is fresh. *)
Theorem collections_keep_identifiers :
  (forall createdAt : string,
     keepsIdentifiers Client.id
       (fun e l n x => ClientsPage.handleSaveClient e l n createdAt x)
       ClientsPage.handleDeleteClient) /\
  keepsIdentifiers InventoryItem.id InventoryItemsManager.handleSaveItem
    InventoryItemsManager.handleDeleteItem /\
  keepsIdentifiers Expense.id ExpensesPage.handleSaveExpense
    ExpensesPage.handleDeleteExpense /\
  keepsIdentifiers Service.id ServicesManager.handleSaveService
    ServicesManager.handleDeleteService /\
  keepsIdentifiers Invoice.id InvoicesPage.handleSaveInvoice
    InvoicesPage.handleDeleteInvoice.
Proof.
  split; [intros createdAt|split; [|split; [|split]]];
    apply handlers_keep_identifiers; try reflexivity;
    intros l n x; eexists; split; reflexivity.
Qed.

Lemma collections_keep_identifiers_witness :
  NoDup (map Invoice.id
           (InvoicesPage.handleSaveInvoice None [Sample.stored; Sample.other] "k9"
              Sample.refundDraft)).
Proof.
  apply (proj2 (proj2 (proj2 (proj2 collections_keep_identifiers)))
           [Sample.stored; Sample.other] Sample.stored "k9" "k7" Sample.refundDraft true).
  - repeat constructor; simpl; intuition discriminate.
  - simpl. intuition discriminate.
Defined.

(** ** useLocalStorage *)

Section Storage.

Import LocalStorage.

Context {T : Type}.
Variables (parse : string -> option T) (stringify : T -> string).

Lemma initialState_setItem_same (st : storage) (key : string) (v init : T) :
  parse (stringify v) = Some v -> stringify v <> "" ->
  initialState parse (setItem st key (stringify v)) key init = v.
Proof.
  intros Hp Hne. unfold initialState, getItem, setItem.
  rewrite String.eqb_refl.
  destruct (stringify v) eqn:E; [congruence|]. cbn [JS.truthy]. now rewrite Hp.
Qed.

Lemma initialState_setItem_other (st : storage) (key other value : string) (init : T) :
  other <> key ->
  initialState parse (setItem st key value) other init
  = initialState parse st other init.
Proof.
  intros Hne. unfold initialState, getItem, setItem.
  apply String.eqb_neq in Hne. now rewrite Hne.
Qed.

End Storage.

(** X13. A collection written through the hook is read back on the next
    load, provided its JSON text parses back to it and is not empty; the
    other keys load what they loaded before; when the write fails the state
    still takes the new value while the storage keeps the old text, so the
    next load returns to the old value; and a missing key, an empty text or a
    text that does not parse load the default. *)
Theorem stored_value_read_back :
  forall (T : Type) (parse : string -> option T) (stringify : T -> string)
         (st : LocalStorage.storage) (key other : string)
         (storedValue init : T) (value : LocalStorage.action T),
    let v := match value with
             | LocalStorage.Value x => x
             | LocalStorage.Updater f => f storedValue
             end in
    let written := LocalStorage.setValue stringify false key storedValue st value in
    let failed := LocalStorage.setValue stringify true key storedValue st value in
    parse (stringify v) = Some v ->
    stringify v <> "" ->
    fst written = v /\
    LocalStorage.initialState parse (snd written) key init = v /\
    (other <> key ->
     LocalStorage.initialState parse (snd written) other init
     = LocalStorage.initialState parse st other init) /\
    fst failed = v /\
    LocalStorage.initialState parse (snd failed) key init
      = LocalStorage.initialState parse st key init /\
    (LocalStorage.getItem st key = None \/ LocalStorage.getItem st key = Some ""
     \/ (exists item, LocalStorage.getItem st key = Some item /\ parse item = None) ->
     LocalStorage.initialState parse st key init = init).
Proof.
  intros T parse stringify st key other storedValue init value v written failed Hp Hne.
  unfold written, failed, LocalStorage.setValue. cbn [fst snd]. fold v.
  repeat split.
  - now apply initialState_setItem_same.
  - intros Ho. now apply initialState_setItem_other.
  - unfold LocalStorage.initialState.
    intros [-> | [-> | [item [-> Hi]]]]; try reflexivity.
    destruct (JS.truthy item); [now rewrite Hi | reflexivity].
Qed.

Lemma stored_value_read_back_witness :
  LocalStorage.initialState decimalValue
    (snd (LocalStorage.setValue JS.toString false "count" 7%nat
            (oneKey "count" "7") (LocalStorage.Updater S)))
    "count" 0%nat
  = 8%nat.
Proof.
  apply (stored_value_read_back nat decimalValue JS.toString (oneKey "count" "7")
           "count" "other" 7%nat 0%nat (LocalStorage.Updater S)).
  - reflexivity.
  - discriminate.
Defined.

(** ** The expenses table *)

Section ExpensesTable.

Import ExpensesPage.

Lemma insert_perm (x : Expense.t) (l : list Expense.t) :
  Permutation (insert x l) (x :: l).
Proof.
  induction l as [|y l IH]; simpl; [reflexivity|].
  destruct (keepsOrder x y); [reflexivity|].
  rewrite IH. apply perm_swap.
Qed.

Lemma sort_perm (l : list Expense.t) : Permutation (sort l) l.
Proof.
  induction l as [|x l IH]; simpl; [reflexivity|].
  rewrite insert_perm. now constructor.
Qed.

Lemma keepsOrder_dated (a b : Expense.t) :
  dated a -> dated b -> (keepsOrder a b = true <-> latestFirst a b).
Proof.
  unfold dated, keepsOrder, compareByDate, latestFirst, timeOf.
  destruct (JSDate.ofString (Expense.date a)), (JSDate.ofString (Expense.date b));
    try congruence.
  intros _ _. rewrite Z.leb_le. lia.
Qed.

Lemma Forall_perm {A : Type} (P : A -> Prop) (a b : list A) :
  Permutation a b -> Forall P a -> Forall P b.
Proof. intros H F. exact (Permutation_Forall H F). Qed.

Lemma insert_sorted (x : Expense.t) (l : list Expense.t) :
  dated x -> Forall dated l ->
  StronglySorted latestFirst l -> StronglySorted latestFirst (insert x l).
Proof.
  intros Hx Hl Hs. induction Hs as [|y l Hs IH Hy]; simpl.
  - constructor; constructor.
  - inversion Hl as [|? ? Hdy Hdl]; subst.
    destruct (keepsOrder x y) eqn:E.
    + apply (keepsOrder_dated x y Hx Hdy) in E.
      constructor; [constructor; assumption|].
      constructor; [exact E|].
      apply Forall_impl with (2 := Hy). unfold latestFirst in *. intros z Hz. lia.
    + assert (E' : latestFirst y x).
      { destruct (Z.le_gt_cases (timeOf y) (timeOf x)) as [H|H].
        - apply (keepsOrder_dated x y Hx Hdy) in H. congruence.
        - unfold latestFirst. lia. }
      constructor; [now apply IH|].
      apply (Forall_perm _ (x :: l)); [symmetry; apply insert_perm |].
      now constructor.
Qed.

Lemma sort_sorted (l : list Expense.t) :
  Forall dated l -> StronglySorted latestFirst (sort l).
Proof.
  induction l as [|x l IH]; simpl; intros H; [constructor|].
  inversion H as [|? ? Hx Hl]; subst.
  apply insert_sorted; [assumption | | now apply IH].
  apply (Forall_perm _ (l)); [symmetry; apply sort_perm | assumption].
Qed.

(** A table that is in order is left as it is. *)
Lemma sort_of_sorted (l : list Expense.t) :
  Forall dated l -> StronglySorted latestFirst l -> sort l = l.
Proof.
  intros Hd Hs. induction Hs as [|x l Hs IH Hx]; [reflexivity|].
  inversion Hd as [|? ? Hdx Hdl]; subst.
  simpl. rewrite (IH Hdl). destruct l as [|y l]; [reflexivity|].
  simpl. inversion Hx as [|? ? Hxy _]; subst. inversion Hdl; subst.
  now rewrite (proj2 (keepsOrder_dated x y Hdx ltac:(assumption)) Hxy).
Qed.

End ExpensesTable.

(** X15. When every stored expense has a date that is a date, the sort of
    the expenses table keeps every expense (the sorted array is a permutation
    of the stored one), puts the latest first and leaves a table that is
    already in that order as it is, so a second sort changes nothing. *)
Theorem expenses_table_sorted :
  forall expenses : list Expense.t,
    Forall dated expenses ->
    Permutation (ExpensesPage.sort expenses) expenses /\
    StronglySorted latestFirst (ExpensesPage.sort expenses) /\
    ExpensesPage.sort (ExpensesPage.sort expenses) = ExpensesPage.sort expenses.
Proof.
  intros expenses Hd.
  split; [apply sort_perm|].
  split; [now apply sort_sorted|].
  apply sort_of_sorted; [|now apply sort_sorted].
  apply (Forall_perm _ (expenses)); [symmetry; apply sort_perm | assumption].
Qed.

Lemma expenses_table_sorted_witness :
  ExpensesPage.sort [Scenario.tools; Sample.fuel; Scenario.travel]
    = [Scenario.travel; Sample.fuel; Scenario.tools] /\
  StronglySorted latestFirst
    (ExpensesPage.sort [Scenario.tools; Sample.fuel; Scenario.travel]).
Proof.
  split; [reflexivity|].
  apply (expenses_table_sorted [Scenario.tools; Sample.fuel; Scenario.travel]).
  repeat constructor; discriminate.
Defined.

(** X19. The sort of the expenses table is made in place, on the array the
    dashboard adds up, and the sum of doubles depends on the order: there are
    expenses of one month, entered in the order of their dates, whose total
    on the dashboard is 0.6000000000000001 before the table has been shown
    and 0.6 after. *)
Theorem expenses_total_depends_on_order :
  exists expenses : list Expense.t,
    Forall dated expenses /\
    DashboardPage.totalExpenses 0 Sample.midMarch expenses
      = SFsucc 53 1024 (cents 60) /\
    DashboardPage.totalExpenses 0 Sample.midMarch (ExpensesPage.sort expenses)
      = cents 60 /\
    SFsucc 53 1024 (cents 60) <> cents 60.
Proof.
  exists Scenario.smallExpenses.
  split; [repeat constructor; discriminate|].
  vm_compute. repeat split. discriminate.
Qed.

(** ** Item objects shared between the form and the stored invoice *)

Section SharedItems.

Import ItemObjects.

Lemma nth_error_store_same (h : heap) (addr : nat) (x y : InvoiceItem.t) :
  nth_error h addr = Some x -> nth_error (store h addr y) addr = Some y.
Proof.
  revert addr; induction h as [|z h IH]; intros addr H.
  - destruct addr; discriminate.
  - destruct addr as [|a]; simpl in *; [reflexivity | now apply IH].
Qed.

Lemma nth_error_store_other (h : heap) (addr other : nat) (y : InvoiceItem.t) :
  other <> addr -> nth_error (store h addr y) other = nth_error h other.
Proof.
  revert addr other; induction h as [|z h IH]; intros addr other Hne.
  - reflexivity.
  - destruct addr as [|a], other as [|o]; simpl; try reflexivity; try congruence.
    apply IH. congruence.
Qed.

Lemma read_store_absent (h : heap) (addr : nat) (y : InvoiceItem.t) (items : list nat) :
  ~ In addr items -> read (store h addr y) items = read h items.
Proof.
  induction items as [|a items IH]; intros Hn; [reflexivity|].
  cbn [read]. rewrite nth_error_store_other by (intros ->; apply Hn; now left).
  rewrite IH by (intros Hin; apply Hn; now right). reflexivity.
Qed.

Lemma read_store_at (h : heap) (items : list nat) (index addr : nat)
    (y : InvoiceItem.t) (old : list InvoiceItem.t) :
  NoDup items -> nth_error items index = Some addr -> read h items = Some old ->
  read (store h addr y) items
  = Some (firstn index old ++ y :: skipn (S index) old)%list.
Proof.
  revert index old; induction items as [|a items IH]; intros index old Hnd Hi Hr.
  - destruct index; discriminate.
  - inversion Hnd as [|? ? Hnotin Hrest]; subst.
    cbn [read] in Hr.
    destruct (nth_error h a) as [x|] eqn:Ea; [|discriminate].
    destruct (read h items) as [rest|] eqn:Er; [|discriminate].
    injection Hr as <-.
    destruct index as [|n]; simpl in Hi.
    + injection Hi as ->. cbn [read].
      rewrite (nth_error_store_same h addr x y Ea).
      rewrite (read_store_absent h addr y items Hnotin), Er. reflexivity.
    + cbn [read].
      assert (Hne : a <> addr).
      { intros ->. apply Hnotin. now apply nth_error_In with n. }
      rewrite (nth_error_store_other h addr a y Hne), Ea.
      rewrite (IH n rest Hrest Hi eq_refl). reflexivity.
Qed.

Lemma read_nth (h : heap) (items : list nat) (old : list InvoiceItem.t)
    (index : nat) (item : InvoiceItem.t) :
  read h items = Some old -> nth_error old index = Some item ->
  exists addr, nth_error items index = Some addr /\ nth_error h addr = Some item.
Proof.
  revert old index; induction items as [|a items IH]; intros old index Hr Hn.
  - injection Hr as <-. destruct index; discriminate.
  - cbn [read] in Hr.
    destruct (nth_error h a) as [x|] eqn:Ea; [|discriminate].
    destruct (read h items) as [rest|] eqn:Er; [|discriminate].
    injection Hr as <-. destruct index as [|n]; simpl in Hn.
    + injection Hn as <-. now exists a.
    + now apply (IH rest n).
Qed.

End SharedItems.

(** X16. A field typed into a line of the form of a stored invoice is
    written into the item object that the stored invoice holds: without any
    save, the items of the stored invoice then read as before except for the
    assigned field of that line, and the total listed for the invoice is the
    total of the items so changed; arrays that do not hold the object read as
    before, and an index outside the array is an error. *)
Theorem item_change_reaches_stored_invoice :
  forall (h : ItemObjects.heap) (storedItems : list nat) (index : nat)
         (c : ItemObjects.change),
    (forall (old : list InvoiceItem.t) (item : InvoiceItem.t),
       ItemObjects.read h storedItems = Some old ->
       NoDup storedItems ->
       nth_error old index = Some item ->
       exists h' addr,
         ItemObjects.handleItemChange h (ItemObjects.openForm storedItems) index c
           = Some (h', storedItems)
         /\ nth_error storedItems index = Some addr
         /\ ItemObjects.read h' storedItems
            = Some (firstn index old ++ ItemObjects.assign item c
                                        :: skipn (S index) old)%list
         /\ ItemObjects.listedTotal h' storedItems
            = Some (itemsTotal (firstn index old ++ ItemObjects.assign item c
                                                   :: skipn (S index) old)%list)
         /\ (forall others, ~ In addr others ->
               ItemObjects.read h' others = ItemObjects.read h others)) /\
    (nth_error storedItems index = None ->
     ItemObjects.handleItemChange h (ItemObjects.openForm storedItems) index c = None).
Proof.
  intros h storedItems index c. split.
  - intros old item Hr Hnd Hn.
    destruct (read_nth h storedItems old index item Hr Hn) as [addr [Ha Hx]].
    exists (ItemObjects.store h addr (ItemObjects.assign item c)), addr.
    assert (HR : ItemObjects.read
                   (ItemObjects.store h addr (ItemObjects.assign item c)) storedItems
                 = Some (firstn index old ++ ItemObjects.assign item c
                                             :: skipn (S index) old)%list)
      by now apply read_store_at.
    split; [|split; [exact Ha|split; [exact HR|split]]].
    + unfold ItemObjects.handleItemChange, ItemObjects.openForm.
      now rewrite Ha, Hx.
    + unfold ItemObjects.listedTotal. now rewrite HR.
    + intros others Ho. now apply read_store_absent.
  - intros Hn. unfold ItemObjects.handleItemChange, ItemObjects.openForm.
    now rewrite Hn.
Qed.

Lemma item_change_reaches_stored_invoice_witness :
  exists h',
    ItemObjects.handleItemChange [Sample.split; Sample.cleaning]
      (ItemObjects.openForm [1%nat; 0%nat]) 0 (ItemObjects.Quantity (JS.ofZ 3))
      = Some (h', [1%nat; 0%nat])
    /\ ItemObjects.listedTotal [Sample.split; Sample.cleaning] [1%nat; 0%nat]
       = Some (JS.ofZ 200)
    /\ ItemObjects.listedTotal h' [1%nat; 0%nat] = Some (JS.ofZ 400).
Proof.
  destruct (proj1 (item_change_reaches_stored_invoice [Sample.split; Sample.cleaning]
                     [1%nat; 0%nat] 0 (ItemObjects.Quantity (JS.ofZ 3)))
              [Sample.cleaning; Sample.split] Sample.cleaning eq_refl)
    as [h' [addr [H1 [_ [_ [H4 _]]]]]].
  - repeat constructor; simpl; intuition discriminate.
  - reflexivity.
  - exists h'. split; [exact H1|]. split; [vm_compute; reflexivity|].
    rewrite H4. vm_compute. reflexivity.
Defined.

(** ** Dates written by the form and read by the dashboard *)

Section DateRoundTrip.

Import JSDate.

Lemma range_check (f : Z -> bool) (N : nat) :
  forallb f (map Z.of_nat (seq 0 N)) = true ->
  forall n, 0 <= n < Z.of_nat N -> f n = true.
Proof.
  intros H n Hn. rewrite forallb_forall in H. apply H.
  rewrite in_map_iff. exists (Z.to_nat n). split; [lia|].
  apply in_seq. lia.
Qed.

Lemma twoDigits_ok (n : Z) : 0 <= n <= 99 -> twoDigits n = true.
Proof.
  intros H. apply (range_check twoDigits (Z.to_nat 100)); [vm_compute; reflexivity | lia].
Qed.

Lemma fourDigits_ok (n : Z) : 0 <= n <= 9999 -> fourDigits n = true.
Proof.
  intros H. apply (range_check fourDigits (Z.to_nat 10000)); [vm_compute; reflexivity | lia].
Qed.

Lemma daysInMonth_le_31 (y m : Z) : daysInMonth y m <= 31.
Proof.
  unfold daysInMonth.
  destruct m as [|p|p]; try lia.
  destruct (isLeap y);
    repeat (destruct p as [p|p|]; try lia).
Qed.

(** A date written in the ISO form is read back. *)
Lemma iso_date_read_back (y m d : Z) :
  0 <= y <= 9999 -> validDate y m d ->
  fieldsOfString (isoYear y ++ "-" ++ pad 2 m ++ "-" ++ pad 2 d) = Some (y, m, d).
Proof.
  intros Hy [Hm Hd].
  pose proof (daysInMonth_le_31 y m) as H31.
  pose proof (fourDigits_ok y Hy) as FY.
  pose proof (twoDigits_ok m ltac:(lia)) as FM.
  pose proof (twoDigits_ok d ltac:(lia)) as FD.
  unfold isoYear.
  replace ((0 <=? y) && (y <=? 9999)) with true
    by (symmetry; apply andb_true_iff; split; apply Z.leb_le; lia).
  unfold fourDigits in FY. unfold twoDigits in FM, FD.
  destruct (pad 4 y) as [|a [|b [|c [|e [|? ?]]]]]; try discriminate.
  destruct (pad 2 m) as [|f [|g [|? ?]]]; try discriminate.
  destruct (pad 2 d) as [|i [|j [|? ?]]]; try discriminate.
  cbn [append fieldsOfString].
  destruct (digit a) as [xa|], (digit b) as [xb|], (digit c) as [xc|],
           (digit e) as [xe|]; try discriminate.
  destruct (digit f) as [xf|], (digit g) as [xg|]; try discriminate.
  destruct (digit i) as [xi|], (digit j) as [xj|]; try discriminate.
  apply Z.eqb_eq in FY, FM, FD. cbv zeta. rewrite FY, FM, FD.
  replace (isDash "-") with true by reflexivity. cbn [andb].
  replace (1 <=? m) with true by (symmetry; apply Z.leb_le; lia).
  replace (m <=? 12) with true by (symmetry; apply Z.leb_le; lia).
  replace (1 <=? d) with true by (symmetry; apply Z.leb_le; lia).
  replace (d <=? daysInMonth y m) with true by (symmetry; apply Z.leb_le; lia).
  reflexivity.
Qed.

(** The calendar fields of every instant form a calendar date, the one of
    its day. *)
Lemma fields_of_time (t : Z) :
  validDate (YearFromTime t) (MonthFromTime t + 1) (DateFromTime t) /\
  MakeDay (YearFromTime t) (MonthFromTime t) (DateFromTime t) = Day t.
Proof.
  pose proof (YearFromDay_spec (Day t)) as S.
  rewrite DayFromYear_succ in S. fold (YearFromTime t) in S.
  assert (W : 0 <= DayWithinYear t < DaysInYear (YearFromTime t))
    by (unfold DayWithinYear; lia).
  unfold DateFromTime, MonthFromTime, InLeapYear, validDate, DaysInYear in *.
  set (w := DayWithinYear t) in *. set (y := YearFromTime t) in *.
  assert (M : 0 <= monthOfDay w (if isLeap y then 1 else 0) <= 11 /\
              1 <= w - monthStart (monthOfDay w (if isLeap y then 1 else 0))
                                  (if isLeap y then 1 else 0) + 1
                <= daysInMonth y (monthOfDay w (if isLeap y then 1 else 0) + 1)).
  { unfold monthOfDay, daysInMonth. destruct (isLeap y);
      repeat match goal with
             | |- context [?a <? ?b] => destruct (Z.ltb_spec a b)
             end; cbn [monthStart Z.add Pos.add Pos.succ]; lia. }
  destruct M as [M1 M2]. split; [split; [lia | exact M2]|].
  unfold MakeDay. cbv zeta.
  rewrite (Z.div_small _ 12), (Z.mod_small _ 12), Z.add_0_r by lia.
  unfold w, DayWithinYear. fold y. lia.
Qed.

Lemma toISODate_read_back (t : Z) :
  0 <= YearFromTime t <= 9999 ->
  exists s, toISODate (Some t) = Some s /\
            ofString s = Some (MakeDate (Day t) 0).
Proof.
  intros Hy. destruct (fields_of_time t) as [V D].
  eexists. split; [reflexivity|].
  unfold ofString. rewrite (iso_date_read_back _ _ _ Hy V).
  replace (MonthFromTime t + 1 - 1) with (MonthFromTime t) by lia.
  now rewrite D.
Qed.

End DateRoundTrip.

(** A scheduled date is the ISO date of an instant. *)
Lemma nextMaintenance_iso (tz : JSDate.zone) (formData : Invoice.t)
    (next : option string) :
  hasMaintenance formData = true ->
  InvoiceForm.nextMaintenance tz formData = Some next ->
  exists t, next = JSDate.toISODate (Some t).
Proof.
  unfold hasMaintenance, InvoiceForm.nextMaintenance. intros ->.
  destruct (JSDate.ofString (Invoice.issueDate formData)) as [t0|];
    cbn [JSDate.getMonth option_map JSDate.setMonth]; [|discriminate].
  intros H. eexists.
  exact (eq_sym (f_equal (fun o => match o with Some v => v | None => None end) H)).
Qed.

(** X17. The date the form stores for the next maintenance is the UTC
    calendar day of the instant it computed, and the dashboard reads it back
    as midnight UTC of that day: an invoice saved with a maintenance line
    carries the ISO date of some instant, and an invoice that carries the ISO
    date of an instant (of a year of four digits) passes the window test of
    the dashboard exactly when midnight UTC of the day of that instant lies
    between now and fifteen days later. *)
Theorem scheduled_date_read_by_dashboard :
  (forall (tz : JSDate.zone) (clients : list Client.t) (invoice : option Invoice.t)
          (formData inv : Invoice.t),
      InvoiceForm.handleSubmit tz clients invoice formData = InvoiceForm.Saved inv ->
      hasMaintenance formData = true ->
      exists t, Invoice.nextMaintenanceDate inv = JSDate.toISODate (Some t)) /\
  (forall (now t : Z) (inv : Invoice.t),
      0 <= JSDate.YearFromTime t <= 9999 ->
      Invoice.nextMaintenanceDate inv = JSDate.toISODate (Some t) ->
      let day := JSDate.MakeDate (JSDate.Day t) 0 in
      DashboardPage.inWindow now inv
        = (day <=? now + 15 * 24 * 60 * 60 * 1000) && (day >=? now)).
Proof.
  split.
  - intros tz clients invoice formData inv HS HM.
    unfold InvoiceForm.handleSubmit in HS.
    destruct (find _ clients); [|discriminate].
    destruct (InvoiceForm.nextMaintenance tz formData) as [next|] eqn:EN;
      [|discriminate].
    injection HS as <-.
    cbn [Invoice.withIdNumber Invoice.withDerived Invoice.nextMaintenanceDate].
    now apply (nextMaintenance_iso tz formData).
  - intros now t inv Hy HN day.
    destruct (toISODate_read_back t Hy) as [s [Hs Ho]].
    unfold DashboardPage.inWindow. rewrite HN, Hs, Ho.
    now rewrite (ofString_nonempty s _ Ho).
Qed.

Lemma scheduled_date_read_by_dashboard_witness :
  DashboardPage.inWindow 1724112000000 Scenario.savedMaintenance = true.
Proof.
  assert (HY : 0 <= JSDate.YearFromTime 1725148800000 <= 9999)
    by (vm_compute; split; discriminate).
  rewrite (proj2 scheduled_date_read_by_dashboard 1724112000000 1725148800000
             Scenario.savedMaintenance HY eq_refl).
  vm_compute. reflexivity.
Defined.

(** X18. A new invoice form starts with one blank line, a total of 0, today's
    UTC date as issue date and the UTC date of the day thirty days later as
    due date (for clock readings within the years of four digits). *)
Theorem new_invoice_form_defaults :
  forall (now now' : Z) (newId : string),
    let formData := NewInvoice.initialFormData now now' newId in
    InvoiceForm.subtotal formData = JS.zero /\
    (0 <= JSDate.YearFromTime now <= 9999 ->
     0 <= JSDate.YearFromTime (now' + 30 * JSDate.msPerDay) <= 9999 ->
     JSDate.ofString (Invoice.issueDate formData)
       = Some (JSDate.MakeDate (JSDate.Day now) 0) /\
     JSDate.ofString (Invoice.dueDate formData)
       = Some (JSDate.MakeDate (JSDate.Day now' + 30) 0)).
Proof.
  intros now now' newId formData.
  split; [reflexivity|].
  intros Hy Hy'.
  destruct (toISODate_read_back now Hy) as [s [Hs Ho]].
  destruct (toISODate_read_back (now' + 30 * JSDate.msPerDay) Hy')
    as [s' [Hs' Ho']].
  unfold formData.
  cbn [NewInvoice.initialFormData Invoice.issueDate Invoice.dueDate].
  unfold NewInvoice.isoDay.
  replace (now' + 30 * 24 * 60 * 60 * 1000) with (now' + 30 * JSDate.msPerDay)
    by (unfold JSDate.msPerDay; lia).
  rewrite Hs, Hs', Ho, Ho'. split; [reflexivity|].
  do 2 f_equal. unfold JSDate.Day, JSDate.msPerDay.
  Z.to_euclidean_division_equations; lia.
Qed.

Lemma new_invoice_form_defaults_witness :
  Invoice.issueDate
    (NewInvoice.initialFormData Sample.midMarch (Sample.midMarch + 1) "n1")
    = "2024-03-15" /\
  JSDate.ofString
    (Invoice.dueDate
       (NewInvoice.initialFormData Sample.midMarch (Sample.midMarch + 1) "n1"))
    = Some (JSDate.MakeDate (JSDate.Day (Sample.midMarch + 1) + 30) 0).
Proof.
  split; [reflexivity|].
  apply (proj2 (new_invoice_form_defaults Sample.midMarch (Sample.midMarch + 1) "n1"));
    vm_compute; split; discriminate.
Defined.
